(** * linear-agent: a shallow embedding of the webhook orchestrator

    The development follows the layout of the repository:

    - [Js]        the few string primitives of the JavaScript runtime the code uses;
    - [Crypto]    src/utils/crypto.ts (webhook signature verification);
    - [Branch]    src/utils/branch.ts (feature-branch names);
    - [Schema]    the tables of src/db/schema.sql and the migrations;
    - [Sql]       the statements of src/db/queries.ts on those tables;
    - [Effects]   the request monad: the store, the calls issued so far, and
                  exceptions;
    - [Queries]   src/db/queries.ts as steps of a request;
    - [Services]  src/services/linear.ts, src/services/github-app.ts and
                  src/services/workflow.ts;
    - [Handlers]  src/handlers/*.ts;
    - [Scenario]  a concrete environment, payloads and stores for examples;
    - [Statements] the vocabulary of the theorems;
    - [SqlMore]   two more lookups of src/db/queries.ts;
    - [Html]      escapeHtml of src/index.ts;
    - [OAuth]     the OAuth routes of src/index.ts and the token functions of
                  src/services/linear.ts, on the two OAuth tables;
    - [Cases]     further concrete settings;
    - [Frames]    relations between the store before and after a request;
    - [TextStatements], [SessionStatements], [TriggerStatements],
      [CancelStatements], [OAuthStatements]  more vocabulary.

    The properties follow the definitions, one module per source unit.

    Strings are Rocq strings, a character standing for one UTF-16 code
    unit below 256: the model covers the strings of Latin-1, on which
    [toLowerCase], [includes], [slice], [length] and the character classes
    of the code act code unit by code unit, as defined in [Js]. Strings with
    other code units are outside the model. The literals of the code that
    contain such characters (the marks that open some messages and pages)
    are written as their UTF-8 bytes; they are only ever sent, never
    measured or changed in case. JavaScript numbers that hold identifiers
    and clock readings are naturals in [N].

    The store is D1: AUTOINCREMENT row ids are never reused (an insert that
    is ignored or turned into an update still uses one up), and the two
    foreign keys of the schema are enforced. [crypto.subtle.importKey]
    rejects an empty HMAC key. *)

From Stdlib Require Import String Ascii List Bool NArith ZArith Arith Lia.
From Stdlib Require Import RelationClasses.
From Stdlib Require Import Decimal DecimalString DecimalN.
Import ListNotations.

Local Open Scope string_scope.
Local Open Scope N_scope.

(* ================================================================= *)
(** ** JavaScript string primitives *)

Module Js.

(** [String.prototype.toLowerCase] on one code unit below 256: the letters
    A-Z and the capital letters of Latin-1 (U+00C0-U+00DE but the
    multiplication sign) move 32 up; every other one is left as it is. *)
Definition lowerChar (c : ascii) : ascii :=
  let n := N_of_ascii c in
  if ((65 <=? n) && (n <=? 90))
     || ((192 <=? n) && (n <=? 222) && negb (n =? 215))
  then ascii_of_N (n + 32) else c.

Fixpoint toLowerCase (s : string) : string :=
  match s with
  | EmptyString => EmptyString
  | String c s' => String (lowerChar c) (toLowerCase s')
  end.

(** [s.includes(sub)]: [sub] occurs in [s] at some position. *)
Fixpoint includes (s sub : string) : bool :=
  String.prefix sub s ||
  match s with
  | EmptyString => false
  | String _ s' => includes s' sub
  end.

(** [s.slice(n)] for [0 <= n]: drop the first [n] characters. *)
Fixpoint slice (n : nat) (s : string) : string :=
  match n, s with
  | O, _ => s
  | S n', String _ s' => slice n' s'
  | S _, EmptyString => EmptyString
  end.

(** [s.substring(0, n)]: the first [n] characters. *)
Fixpoint take (n : nat) (s : string) : string :=
  match n, s with
  | S n', String c s' => String c (take n' s')
  | _, _ => EmptyString
  end.

(** A string in a boolean position: the empty string is falsy. *)
Definition truthy (s : string) : bool :=
  match s with EmptyString => false | String _ _ => true end.

(** A nullable string in a boolean position: [null], [undefined] and the
    empty string are falsy. *)
Definition truthyOpt (o : option string) : bool :=
  match o with Some s => truthy s | None => false end.

(** A nullable number in a boolean position: [null] and [0] are falsy. *)
Definition truthyNum (o : option N) : bool :=
  match o with Some n => negb (n =? 0) | None => false end.

(** [a || b] on nullable strings where [b] is a string. *)
Definition orString (a : option string) (b : string) : string :=
  match a with
  | Some s => if truthy s then s else b
  | None => b
  end.

(** [a || null] and [a || undefined]. *)
Definition orNull (a : option string) : option string :=
  if truthyOpt a then a else None.

(** A non-negative integer in a template literal: its decimal digits. *)
Definition numberToString (n : N) : string :=
  NilEmpty.string_of_uint (N.to_uint n).

(** A JSON value: what [c.json] answers with, what [logEvent] receives as
    metadata, and what a workflow input carries. *)
#[local] Unset Elimination Schemes.
Inductive Json :=
| JNull
| JString (s : string)
| JNumber (n : N)
| JArray (items : list Json)
| JObject (fields : list (string * Json)).
#[local] Set Elimination Schemes.

End Js.

(* ================================================================= *)
(** ** src/utils/crypto.ts *)

Module Crypto.

Section Verify.

(** The two platform primitives the file calls: [TextEncoder.encode], and
    the HMAC-SHA-256 that [crypto.subtle.sign] computes of the message bytes
    under an imported key. *)
Variable encode : string -> list Byte.byte.
Variable hmac_sha256 : list Byte.byte -> list Byte.byte -> list Byte.byte.

(** [crypto.subtle.importKey('raw', keyData, {name: 'HMAC', hash: 'SHA-256'},
    false, ['sign'])]: the key, or [None] when the promise is rejected, which
    it is (with a DataError) exactly for key data of length zero. *)
Definition importKey (keyData : list Byte.byte) : option (list Byte.byte) :=
  match keyData with
  | [] => None
  | _ :: _ => Some keyData
  end.

(** One hexadecimal digit, lowercase, as [Number.prototype.toString(16)]
    prints it. *)
Definition hexDigit (n : N) : ascii :=
  if n <? 10 then ascii_of_N (48 + n) else ascii_of_N (87 + n).

(** [byte.toString(16)] for a byte: one or two digits, no leading zero. *)
Definition toString16 (n : N) : string :=
  if n <? 16 then String (hexDigit n) EmptyString
  else String (hexDigit (n / 16)) (String (hexDigit (n mod 16)) EmptyString).

(** [s.padStart(2, '0')]. *)
Definition padStart2 (s : string) : string :=
  match String.length s with
  | O => "00"
  | S O => "0" ++ s
  | _ => s
  end.

Definition arrayBufferToHex (buffer : list Byte.byte) : string :=
  String.concat EmptyString
    (map (fun b => padStart2 (toString16 (Byte.to_N b))) buffer).

(** The loop of [timingSafeEqual]:
    [result |= a.charCodeAt(i) ^ b.charCodeAt(i)] over the indices of [a]. *)
Fixpoint xorAccumulate (result : N) (a b : string) : N :=
  match a, b with
  | String x a', String y b' =>
      xorAccumulate (N.lor result (N.lxor (N_of_ascii x) (N_of_ascii y))) a' b'
  | _, _ => result
  end.

Definition timingSafeEqual (a b : string) : bool :=
  if negb (Nat.eqb (String.length a) (String.length b)) then false
  else xorAccumulate 0 a b =? 0.

(** The lines the two functions share, from [importKey] to [expected]:
    [None] when [importKey] rejects. *)
Definition expectedSignature (body secret : string) : option string :=
  match importKey (encode secret) with
  | None => None
  | Some key => Some (arrayBufferToHex (hmac_sha256 key (encode body)))
  end.

(** What the promise of each function settles to: [Some] of the boolean
    returned, or [None] when it is rejected with the exception of
    [importKey]. *)
Definition verifyLinearSignature (body signature secret : string) : option bool :=
  match expectedSignature body secret with
  | None => None
  | Some expected => Some (timingSafeEqual signature expected)
  end.

Definition verifyGitHubSignature (body signature secret : string) : option bool :=
  if negb (String.prefix "sha256=" signature) then Some false
  else
    match expectedSignature body secret with
    | None => None
    | Some expected => Some (timingSafeEqual (Js.slice 7 signature) expected)
    end.

End Verify.

End Crypto.

(* ================================================================= *)
(** ** src/utils/branch.ts *)

Module Branch.

(** The character class [[a-z0-9-]] of the sanitising regular expression. *)
Definition allowedChar (c : ascii) : bool :=
  let n := N_of_ascii c in
  ((97 <=? n) && (n <=? 122)) || ((48 <=? n) && (n <=? 57)) || (n =? 45).

(** [s.replace(/[^a-z0-9-]/g, '-')]. *)
Fixpoint sanitize (s : string) : string :=
  match s with
  | EmptyString => EmptyString
  | String c s' => String (if allowedChar c then c else "-"%char) (sanitize s')
  end.

Definition generateBranchName (identifier : string) : string :=
  "agent/" ++ sanitize (Js.toLowerCase identifier).

(** [existingBranches.includes(name)]. *)
Definition arrayIncludes (existingBranches : list string) (name : string) : bool :=
  existsb (String.eqb name) existingBranches.

(** The candidate probed for a suffix: [`${baseName}-${suffix}`]. *)
Definition suffixed (baseName : string) (suffix : N) : string :=
  baseName ++ "-" ++ Js.numberToString suffix.

(** The [while] loop of [findAvailableBranchName], run for at most [fuel]
    tests of its condition; [None] when the loop has not ended by then. *)
Fixpoint probeSuffix (fuel : nat) (existingBranches : list string)
    (baseName : string) (suffix : N) : option N :=
  match fuel with
  | O => None
  | S fuel' =>
      if arrayIncludes existingBranches (suffixed baseName suffix)
      then probeSuffix fuel' existingBranches baseName (suffix + 1)
      else Some suffix
  end.

(** The loop is given one more test than there are existing branches, which
    is enough for it to end (theorem [probeSuffix_ends]). *)
Definition findAvailableBranchName (identifier : string)
    (existingBranches : list string) : option string :=
  let baseName := generateBranchName identifier in
  if negb (arrayIncludes existingBranches baseName) then Some baseName
  else
    match probeSuffix (S (List.length existingBranches)) existingBranches baseName 2 with
    | Some suffix => Some (suffixed baseName suffix)
    | None => None
    end.

(** The pattern [^agent/[a-z0-9-]+$] of the specification, as a test. *)
Definition matchesBranchPattern (name : string) : bool :=
  String.prefix "agent/" name &&
  (let rest := Js.slice 6 name in
   Js.truthy rest && forallb allowedChar (list_ascii_of_string rest)).

End Branch.

(* ================================================================= *)
(** ** The tables: src/db/schema.sql, the migrations, and src/types.ts *)

Module Schema.

Inductive RunStatus := queued | in_progress | completed.

Inductive WorkflowType := implement.

Inductive WebhookType := linear | github.

Definition RunStatus_eqb (a b : RunStatus) : bool :=
  match a, b with
  | queued, queued | in_progress, in_progress | completed, completed => true
  | _, _ => false
  end.

Definition WebhookType_eqb (a b : WebhookType) : bool :=
  match a, b with
  | linear, linear | github, github => true
  | _, _ => false
  end.

Record TeamConfig := {
  tc_id : N;
  tc_linear_workspace_id : string;
  tc_linear_team_id : string;
  tc_linear_team_name : option string;
  tc_github_installation_id : option N;
  tc_github_owner : option string;
  tc_github_repo : option string;
  tc_github_branch : string;
  tc_created_at : string;
  tc_updated_at : string
}.

Record GitHubInstallation := {
  gi_id : N;
  gi_installation_id : N;
  gi_account_login : string;
  gi_account_type : string;
  gi_created_at : string;
  gi_updated_at : string
}.

Record WorkflowRun := {
  wr_id : N;
  wr_github_run_id : N;
  wr_github_owner : string;
  wr_github_repo : string;
  wr_agent_session_id : string;
  wr_linear_issue_id : string;
  wr_linear_issue_identifier : string;
  wr_linear_workspace_id : option string;
  wr_workflow_type : WorkflowType;
  wr_branch_name : string;
  wr_status : RunStatus;
  wr_conclusion : option string;
  wr_pr_number : option N;
  wr_pr_url : option string;
  wr_created_at : string;
  wr_updated_at : string
}.

Record ProcessedWebhook := {
  pw_id : N;
  pw_webhook_id : string;
  pw_webhook_type : WebhookType;
  pw_processed_at : string
}.

Record PendingWorkflowTrigger := {
  pt_id : N;
  pt_agent_session_id : string;
  pt_linear_workspace_id : option string;
  pt_linear_issue_id : string;
  pt_linear_issue_identifier : option string;
  pt_workflow_type : WorkflowType;
  pt_github_owner : string;
  pt_github_repo : string;
  pt_branch_name : string;
  pt_created_at : string;
  pt_matched_at : option string
}.

Record PendingConfig := {
  pc_id : N;
  pc_agent_session_id : string;
  pc_linear_workspace_id : string;
  pc_linear_team_id : string;
  pc_pending_issue_id : string;
  pc_pending_issue_identifier : string;
  pc_created_at : string
}.

(** The [metadata] column holds [JSON.stringify] of the object; the model
    keeps the object itself. *)
Record RunLog := {
  rl_id : N;
  rl_workflow_run_id : option N;
  rl_agent_session_id : option string;
  rl_event_type : string;
  rl_message : option string;
  rl_metadata : option Js.Json;
  rl_created_at : string
}.

(** [sqlite_sequence]: for each AUTOINCREMENT table, by name, the largest
    row id it has handed out. *)
Definition Sequence := list (string * N).

(** The D1 database. Rows are kept in insertion order. *)
Record DB := {
  team_configs : list TeamConfig;
  github_installations : list GitHubInstallation;
  workflow_runs : list WorkflowRun;
  processed_webhooks : list ProcessedWebhook;
  pending_workflow_triggers : list PendingWorkflowTrigger;
  pending_configs : list PendingConfig;
  run_log : list RunLog;
  sqlite_sequence : Sequence
}.

Definition emptyDB : DB :=
  {| team_configs := []; github_installations := []; workflow_runs := [];
     processed_webhooks := []; pending_workflow_triggers := [];
     pending_configs := []; run_log := []; sqlite_sequence := [] |}.

End Schema.

(* ================================================================= *)
(** ** The SQL statements of src/db/queries.ts, as functions on the tables *)

Module Sql.
Import Schema.

(** A JavaScript exception: [new Error(message)], or an error raised by a
    collaborator. *)
Inductive Exn := Error (message : string).

(** [String(error)]. *)
Definition errorToString (e : Exn) : string :=
  match e with Error m => "Error: " ++ m end.

Inductive Result (A : Type) := Ok (a : A) | Throw (e : Exn).
Arguments Ok {A} a.
Arguments Throw {A} e.

(** The error of a statement that would leave a foreign key without its
    parent row. D1 enforces the two foreign keys of the schema:
    [team_configs.github_installation_id] on
    [github_installations(installation_id)] and [run_log.workflow_run_id] on
    [workflow_runs(id)]. *)
Definition foreignKeyFailed : Exn := Error "FOREIGN KEY constraint failed".

(** [ORDER BY created_at DESC LIMIT 1]: a row whose [created_at] is largest
    in the byte order of TEXT values. Among rows with that same value the
    earliest inserted is taken; SQLite leaves the choice open, and nothing
    proved below depends on it. *)
Fixpoint latest {A : Type} (created_at : A -> string) (rows : list A) : option A :=
  match rows with
  | [] => None
  | r :: rest =>
      match latest created_at rest with
      | Some r' => if String.ltb (created_at r) (created_at r') then Some r' else Some r
      | None => Some r
      end
  end.

(** [sqlite_sequence] lookups, and the row id an AUTOINCREMENT insert takes:
    one more than the largest id the table holds or has ever handed out. *)
Definition seqOf (seqs : Sequence) (table : string) : N :=
  match find (fun p => String.eqb (fst p) table) seqs with
  | Some p => snd p
  | None => 0
  end.

Definition setSeq (table : string) (n : N) (seqs : Sequence) : Sequence :=
  (table, n) :: filter (fun p => negb (String.eqb (fst p) table)) seqs.

Definition nextRowId (db : DB) (table : string) (ids : list N) : N :=
  N.max (seqOf (sqlite_sequence db) table) (fold_right N.max 0 ids) + 1.

(** [SELECT * FROM workflow_runs WHERE github_run_id = ?], first row. *)
Definition getWorkflowRun (db : DB) (githubRunId : N) : option WorkflowRun :=
  find (fun r => wr_github_run_id r =? githubRunId) (workflow_runs db).

(** [... WHERE linear_issue_id = ? AND status != 'completed'
    ORDER BY created_at DESC LIMIT 1]. *)
Definition getActiveWorkflowRunByIssue (db : DB) (linearIssueId : string)
  : option WorkflowRun :=
  latest wr_created_at
    (filter (fun r => String.eqb (wr_linear_issue_id r) linearIssueId
                      && negb (RunStatus_eqb (wr_status r) completed))
            (workflow_runs db)).

Record NewWorkflowRun := {
  nr_githubRunId : N;
  nr_githubOwner : string;
  nr_githubRepo : string;
  nr_agentSessionId : string;
  nr_linearIssueId : string;
  nr_linearIssueIdentifier : string;
  nr_linearWorkspaceId : option string;
  nr_workflowType : WorkflowType;
  nr_branchName : string
}.

Definition setWorkflowRuns (db : DB) (rows : list WorkflowRun) (s : Sequence) : DB :=
  {| team_configs := team_configs db;
     github_installations := github_installations db;
     workflow_runs := rows;
     processed_webhooks := processed_webhooks db;
     pending_workflow_triggers := pending_workflow_triggers db;
     pending_configs := pending_configs db;
     run_log := run_log db;
     sqlite_sequence := s |}.

(** The row an insert into [workflow_runs] makes of the nine columns that
    [createWorkflowRun] names: [status] takes its default ['queued'], the
    other unnamed columns are NULL. *)
Definition runRow (id : N) (now : string) (run : NewWorkflowRun) : WorkflowRun :=
  {| wr_id := id;
     wr_github_run_id := nr_githubRunId run;
     wr_github_owner := nr_githubOwner run;
     wr_github_repo := nr_githubRepo run;
     wr_agent_session_id := nr_agentSessionId run;
     wr_linear_issue_id := nr_linearIssueId run;
     wr_linear_issue_identifier := nr_linearIssueIdentifier run;
     wr_linear_workspace_id := Js.orNull (nr_linearWorkspaceId run);
     wr_workflow_type := nr_workflowType run;
     wr_branch_name := nr_branchName run;
     wr_status := queued;
     wr_conclusion := None;
     wr_pr_number := None;
     wr_pr_url := None;
     wr_created_at := now;
     wr_updated_at := now |}.

(** [INSERT INTO workflow_runs (...) VALUES (...) RETURNING *]: the insert
    fails on the UNIQUE column [github_run_id]. *)
Definition createWorkflowRun (now : string) (run : NewWorkflowRun) (db : DB)
  : Result WorkflowRun * DB :=
  if existsb (fun r => wr_github_run_id r =? nr_githubRunId run) (workflow_runs db)
  then (Throw (Error "UNIQUE constraint failed: workflow_runs.github_run_id"), db)
  else
    let id := nextRowId db "workflow_runs" (map wr_id (workflow_runs db)) in
    let row := runRow id now run in
    (Ok row,
     setWorkflowRuns db (workflow_runs db ++ [row])
       (setSeq "workflow_runs" id (sqlite_sequence db))).

(** The [updates] argument of [updateWorkflowRun]: [None] is [undefined];
    for the nullable columns [Some None] is [null]. *)
Record RunUpdates := {
  u_status : option RunStatus;
  u_conclusion : option (option string);
  u_prNumber : option (option N);
  u_prUrl : option (option string)
}.

(** [setClauses.length === 0]. *)
Definition noUpdates (u : RunUpdates) : bool :=
  match u_status u, u_conclusion u, u_prNumber u, u_prUrl u with
  | None, None, None, None => true
  | _, _, _, _ => false
  end.

Definition orElse {A : Type} (o : option A) (d : A) : A :=
  match o with Some a => a | None => d end.

Definition applyRunUpdates (now : string) (u : RunUpdates) (r : WorkflowRun)
  : WorkflowRun :=
  {| wr_id := wr_id r;
     wr_github_run_id := wr_github_run_id r;
     wr_github_owner := wr_github_owner r;
     wr_github_repo := wr_github_repo r;
     wr_agent_session_id := wr_agent_session_id r;
     wr_linear_issue_id := wr_linear_issue_id r;
     wr_linear_issue_identifier := wr_linear_issue_identifier r;
     wr_linear_workspace_id := wr_linear_workspace_id r;
     wr_workflow_type := wr_workflow_type r;
     wr_branch_name := wr_branch_name r;
     wr_status := orElse (u_status u) (wr_status r);
     wr_conclusion := orElse (u_conclusion u) (wr_conclusion r);
     wr_pr_number := orElse (u_prNumber u) (wr_pr_number r);
     wr_pr_url := orElse (u_prUrl u) (wr_pr_url r);
     wr_created_at := wr_created_at r;
     wr_updated_at := now |}.

(** [UPDATE workflow_runs SET <the given columns>, updated_at = datetime('now')
    WHERE github_run_id = ?]. The statement tests nothing but the run id. *)
Definition updateWorkflowRun (now : string) (githubRunId : N) (u : RunUpdates)
    (db : DB) : DB :=
  setWorkflowRuns db
    (map (fun r => if wr_github_run_id r =? githubRunId
                   then applyRunUpdates now u r else r)
         (workflow_runs db))
    (sqlite_sequence db).

(** *** Processed webhooks *)

(** [SELECT 1 FROM processed_webhooks WHERE webhook_id = ? AND webhook_type = ?]. *)
Definition isWebhookProcessed (db : DB) (webhookId : string)
    (webhookType : WebhookType) : bool :=
  existsb (fun w => String.eqb (pw_webhook_id w) webhookId
                    && WebhookType_eqb (pw_webhook_type w) webhookType)
          (processed_webhooks db).

Definition setProcessedWebhooks (db : DB) (rows : list ProcessedWebhook)
    (s : Sequence) : DB :=
  {| team_configs := team_configs db;
     github_installations := github_installations db;
     workflow_runs := workflow_runs db;
     processed_webhooks := rows;
     pending_workflow_triggers := pending_workflow_triggers db;
     pending_configs := pending_configs db;
     run_log := run_log db;
     sqlite_sequence := s |}.

(** [INSERT OR IGNORE INTO processed_webhooks (webhook_id, webhook_type)]:
    ignored when a row already holds the UNIQUE [webhook_id]. The row id is
    taken before the conflict is seen, so an ignored insert uses it up as
    well. *)
Definition markWebhookProcessed (now : string) (webhookId : string)
    (webhookType : WebhookType) (db : DB) : DB :=
  let id := nextRowId db "processed_webhooks" (map pw_id (processed_webhooks db)) in
  setProcessedWebhooks db
    (if existsb (fun w => String.eqb (pw_webhook_id w) webhookId)
          (processed_webhooks db)
     then processed_webhooks db
     else processed_webhooks db ++
            [{| pw_id := id; pw_webhook_id := webhookId;
                pw_webhook_type := webhookType; pw_processed_at := now |}])
    (setSeq "processed_webhooks" id (sqlite_sequence db)).

(** *** Pending workflow triggers *)

Record NewTrigger := {
  nt_agentSessionId : string;
  nt_linearWorkspaceId : option string;
  nt_linearIssueId : string;
  nt_linearIssueIdentifier : option string;
  nt_workflowType : WorkflowType;
  nt_githubOwner : string;
  nt_githubRepo : string;
  nt_branchName : string
}.

Definition setPendingWorkflowTriggers (db : DB)
    (rows : list PendingWorkflowTrigger) (s : Sequence) : DB :=
  {| team_configs := team_configs db;
     github_installations := github_installations db;
     workflow_runs := workflow_runs db;
     processed_webhooks := processed_webhooks db;
     pending_workflow_triggers := rows;
     pending_configs := pending_configs db;
     run_log := run_log db;
     sqlite_sequence := s |}.

Definition WorkflowType_eqb (a b : WorkflowType) : bool :=
  match a, b with implement, implement => true end.

(** [INSERT OR REPLACE INTO pending_workflow_triggers (...)]: a row with the
    same (agent_session_id, workflow_type) is deleted first. *)
Definition createPendingWorkflowTrigger (now : string) (trigger : NewTrigger)
    (db : DB) : DB :=
  let kept :=
    filter (fun t => negb (String.eqb (pt_agent_session_id t) (nt_agentSessionId trigger)
                           && WorkflowType_eqb (pt_workflow_type t) (nt_workflowType trigger)))
           (pending_workflow_triggers db) in
  let id := nextRowId db "pending_workflow_triggers"
              (map pt_id (pending_workflow_triggers db)) in
  setPendingWorkflowTriggers db
    (kept ++
       [{| pt_id := id;
           pt_agent_session_id := nt_agentSessionId trigger;
           pt_linear_workspace_id := Js.orNull (nt_linearWorkspaceId trigger);
           pt_linear_issue_id := nt_linearIssueId trigger;
           pt_linear_issue_identifier := Js.orNull (nt_linearIssueIdentifier trigger);
           pt_workflow_type := nt_workflowType trigger;
           pt_github_owner := nt_githubOwner trigger;
           pt_github_repo := nt_githubRepo trigger;
           pt_branch_name := nt_branchName trigger;
           pt_created_at := now;
           pt_matched_at := None |}])
    (setSeq "pending_workflow_triggers" id (sqlite_sequence db)).

Definition isNull {A : Type} (o : option A) : bool :=
  match o with None => true | Some _ => false end.

(** The WHERE clause of [matchPendingWorkflowTrigger]. *)
Definition triggerCandidate (githubOwner githubRepo branchName : string)
    (t : PendingWorkflowTrigger) : bool :=
  String.eqb (pt_github_owner t) githubOwner
  && String.eqb (pt_github_repo t) githubRepo
  && String.eqb (pt_branch_name t) branchName
  && isNull (pt_matched_at t).

(** [SELECT * FROM pending_workflow_triggers WHERE github_owner = ? AND
    github_repo = ? AND branch_name = ? AND matched_at IS NULL
    ORDER BY created_at DESC LIMIT 1]. *)
Definition matchPendingWorkflowTrigger (db : DB)
    (githubOwner githubRepo branchName : string) : option PendingWorkflowTrigger :=
  latest pt_created_at
    (filter (triggerCandidate githubOwner githubRepo branchName)
            (pending_workflow_triggers db)).

Definition setMatchedAt (t : PendingWorkflowTrigger) (at_ : option string)
  : PendingWorkflowTrigger :=
  {| pt_id := pt_id t;
     pt_agent_session_id := pt_agent_session_id t;
     pt_linear_workspace_id := pt_linear_workspace_id t;
     pt_linear_issue_id := pt_linear_issue_id t;
     pt_linear_issue_identifier := pt_linear_issue_identifier t;
     pt_workflow_type := pt_workflow_type t;
     pt_github_owner := pt_github_owner t;
     pt_github_repo := pt_github_repo t;
     pt_branch_name := pt_branch_name t;
     pt_created_at := pt_created_at t;
     pt_matched_at := at_ |}.

(** [UPDATE pending_workflow_triggers SET matched_at = datetime('now')
    WHERE id = ?]. *)
Definition markPendingWorkflowMatched (now : string) (id : N) (db : DB) : DB :=
  setPendingWorkflowTriggers db
    (map (fun t => if pt_id t =? id then setMatchedAt t (Some now) else t)
         (pending_workflow_triggers db))
    (sqlite_sequence db).

(** *** Pending configs *)

Definition setPendingConfigs (db : DB) (rows : list PendingConfig) : DB :=
  {| team_configs := team_configs db;
     github_installations := github_installations db;
     workflow_runs := workflow_runs db;
     processed_webhooks := processed_webhooks db;
     pending_workflow_triggers := pending_workflow_triggers db;
     pending_configs := rows;
     run_log := run_log db;
     sqlite_sequence := sqlite_sequence db |}.

(** [DELETE FROM pending_configs WHERE agent_session_id = ?]. *)
Definition deletePendingConfig (agentSessionId : string) (db : DB) : DB :=
  setPendingConfigs db
    (filter (fun c => negb (String.eqb (pc_agent_session_id c) agentSessionId))
            (pending_configs db)).

(** *** GitHub installations *)

(** [SELECT * FROM github_installations WHERE account_login = ?], first row. *)
Definition getGitHubInstallationByAccount (db : DB) (accountLogin : string)
  : option GitHubInstallation :=
  find (fun i => String.eqb (gi_account_login i) accountLogin)
       (github_installations db).

Definition setGitHubInstallations (db : DB) (rows : list GitHubInstallation)
    (s : Sequence) : DB :=
  {| team_configs := team_configs db;
     github_installations := rows;
     workflow_runs := workflow_runs db;
     processed_webhooks := processed_webhooks db;
     pending_workflow_triggers := pending_workflow_triggers db;
     pending_configs := pending_configs db;
     run_log := run_log db;
     sqlite_sequence := s |}.

(** [INSERT INTO github_installations (...) RETURNING *]: fails on the
    UNIQUE column [installation_id]. *)
Definition createGitHubInstallation (now : string)
    (installationId : N) (accountLogin accountType : string) (db : DB)
  : Result GitHubInstallation * DB :=
  if existsb (fun i => gi_installation_id i =? installationId) (github_installations db)
  then (Throw (Error "UNIQUE constraint failed: github_installations.installation_id"), db)
  else
    let id := nextRowId db "github_installations"
                (map gi_id (github_installations db)) in
    let row := {| gi_id := id; gi_installation_id := installationId;
                  gi_account_login := accountLogin; gi_account_type := accountType;
                  gi_created_at := now; gi_updated_at := now |} in
    (Ok row,
     setGitHubInstallations db (github_installations db ++ [row])
       (setSeq "github_installations" id (sqlite_sequence db))).

(** A team configuration refers to the installation. *)
Definition installationReferenced (installationId : N) (db : DB) : bool :=
  existsb (fun c => match tc_github_installation_id c with
                    | Some n => n =? installationId
                    | None => false
                    end)
          (team_configs db).

(** [DELETE FROM github_installations WHERE installation_id = ?]: fails on
    the foreign key of [team_configs] when a row to delete is referred
    to. *)
Definition deleteGitHubInstallation (installationId : N) (db : DB)
  : Result unit * DB :=
  if existsb (fun i => gi_installation_id i =? installationId)
       (github_installations db)
     && installationReferenced installationId db
  then (Throw foreignKeyFailed, db)
  else
    (Ok tt,
     setGitHubInstallations db
       (filter (fun i => negb (gi_installation_id i =? installationId))
               (github_installations db))
       (sqlite_sequence db)).

(** [INSERT INTO github_installations (...) ON CONFLICT(installation_id)
    DO UPDATE SET account_login = excluded.account_login,
    account_type = excluded.account_type]. The row id taken for the insert
    is used up on the update path as well. *)
Definition upsertGitHubInstallation (now : string)
    (installationId : N) (accountLogin accountType : string) (db : DB) : DB :=
  if existsb (fun i => gi_installation_id i =? installationId) (github_installations db)
  then
    let id := nextRowId db "github_installations"
                (map gi_id (github_installations db)) in
    setGitHubInstallations db
      (map (fun i =>
              if gi_installation_id i =? installationId
              then {| gi_id := gi_id i; gi_installation_id := gi_installation_id i;
                      gi_account_login := accountLogin;
                      gi_account_type := accountType;
                      gi_created_at := gi_created_at i;
                      gi_updated_at := gi_updated_at i |}
              else i)
           (github_installations db))
      (setSeq "github_installations" id (sqlite_sequence db))
  else snd (createGitHubInstallation now installationId accountLogin accountType db).

(** *** Team configs *)

(** [SELECT * FROM team_configs WHERE linear_workspace_id = ? AND
    linear_team_id = ?], first row. *)
Definition getTeamConfigByWorkspace (db : DB)
    (linearWorkspaceId linearTeamId : string) : option TeamConfig :=
  find (fun c => String.eqb (tc_linear_workspace_id c) linearWorkspaceId
                 && String.eqb (tc_linear_team_id c) linearTeamId)
       (team_configs db).

Record NewTeamConfig := {
  ntc_linearWorkspaceId : string;
  ntc_linearTeamId : string;
  ntc_linearTeamName : option string;
  ntc_githubInstallationId : option N;
  ntc_githubOwner : option string;
  ntc_githubRepo : option string;
  ntc_githubBranch : option string
}.

Definition setTeamConfigs (db : DB) (rows : list TeamConfig) (s : Sequence) : DB :=
  {| team_configs := rows;
     github_installations := github_installations db;
     workflow_runs := workflow_runs db;
     processed_webhooks := processed_webhooks db;
     pending_workflow_triggers := pending_workflow_triggers db;
     pending_configs := pending_configs db;
     run_log := run_log db;
     sqlite_sequence := s |}.

(** The installation a new team configuration refers to is stored, or it
    refers to none ([githubInstallationId || null]). *)
Definition installationStored (config : NewTeamConfig) (db : DB) : bool :=
  match ntc_githubInstallationId config with
  | Some n =>
      (n =? 0) || existsb (fun i => gi_installation_id i =? n) (github_installations db)
  | None => true
  end.

(** [INSERT INTO team_configs (...) VALUES (...) RETURNING *], with
    [x || null] on the optional columns and [githubBranch || 'main']: the
    insert fails on UNIQUE(linear_workspace_id, linear_team_id), and on the
    foreign key when the installation it names is not stored. *)
Definition createTeamConfig (now : string) (config : NewTeamConfig) (db : DB)
  : Result TeamConfig * DB :=
  if existsb (fun c => String.eqb (tc_linear_workspace_id c) (ntc_linearWorkspaceId config)
                       && String.eqb (tc_linear_team_id c) (ntc_linearTeamId config))
             (team_configs db)
  then (Throw (Error ("UNIQUE constraint failed: team_configs.linear_workspace_id, "
                        ++ "team_configs.linear_team_id")), db)
  else if negb (installationStored config db)
  then (Throw foreignKeyFailed, db)
  else
    let id := nextRowId db "team_configs" (map tc_id (team_configs db)) in
    let row :=
      {| tc_id := id;
         tc_linear_workspace_id := ntc_linearWorkspaceId config;
         tc_linear_team_id := ntc_linearTeamId config;
         tc_linear_team_name := Js.orNull (ntc_linearTeamName config);
         tc_github_installation_id :=
           if Js.truthyNum (ntc_githubInstallationId config)
           then ntc_githubInstallationId config else None;
         tc_github_owner := Js.orNull (ntc_githubOwner config);
         tc_github_repo := Js.orNull (ntc_githubRepo config);
         tc_github_branch := Js.orString (ntc_githubBranch config) "main";
         tc_created_at := now;
         tc_updated_at := now |} in
    (Ok row,
     setTeamConfigs db (team_configs db ++ [row])
       (setSeq "team_configs" id (sqlite_sequence db))).

(** *** Pending configs, continued *)

Record NewPendingConfig := {
  npc_agentSessionId : string;
  npc_linearWorkspaceId : string;
  npc_linearTeamId : string;
  npc_pendingIssueId : string;
  npc_pendingIssueIdentifier : string
}.

(** [INSERT OR REPLACE INTO pending_configs (...)]: a row of the same
    [agent_session_id] is deleted first. *)
Definition createPendingConfig (now : string) (config : NewPendingConfig)
    (db : DB) : DB :=
  let kept :=
    filter (fun c => negb (String.eqb (pc_agent_session_id c) (npc_agentSessionId config)))
           (pending_configs db) in
  let id := nextRowId db "pending_configs" (map pc_id (pending_configs db)) in
  {| team_configs := team_configs db;
     github_installations := github_installations db;
     workflow_runs := workflow_runs db;
     processed_webhooks := processed_webhooks db;
     pending_workflow_triggers := pending_workflow_triggers db;
     pending_configs :=
       kept ++ [{| pc_id := id;
                   pc_agent_session_id := npc_agentSessionId config;
                   pc_linear_workspace_id := npc_linearWorkspaceId config;
                   pc_linear_team_id := npc_linearTeamId config;
                   pc_pending_issue_id := npc_pendingIssueId config;
                   pc_pending_issue_identifier := npc_pendingIssueIdentifier config;
                   pc_created_at := now |}];
     run_log := run_log db;
     sqlite_sequence := setSeq "pending_configs" id (sqlite_sequence db) |}.

(** [SELECT * FROM pending_configs WHERE agent_session_id = ?], first row. *)
Definition getPendingConfig (db : DB) (agentSessionId : string)
  : option PendingConfig :=
  find (fun c => String.eqb (pc_agent_session_id c) agentSessionId)
       (pending_configs db).

(** *** Run log *)

Record LogEvent := {
  le_workflowRunId : option N;
  le_agentSessionId : option string;
  le_eventType : string;
  le_message : option string;
  le_metadata : option Js.Json
}.

Definition setRunLog (db : DB) (rows : list RunLog) (s : Sequence) : DB :=
  {| team_configs := team_configs db;
     github_installations := github_installations db;
     workflow_runs := workflow_runs db;
     processed_webhooks := processed_webhooks db;
     pending_workflow_triggers := pending_workflow_triggers db;
     pending_configs := pending_configs db;
     run_log := rows;
     sqlite_sequence := s |}.

(** The row [logEvent] inserts: [x || null] on the optional columns. *)
Definition logRow (id : N) (now : string) (event : LogEvent) : RunLog :=
  {| rl_id := id;
     rl_workflow_run_id :=
       if Js.truthyNum (le_workflowRunId event) then le_workflowRunId event else None;
     rl_agent_session_id := Js.orNull (le_agentSessionId event);
     rl_event_type := le_eventType event;
     rl_message := Js.orNull (le_message event);
     rl_metadata := le_metadata event;
     rl_created_at := now |}.

(** [INSERT INTO run_log (...) VALUES (...)], when it is accepted. *)
Definition logEvent (now : string) (event : LogEvent) (db : DB) : DB :=
  let id := nextRowId db "run_log" (map rl_id (run_log db)) in
  setRunLog db (run_log db ++ [logRow id now event])
    (setSeq "run_log" id (sqlite_sequence db)).

(** The workflow run the row of an event refers to:
    [event.workflowRunId || null]. *)
Definition linkedRun (event : LogEvent) : option N :=
  if Js.truthyNum (le_workflowRunId event) then le_workflowRunId event else None.

(** A workflow run has the row id. *)
Definition runStored (id : N) (db : DB) : bool :=
  existsb (fun r => wr_id r =? id) (workflow_runs db).

End Sql.

(* ================================================================= *)
(** ** Requests as computations *)

Module Effects.
Import Schema Sql.

(** *** Payloads (src/types.ts) *)

Inductive LinearAgentActivity :=
| Thought (body : string)
| Action (action parameter : string) (result : option string)
| Elicitation (body : string)
| Response (body : string)
| ErrorActivity (body : string).

Record Comment := {
  comment_id : string; comment_body : string;
  comment_author : string; comment_createdAt : string
}.

Record LinkedIssue := {
  linked_identifier : string; linked_title : string; linked_relation : string
}.

Record Attachment := { attachment_title : string; attachment_url : string }.

Record IssueContext := {
  ic_identifier : string;
  ic_title : string;
  ic_description : option string;
  ic_comments : list Comment;
  ic_linkedIssues : list LinkedIssue;
  ic_parentIssue : option (string * string);
  ic_attachments : list Attachment
}.

(** An open pull request as the GitHub API lists it. *)
Record PullRequest := {
  pr_number : N;
  pr_html_url : string;
  pr_title : string
}.

(** The body of a ticketing-system webhook. [OtherWebhook] stands for a
    body whose [type] is neither of the two the code knows. *)
Record AgentActivity := {
  aa_id : string;
  aa_type : string;
  aa_body : option string;
  aa_content_body : option string
}.

Record LinearAgentSessionWebhook := {
  as_action : string;
  as_organizationId : string;
  as_sessionId : string;
  as_issueId : string;
  as_issueIdentifier : string;
  as_issueTitle : string;
  as_issueDescription : option string;
  as_teamId : string;
  as_teamName : string;
  as_agentActivity : option AgentActivity
}.

Record LinearUnassignWebhook := {
  un_organizationId : string;
  un_issueId : string;
  un_issueIdentifier : string
}.

Inductive LinearWebhook :=
| AgentSessionEvent (p : LinearAgentSessionWebhook)
| AppUserNotification (action : string) (p : LinearUnassignWebhook)
| OtherWebhook (type : string) (action : option string).

(** The body of a CI webhook, by the shape it has. *)
Record GitHubWorkflowRunWebhook := {
  wrw_action : string;
  wrw_id : N;
  wrw_name : string;
  wrw_status : string;
  wrw_conclusion : option string;
  wrw_html_url : string;
  wrw_head_branch : string;
  wrw_owner_login : string;
  wrw_repo_name : string;
  wrw_installation_id : N
}.

Record GitHubInstallationWebhook := {
  iw_action : string;
  iw_installation_id : N;
  iw_account_login : string;
  iw_account_type : string
}.

Record GitHubPullRequestWebhook := {
  prw_action : string;
  prw_number : N;
  prw_head_ref : string;
  prw_owner_login : string;
  prw_repo_name : string
}.

Inductive GitHubWebhook :=
| WorkflowRunWebhook (p : GitHubWorkflowRunWebhook)
| InstallationWebhook (p : GitHubInstallationWebhook)
| PullRequestWebhook (p : GitHubPullRequestWebhook).

(** An inbound request: the raw body and the headers the handlers read
    ([None] when the header is absent). *)
Record LinearRequest := {
  lr_body : string;
  lr_signature : option string
}.

Record GitHubRequest := {
  gr_body : string;
  gr_signature : option string;
  gr_event : option string;
  gr_delivery : option string
}.

(** [c.json(object, status)]. *)
Record HttpResponse := {
  status : N;
  json : Js.Json
}.

(** *** The calls a request issues *)

(** The functions of src/db/queries.ts, with their arguments. *)
Inductive DbCall :=
| QGetWorkflowRun (githubRunId : N)
| QGetActiveWorkflowRunByIssue (linearIssueId : string)
| QCreateWorkflowRun (run : NewWorkflowRun)
| QUpdateWorkflowRun (githubRunId : N) (updates : RunUpdates)
| QIsWebhookProcessed (webhookId : string) (webhookType : WebhookType)
| QMarkWebhookProcessed (webhookId : string) (webhookType : WebhookType)
| QCreatePendingWorkflowTrigger (trigger : NewTrigger)
| QMatchPendingWorkflowTrigger (githubOwner githubRepo branchName : string)
| QMarkPendingWorkflowMatched (id : N)
| QDeletePendingConfig (agentSessionId : string)
| QGetGitHubInstallationByAccount (accountLogin : string)
| QCreateGitHubInstallation (installationId : N) (accountLogin accountType : string)
| QDeleteGitHubInstallation (installationId : N)
| QUpsertGitHubInstallation (installationId : N) (accountLogin accountType : string)
| QGetTeamConfigByWorkspace (linearWorkspaceId linearTeamId : string)
| QCreateTeamConfig (config : NewTeamConfig)
| QCreatePendingConfig (config : NewPendingConfig)
| QGetPendingConfig (agentSessionId : string)
| QLogEvent (event : LogEvent).

(** The GraphQL requests of [LinearService]. *)
Inductive LinearCall :=
| CreateAgentActivity (agentSessionId : string) (content : LinearAgentActivity)
| GetIssueContext (issueId : string)
| CreateAttachment (issueId title url : string).

(** The HTTP requests of [GitHubAppService]. *)
Inductive GitHubCall :=
| PostAccessTokens (installationId : N)
| GetRepoInstallation (owner repo : string)
| GetRepository (owner repo : string)
| GetBranches (owner repo : string)
| PostDispatch (owner repo workflowId ref : string) (inputs : list (string * string))
| PostCancel (owner repo : string) (runId : N)
| GetPullsForHead (owner repo branch : string)
| GetOpenPulls (owner repo : string).

Inductive Event :=
| EvDb (q : DbCall)
| EvOAuth (workspaceId : string)
| EvLinear (token : string) (c : LinearCall)
| EvGitHub (c : GitHubCall).

Definition History := list Event.

(** *** The surroundings of a request

    Everything the code reaches outside itself: the platform (text encoding,
    HMAC, [JSON.parse] read at the payload types, [JSON.stringify], the
    clocks), the worker's secrets, and the collaborators. [JSON.parse] gives
    [None] where it throws. A collaborator answers as a function of the calls issued
    before, so that the same call may be answered differently each time.
    [d1_fault] lets a D1 statement fail for reasons of its own (the
    database being unreachable); [Some e] is the exception thrown.

    The Linear OAuth token of a workspace ([getOAuthToken], with its table
    and its refresh) is such a collaborator too. *)
Record Env := {
  text_encode : string -> list Byte.byte;
  hmac_sha256 : list Byte.byte -> list Byte.byte -> list Byte.byte;
  parse_linear_webhook : string -> option LinearWebhook;
  parse_github_webhook : string -> option GitHubWebhook;
  json_stringify : Js.Json -> string;
  LINEAR_WEBHOOK_SECRET : string;
  GITHUB_WEBHOOK_SECRET : string;
  date_now : History -> N;
  sql_now : History -> string;
  d1_fault : History -> DbCall -> option Exn;
  oauth_token : History -> string -> Result (option string);
  linear_mutation : History -> string -> LinearCall -> Result unit;
  linear_issue_context : History -> string -> string -> Result IssueContext;
  github_access_token : History -> N -> Result string;
  github_repo_installation : History -> string -> string -> Result (N * N);
  github_repository : History -> string -> string -> Result (N * string);
  github_branches : History -> string -> string -> Result (N * list string);
  github_dispatch : History -> GitHubCall -> Result (N * string);
  github_cancel : History -> string -> string -> N -> Result N;
  github_pulls_for_head : History -> string -> string -> string
                          -> Result (N * list PullRequest);
  github_open_pulls : History -> string -> string -> Result (N * list PullRequest)
}.

(** *** The monad

    A computation reads the calls issued before it started and the store,
    and yields a value or an exception, the store it leaves, and the calls
    it issued itself, in order. *)
Record Outcome (A : Type) := {
  result : Result A;
  store : DB;
  emitted : History
}.
Arguments result {A} o.
Arguments store {A} o.
Arguments emitted {A} o.

Definition M (A : Type) : Type := History -> DB -> Outcome A.

Definition ret {A : Type} (a : A) : M A :=
  fun _ db => {| result := Ok a; store := db; emitted := [] |}.

Definition throw {A : Type} (e : Exn) : M A :=
  fun _ db => {| result := Throw e; store := db; emitted := [] |}.

Definition bind {A B : Type} (m : M A) (k : A -> M B) : M B :=
  fun past db =>
    match m past db with
    | {| result := Ok a; store := db1; emitted := ev |} =>
        match k a (past ++ ev)%list db1 with
        | {| result := r; store := db2; emitted := ev' |} =>
            {| result := r; store := db2; emitted := (ev ++ ev')%list |}
        end
    | {| result := Throw e; store := db1; emitted := ev |} =>
        {| result := Throw e; store := db1; emitted := ev |}
    end.

(** [try { m } catch (error) { handler error }]. *)
Definition tryCatch {A : Type} (m : M A) (handler : Exn -> M A) : M A :=
  fun past db =>
    match m past db with
    | {| result := Ok a; store := db1; emitted := ev |} =>
        {| result := Ok a; store := db1; emitted := ev |}
    | {| result := Throw e; store := db1; emitted := ev |} =>
        match handler e (past ++ ev)%list db1 with
        | {| result := r; store := db2; emitted := ev' |} =>
            {| result := r; store := db2; emitted := (ev ++ ev')%list |}
        end
    end.

Declare Scope request_scope.
Delimit Scope request_scope with request.

Notation "'let*' x ':=' m 'in' k" := (bind m (fun x => k))
  (at level 10, x name, m at level 100, k at level 200) : request_scope.
Notation "m ';;' k" := (bind m (fun _ => k))
  (at level 100, k at level 200, right associativity) : request_scope.

Section WithEnv.

Variable env : Env.

(** [Date.now()]. *)
Definition dateNow : M N :=
  fun past db => {| result := Ok (date_now env past); store := db; emitted := [] |}.

(** One D1 statement: it fails as a whole or runs as a whole. [run] is the
    statement on the tables, given the reading of [datetime('now')]. *)
Definition d1 {A : Type} (q : DbCall) (run : string -> DB -> Result A * DB) : M A :=
  fun past db =>
    match d1_fault env past q with
    | Some e => {| result := Throw e; store := db; emitted := [EvDb q] |}
    | None =>
        let (r, db') := run (sql_now env past) db in
        {| result := r; store := db'; emitted := [EvDb q] |}
    end.

(** A call to a collaborator: the answer is the collaborator's. *)
Definition call {A : Type} (ev : Event) (answer : History -> Result A) : M A :=
  fun past db => {| result := answer past; store := db; emitted := [ev] |}.

End WithEnv.

End Effects.

(* ================================================================= *)
(** ** src/db/queries.ts *)

Module Queries.
Import Schema Sql Effects.
Local Open Scope request_scope.

Section WithEnv.

Variable env : Env.

Definition getWorkflowRun (githubRunId : N) : M (option WorkflowRun) :=
  d1 env (QGetWorkflowRun githubRunId)
     (fun _ db => (Ok (Sql.getWorkflowRun db githubRunId), db)).

Definition getActiveWorkflowRunByIssue (linearIssueId : string)
  : M (option WorkflowRun) :=
  d1 env (QGetActiveWorkflowRunByIssue linearIssueId)
     (fun _ db => (Ok (Sql.getActiveWorkflowRunByIssue db linearIssueId), db)).

Definition createWorkflowRun (run : NewWorkflowRun) : M WorkflowRun :=
  d1 env (QCreateWorkflowRun run) (fun now db => Sql.createWorkflowRun now run db).

(** No statement is issued when [updates] names no column. *)
Definition updateWorkflowRun (githubRunId : N) (updates : RunUpdates) : M unit :=
  if noUpdates updates then ret tt
  else d1 env (QUpdateWorkflowRun githubRunId updates)
          (fun now db => (Ok tt, Sql.updateWorkflowRun now githubRunId updates db)).

Definition isWebhookProcessed (webhookId : string) (webhookType : WebhookType)
  : M bool :=
  d1 env (QIsWebhookProcessed webhookId webhookType)
     (fun _ db => (Ok (Sql.isWebhookProcessed db webhookId webhookType), db)).

Definition markWebhookProcessed (webhookId : string) (webhookType : WebhookType)
  : M unit :=
  d1 env (QMarkWebhookProcessed webhookId webhookType)
     (fun now db => (Ok tt, Sql.markWebhookProcessed now webhookId webhookType db)).

Definition createPendingWorkflowTrigger (trigger : NewTrigger) : M unit :=
  d1 env (QCreatePendingWorkflowTrigger trigger)
     (fun now db => (Ok tt, Sql.createPendingWorkflowTrigger now trigger db)).

Definition matchPendingWorkflowTrigger (githubOwner githubRepo branchName : string)
  : M (option PendingWorkflowTrigger) :=
  d1 env (QMatchPendingWorkflowTrigger githubOwner githubRepo branchName)
     (fun _ db =>
        (Ok (Sql.matchPendingWorkflowTrigger db githubOwner githubRepo branchName), db)).

Definition markPendingWorkflowMatched (id : N) : M unit :=
  d1 env (QMarkPendingWorkflowMatched id)
     (fun now db => (Ok tt, Sql.markPendingWorkflowMatched now id db)).

Definition deletePendingConfig (agentSessionId : string) : M unit :=
  d1 env (QDeletePendingConfig agentSessionId)
     (fun _ db => (Ok tt, Sql.deletePendingConfig agentSessionId db)).

Definition getGitHubInstallationByAccount (accountLogin : string)
  : M (option GitHubInstallation) :=
  d1 env (QGetGitHubInstallationByAccount accountLogin)
     (fun _ db => (Ok (Sql.getGitHubInstallationByAccount db accountLogin), db)).

Definition createGitHubInstallation (installationId : N)
    (accountLogin accountType : string) : M GitHubInstallation :=
  d1 env (QCreateGitHubInstallation installationId accountLogin accountType)
     (fun now db =>
        Sql.createGitHubInstallation now installationId accountLogin accountType db).

Definition deleteGitHubInstallation (installationId : N) : M unit :=
  d1 env (QDeleteGitHubInstallation installationId)
     (fun _ db => Sql.deleteGitHubInstallation installationId db).

Definition upsertGitHubInstallation (installationId : N)
    (accountLogin accountType : string) : M unit :=
  d1 env (QUpsertGitHubInstallation installationId accountLogin accountType)
     (fun now db =>
        (Ok tt, Sql.upsertGitHubInstallation now installationId accountLogin
                  accountType db)).

Definition getTeamConfigByWorkspace (linearWorkspaceId linearTeamId : string)
  : M (option TeamConfig) :=
  d1 env (QGetTeamConfigByWorkspace linearWorkspaceId linearTeamId)
     (fun _ db =>
        (Ok (Sql.getTeamConfigByWorkspace db linearWorkspaceId linearTeamId), db)).

Definition createTeamConfig (config : NewTeamConfig) : M TeamConfig :=
  d1 env (QCreateTeamConfig config) (fun now db => Sql.createTeamConfig now config db).

Definition createPendingConfig (config : NewPendingConfig) : M unit :=
  d1 env (QCreatePendingConfig config)
     (fun now db => (Ok tt, Sql.createPendingConfig now config db)).

Definition getPendingConfig (agentSessionId : string) : M (option PendingConfig) :=
  d1 env (QGetPendingConfig agentSessionId)
     (fun _ db => (Ok (Sql.getPendingConfig db agentSessionId), db)).

(** The insert is rejected on the foreign key of [run_log] when the event
    names a workflow run that is not stored. *)
Definition logEvent (event : LogEvent) : M unit :=
  d1 env (QLogEvent event)
     (fun now db =>
        match Sql.linkedRun event with
        | Some id =>
            if Sql.runStored id db
            then (Ok tt, Sql.logEvent now event db)
            else (Throw foreignKeyFailed, db)
        | None => (Ok tt, Sql.logEvent now event db)
        end).

End WithEnv.

End Queries.

(* ================================================================= *)
(** ** src/services/linear.ts, src/services/github-app.ts,
       src/services/workflow.ts *)

Module Services.
Import Schema Sql Effects.
Local Open Scope request_scope.

(** The line feed of ['\n']. *)
Definition LF : string := String "010"%char EmptyString.

Section WithEnv.

Variable env : Env.

(** *** LinearService, constructed on an OAuth token *)

(** [getOAuthToken(db, workspaceId)] and [getOAuthToken(db, workspaceId, env)]
    (which refreshes a token about to expire): the token the collaborator
    holds for the workspace, or [null]. *)
Definition getOAuthToken (workspaceId : string) : M (option string) :=
  call (EvOAuth workspaceId) (fun past => oauth_token env past workspaceId).

Definition createAgentActivity (token agentSessionId : string)
    (content : LinearAgentActivity) : M unit :=
  call (EvLinear token (CreateAgentActivity agentSessionId content))
       (fun past => linear_mutation env past token
                      (CreateAgentActivity agentSessionId content)).

Definition sendThought (token agentSessionId body : string) : M unit :=
  createAgentActivity token agentSessionId (Thought body).

Definition sendAction (token agentSessionId action parameter : string)
    (result : option string) : M unit :=
  createAgentActivity token agentSessionId (Action action parameter result).

Definition sendElicitation (token agentSessionId body : string) : M unit :=
  createAgentActivity token agentSessionId (Elicitation body).

Definition sendResponse (token agentSessionId body : string) : M unit :=
  createAgentActivity token agentSessionId (Response body).

Definition sendError (token agentSessionId body : string) : M unit :=
  createAgentActivity token agentSessionId (ErrorActivity body).

Definition getIssueContext (token issueId : string) : M IssueContext :=
  call (EvLinear token (GetIssueContext issueId))
       (fun past => linear_issue_context env past token issueId).

Definition createAttachment (token issueId title url : string) : M unit :=
  call (EvLinear token (CreateAttachment issueId title url))
       (fun past => linear_mutation env past token
                      (CreateAttachment issueId title url)).

(** *** GitHubAppService *)

(** [response.ok]. *)
Definition responseOk (status : N) : bool := (200 <=? status) && (status <=? 299).

Definition getInstallationToken (installationId : N) : M string :=
  call (EvGitHub (PostAccessTokens installationId))
       (fun past => github_access_token env past installationId).

(** [GET /repos/{owner}/{repo}/installation], authenticated as the app:
    404 is "not installed". *)
Definition getRepoInstallation (owner repo : string) : M (option N) :=
  let* response := call (EvGitHub (GetRepoInstallation owner repo))
                     (fun past => github_repo_installation env past owner repo) in
  if fst response =? 404 then ret None
  else if negb (responseOk (fst response))
  then throw (Error ("GitHub API error: " ++ Js.numberToString (fst response)))
  else ret (Some (snd response)).

Definition getDefaultBranch (installationId : N) (owner repo : string)
  : M string :=
  let* _token := getInstallationToken installationId in
  let* response := call (EvGitHub (GetRepository owner repo))
                     (fun past => github_repository env past owner repo) in
  if negb (responseOk (fst response))
  then throw (Error ("GitHub API error: " ++ Js.numberToString (fst response)))
  else ret (snd response).

Definition getInstallUrl (appSlug : string) : string :=
  "https://github.com/apps/" ++ appSlug ++ "/installations/new".

Definition listBranches (installationId : N) (owner repo : string)
  : M (list string) :=
  let* _token := getInstallationToken installationId in
  let* response := call (EvGitHub (GetBranches owner repo))
                     (fun past => github_branches env past owner repo) in
  if negb (responseOk (fst response))
  then throw (Error ("GitHub API error: " ++ Js.numberToString (fst response)))
  else ret (snd response).

Definition triggerWorkflow (installationId : N)
    (owner repo workflowId ref : string) (inputs : list (string * string))
  : M unit :=
  let* _token := getInstallationToken installationId in
  let request := PostDispatch owner repo workflowId ref inputs in
  let* response := call (EvGitHub request)
                     (fun past => github_dispatch env past request) in
  if negb (responseOk (fst response))
  then throw (Error ("Failed to trigger workflow: "
                       ++ Js.numberToString (fst response) ++ " - " ++ snd response))
  else ret tt.

(** 409 (already cancelled or completed) is not a failure. *)
Definition cancelWorkflowRun (installationId : N) (owner repo : string)
    (runId : N) : M unit :=
  let* _token := getInstallationToken installationId in
  let* status := call (EvGitHub (PostCancel owner repo runId))
                   (fun past => github_cancel env past owner repo runId) in
  if negb (responseOk status) && negb (status =? 409)
  then throw (Error ("Failed to cancel workflow: " ++ Js.numberToString status))
  else ret tt.

(** [GET /repos/{owner}/{repo}/pulls?head={owner}:{branch}&state=open]. *)
Definition listPullRequestsForBranch (installationId : N)
    (owner repo branch : string) : M (list PullRequest) :=
  let* _token := getInstallationToken installationId in
  let* response := call (EvGitHub (GetPullsForHead owner repo branch))
                     (fun past => github_pulls_for_head env past owner repo branch) in
  if negb (responseOk (fst response))
  then throw (Error ("GitHub API error: " ++ Js.numberToString (fst response)))
  else ret (snd response).

(** [pr.title.toLowerCase().includes(searchTerm.toLowerCase())]. *)
Definition titleMatches (searchTerm : string) (pr : PullRequest) : bool :=
  Js.includes (Js.toLowerCase (pr_title pr)) (Js.toLowerCase searchTerm).

(** [GET /repos/{owner}/{repo}/pulls?state=open&per_page=10], then the
    filter on titles. *)
Definition searchPullRequestsByTitle (installationId : N)
    (owner repo searchTerm : string) : M (list PullRequest) :=
  let* _token := getInstallationToken installationId in
  let* response := call (EvGitHub (GetOpenPulls owner repo))
                     (fun past => github_open_pulls env past owner repo) in
  if negb (responseOk (fst response))
  then throw (Error ("GitHub API error: " ++ Js.numberToString (fst response)))
  else ret (filter (titleMatches searchTerm) (snd response)).

(** *** WorkflowService, constructed on the two services above *)

Definition formatIssueContext (context : IssueContext) : Js.Json :=
  Js.JObject
    [("comments",
      Js.JArray (map (fun c => Js.JObject
                        [("author", Js.JString (comment_author c));
                         ("body", Js.JString (comment_body c));
                         ("createdAt", Js.JString (comment_createdAt c))])
                     (ic_comments context)));
     ("linkedIssues",
      Js.JArray (map (fun i => Js.JObject
                        [("identifier", Js.JString (linked_identifier i));
                         ("title", Js.JString (linked_title i));
                         ("relation", Js.JString (linked_relation i))])
                     (ic_linkedIssues context)));
     ("parentIssue",
      match ic_parentIssue context with
      | Some (identifier, title) =>
          Js.JObject [("identifier", Js.JString identifier);
                      ("title", Js.JString title)]
      | None => Js.JNull
      end);
     ("attachments",
      Js.JArray (map (fun a => Js.JObject
                        [("title", Js.JString (attachment_title a));
                         ("url", Js.JString (attachment_url a))])
                     (ic_attachments context)))].

(** The guard of [triggerImplementation]: the three coordinates, when none
    of them is falsy. *)
Definition githubConfiguration (config : TeamConfig) : option (string * string * N) :=
  match tc_github_owner config, tc_github_repo config,
        tc_github_installation_id config with
  | Some owner, Some repo, Some installationId =>
      if Js.truthy owner && Js.truthy repo && negb (installationId =? 0)
      then Some (owner, repo, installationId)
      else None
  | _, _, _ => None
  end.

Definition triggerImplementation (token : string)
    (agentSessionId issueId issueIdentifier : string) (config : TeamConfig)
  : M unit :=
  match githubConfiguration config with
  | None => throw (Error "Team config missing GitHub configuration")
  | Some (github_owner, github_repo, github_installation_id) =>
      let* issueContext := getIssueContext token issueId in
      let* existingBranches :=
        listBranches github_installation_id github_owner github_repo in
      match Branch.findAvailableBranchName issueIdentifier existingBranches with
      | None => throw (Error "findAvailableBranchName: the loop did not end")
      | Some branchName =>
          Queries.logEvent env
            {| le_workflowRunId := None;
               le_agentSessionId := Some agentSessionId;
               le_eventType := "workflow_trigger";
               le_message := Some ("Triggering implementation workflow for "
                                     ++ issueIdentifier);
               le_metadata := Some (Js.JObject
                                      [("branchName", Js.JString branchName);
                                       ("owner", Js.JString github_owner);
                                       ("repo", Js.JString github_repo)]) |} ;;
          sendAction token agentSessionId "Starting" "Implementation workflow" None ;;
          Queries.createPendingWorkflowTrigger env
            {| nt_agentSessionId := agentSessionId;
               nt_linearWorkspaceId := Some (tc_linear_workspace_id config);
               nt_linearIssueId := issueId;
               nt_linearIssueIdentifier := Some issueIdentifier;
               nt_workflowType := implement;
               nt_githubOwner := github_owner;
               nt_githubRepo := github_repo;
               nt_branchName := tc_github_branch config |} ;;
          triggerWorkflow github_installation_id github_owner github_repo
            "linear-agent.yml" (tc_github_branch config)
            [("agent_session_id", agentSessionId);
             ("ticket_id", issueIdentifier);
             ("ticket_title", ic_title issueContext);
             ("ticket_description", Js.orString (ic_description issueContext) EmptyString);
             ("ticket_context", json_stringify env (formatIssueContext issueContext));
             ("branch_name", branchName)]
      end
  end.

Definition cancelWorkflow (token : string) (workflowRun : WorkflowRun)
    (installationId : N) : M unit :=
  cancelWorkflowRun installationId (wr_github_owner workflowRun)
    (wr_github_repo workflowRun) (wr_github_run_id workflowRun) ;;
  Queries.updateWorkflowRun env (wr_github_run_id workflowRun)
    {| u_status := Some completed; u_conclusion := Some (Some "cancelled");
       u_prNumber := None; u_prUrl := None |} ;;
  sendThought token (wr_agent_session_id workflowRun) "Workflow cancelled" ;;
  Queries.logEvent env
    {| le_workflowRunId := None;
       le_agentSessionId := Some (wr_agent_session_id workflowRun);
       le_eventType := "workflow_cancelled";
       le_message := Some "Workflow cancelled by user unassign";
       le_metadata := None |}.

(** [https://github.com/{owner}/{repo}/actions/runs/{runId}]. *)
Definition workflowUrl (workflowRun : WorkflowRun) : string :=
  "https://github.com/" ++ wr_github_owner workflowRun ++ "/"
    ++ wr_github_repo workflowRun ++ "/actions/runs/"
    ++ Js.numberToString (wr_github_run_id workflowRun).

Definition successBody (workflowRun : WorkflowRun) (pr : PullRequest) : string :=
  "✅ Implementation complete!" ++ LF ++ LF ++ "[PR #"
    ++ Js.numberToString (pr_number pr) ++ ": "
    ++ wr_linear_issue_identifier workflowRun ++ "](" ++ pr_html_url pr ++ ")".

Definition noChangesBody : string :=
  "✅ Analysis complete! No code changes were necessary.".

Definition failureBody (workflowRun : WorkflowRun) (conclusion : string) : string :=
  "❌ Workflow " ++ conclusion ++ "." ++ LF ++ LF ++ "[View logs]("
    ++ workflowUrl workflowRun ++ ")".

Definition handleWorkflowComplete (token : string) (workflowRun : WorkflowRun)
    (installationId : N) (conclusion : string) : M unit :=
  (if String.eqb conclusion "success" then
     let* byBranch :=
       listPullRequestsForBranch installationId (wr_github_owner workflowRun)
         (wr_github_repo workflowRun) (wr_branch_name workflowRun) in
     let* prs :=
       match byBranch with
       | [] =>
           if Js.truthy (wr_linear_issue_identifier workflowRun)
           then searchPullRequestsByTitle installationId
                  (wr_github_owner workflowRun) (wr_github_repo workflowRun)
                  (wr_linear_issue_identifier workflowRun)
           else ret byBranch
       | _ :: _ => ret byBranch
       end in
     match prs with
     | pr :: _ =>
         Queries.updateWorkflowRun env (wr_github_run_id workflowRun)
           {| u_status := Some completed; u_conclusion := Some (Some conclusion);
              u_prNumber := Some (Some (pr_number pr));
              u_prUrl := Some (Some (pr_html_url pr)) |} ;;
         createAttachment token (wr_linear_issue_id workflowRun)
           ("PR #" ++ Js.numberToString (pr_number pr)) (pr_html_url pr) ;;
         sendResponse token (wr_agent_session_id workflowRun)
           (successBody workflowRun pr)
     | [] =>
         Queries.updateWorkflowRun env (wr_github_run_id workflowRun)
           {| u_status := Some completed; u_conclusion := Some (Some conclusion);
              u_prNumber := None; u_prUrl := None |} ;;
         sendResponse token (wr_agent_session_id workflowRun) noChangesBody
     end
   else
     Queries.updateWorkflowRun env (wr_github_run_id workflowRun)
       {| u_status := Some completed; u_conclusion := Some (Some conclusion);
          u_prNumber := None; u_prUrl := None |} ;;
     sendError token (wr_agent_session_id workflowRun)
       (failureBody workflowRun conclusion)) ;;
  Queries.logEvent env
    {| le_workflowRunId := Some (wr_id workflowRun);
       le_agentSessionId := Some (wr_agent_session_id workflowRun);
       le_eventType := "workflow_completed";
       le_message := Some ("Workflow completed with conclusion: " ++ conclusion);
       le_metadata := Some (Js.JObject [("conclusion", Js.JString conclusion)]) |}.

End WithEnv.

End Services.

(* ================================================================= *)
(** ** src/handlers/github-webhook.ts, src/handlers/inbox-notification.ts,
       src/handlers/session-created.ts, src/handlers/session-prompted.ts,
    src/handlers/linear-webhook.ts *)

Module Handlers.
Import Schema Sql Effects Services.
Local Open Scope request_scope.

Definition ok200 (fields : list (string * Js.Json)) : HttpResponse :=
  {| status := 200; json := Js.JObject fields |}.

Definition invalidSignature : HttpResponse :=
  {| status := 401; json := Js.JObject [("error", Js.JString "Invalid signature")] |}.

Definition alreadyProcessed : HttpResponse :=
  ok200 [("status", Js.JString "already_processed")].

Definition statusOk : HttpResponse := ok200 [("status", Js.JString "ok")].

Definition statusError (error : Exn) : HttpResponse :=
  ok200 [("status", Js.JString "error");
         ("message", Js.JString (errorToString error))].

(** The exception of a property read on a body of another shape. *)
Definition typeError : Exn := Error "TypeError: Cannot read properties of undefined".

(** The exception of [JSON.parse] on a body that is not JSON. *)
Definition syntaxError : Exn := Error "SyntaxError: Unexpected token in JSON".

(** The exception of [crypto.subtle.importKey] on an empty secret (a
    DataError; the wording of its message is the platform's). *)
Definition dataError : Exn := Error "DataError: HMAC key data must not be empty".

Section WithEnv.

Variable env : Env.

(** *** CI events *)

(** Lines 97-133 of [handleWorkflowRun]: the record of the run, or the
    correlation of the run with a pending trigger when there is no record.
    [None] is the early [return] of the handler. *)
Definition resolveWorkflowRun (payload : GitHubWorkflowRunWebhook)
  : M (option WorkflowRun) :=
  let owner := wrw_owner_login payload in
  let repo := wrw_repo_name payload in
  let branch := wrw_head_branch payload in
  let* workflowRun := Queries.getWorkflowRun env (wrw_id payload) in
  match workflowRun with
  | Some run => ret (Some run)
  | None =>
      let* pendingTrigger :=
        Queries.matchPendingWorkflowTrigger env owner repo branch in
      match pendingTrigger with
      | Some trigger =>
          let* created :=
            Queries.createWorkflowRun env
              {| nr_githubRunId := wrw_id payload;
                 nr_githubOwner := owner;
                 nr_githubRepo := repo;
                 nr_agentSessionId := pt_agent_session_id trigger;
                 nr_linearIssueId := pt_linear_issue_id trigger;
                 nr_linearIssueIdentifier :=
                   Js.orString (pt_linear_issue_identifier trigger) EmptyString;
                 nr_linearWorkspaceId := Js.orNull (pt_linear_workspace_id trigger);
                 nr_workflowType := implement;
                 nr_branchName := branch |} in
          Queries.markPendingWorkflowMatched env (pt_id trigger) ;;
          ret (Some created)
      | None => ret None
      end
  end.

(** Lines 135-173 of [handleWorkflowRun]: the status update and the
    notifications, on the record found or created. *)
Definition advanceWorkflowRun (payload : GitHubWorkflowRunWebhook)
    (workflowRun : WorkflowRun) : M unit :=
  let* oauthToken :=
    match wr_linear_workspace_id workflowRun with
    | Some workspaceId =>
        if Js.truthy workspaceId then getOAuthToken env workspaceId else ret None
    | None => ret None
    end in
  match oauthToken with
  | None => ret tt
  | Some token =>
      if negb (Js.truthy token) then ret tt
      else if String.eqb (wrw_action payload) "in_progress" then
        Queries.updateWorkflowRun env (wrw_id payload)
          {| u_status := Some in_progress; u_conclusion := None;
             u_prNumber := None; u_prUrl := None |} ;;
        sendAction env token (wr_agent_session_id workflowRun)
          "Running" "Claude Code" None
      else if String.eqb (wrw_action payload) "completed" then
        handleWorkflowComplete env token workflowRun
          (wrw_installation_id payload)
          (Js.orString (wrw_conclusion payload) "unknown")
      else ret tt
  end.

Definition handleWorkflowRun (payload : GitHubWorkflowRunWebhook) : M unit :=
  let* resolved := resolveWorkflowRun payload in
  match resolved with
  | None => ret tt
  | Some workflowRun => advanceWorkflowRun payload workflowRun
  end.

Definition handleInstallation (payload : GitHubInstallationWebhook) : M unit :=
  if String.eqb (iw_action payload) "created" then
    let* _row := Queries.createGitHubInstallation env (iw_installation_id payload)
                   (iw_account_login payload) (iw_account_type payload) in
    Queries.logEvent env
      {| le_workflowRunId := None;
         le_agentSessionId := None;
         le_eventType := "github_app_installed";
         le_message := Some ("GitHub App installed for " ++ iw_account_login payload);
         le_metadata := Some (Js.JObject
           [("installationId", Js.JNumber (iw_installation_id payload));
            ("accountLogin", Js.JString (iw_account_login payload));
            ("accountType", Js.JString (iw_account_type payload))]) |}
  else if String.eqb (iw_action payload) "deleted" then
    Queries.deleteGitHubInstallation env (iw_installation_id payload) ;;
    Queries.logEvent env
      {| le_workflowRunId := None;
         le_agentSessionId := None;
         le_eventType := "github_app_uninstalled";
         le_message := Some ("GitHub App uninstalled from " ++ iw_account_login payload);
         le_metadata := Some (Js.JObject
           [("installationId", Js.JNumber (iw_installation_id payload));
            ("accountLogin", Js.JString (iw_account_login payload))]) |}
  else ret tt.

(** Only logs to the console. *)
Definition handlePullRequest (payload : GitHubPullRequestWebhook) : M unit :=
  ret tt.

(** The [switch] on the event type; the body is read at the type the event
    type stands for. *)
Definition routeGitHub (eventType : string) (payload : GitHubWebhook) : M unit :=
  if String.eqb eventType "workflow_run" then
    match payload with
    | WorkflowRunWebhook p => handleWorkflowRun p
    | _ => throw typeError
    end
  else if String.eqb eventType "installation" then
    match payload with
    | InstallationWebhook p => handleInstallation p
    | _ => throw typeError
    end
  else if String.eqb eventType "pull_request" then
    match payload with
    | PullRequestWebhook p => handlePullRequest p
    | _ => throw typeError
    end
  else ret tt.

Definition githubWebhookId (eventType deliveryId : string) : string :=
  "github-" ++ eventType ++ "-" ++ deliveryId.

Definition handleGitHubWebhook (request : GitHubRequest) : M HttpResponse :=
  let body := gr_body request in
  let signature := Js.orString (gr_signature request) EmptyString in
  let eventType := Js.orString (gr_event request) EmptyString in
  match Crypto.verifyGitHubSignature (text_encode env) (hmac_sha256 env)
          body signature (GITHUB_WEBHOOK_SECRET env) with
  | None => throw dataError
  | Some false => ret invalidSignature
  | Some true =>
      match parse_github_webhook env body with
      | None => throw syntaxError
      | Some payload =>
          let* now := dateNow env in
          let deliveryId := Js.orString (gr_delivery request) (Js.numberToString now) in
          let webhookId := githubWebhookId eventType deliveryId in
          let* isProcessed := Queries.isWebhookProcessed env webhookId github in
          if isProcessed then ret alreadyProcessed
          else
            Queries.markWebhookProcessed env webhookId github ;;
            tryCatch
              (routeGitHub eventType payload ;; ret statusOk)
              (fun error => ret (statusError error))
      end
  end.

(** *** Unassignment *)

Definition handleInboxNotification (payload : LinearUnassignWebhook) : M unit :=
  Queries.logEvent env
    {| le_workflowRunId := None;
       le_agentSessionId := None;
       le_eventType := "agent_unassigned";
       le_message := Some ("Agent unassigned from " ++ un_issueIdentifier payload);
       le_metadata := Some (Js.JObject
         [("issueId", Js.JString (un_issueId payload));
          ("issueIdentifier", Js.JString (un_issueIdentifier payload))]) |} ;;
  let* activeWorkflow :=
    Queries.getActiveWorkflowRunByIssue env (un_issueId payload) in
  match activeWorkflow with
  | None => ret tt
  | Some activeWorkflow =>
      let* installation :=
        Queries.getGitHubInstallationByAccount env (wr_github_owner activeWorkflow) in
      match installation with
      | None => ret tt
      | Some installation =>
          match wr_linear_workspace_id activeWorkflow with
          | None => ret tt
          | Some workspaceId =>
              if negb (Js.truthy workspaceId) then ret tt
              else
                let* oauthToken := getOAuthToken env workspaceId in
                match oauthToken with
                | None => ret tt
                | Some token =>
                    if negb (Js.truthy token) then ret tt
                    else
                      cancelWorkflow env token activeWorkflow
                        (gi_installation_id installation) ;;
                      Queries.deletePendingConfig env
                        (wr_agent_session_id activeWorkflow)
                end
          end
      end
  end.

(** *** Ticketing-system events *)

(** src/handlers/session-created.ts *)
Definition handleSessionCreated (payload : LinearAgentSessionWebhook) : M unit :=
  let organizationId := as_organizationId payload in
  let sessionId := as_sessionId payload in
  let teamId := as_teamId payload in
  let* oauthToken := getOAuthToken env organizationId in
  match oauthToken with
  | None => ret tt
  | Some token =>
      if negb (Js.truthy token) then ret tt
      else
        Queries.logEvent env
          {| le_workflowRunId := None;
             le_agentSessionId := Some sessionId;
             le_eventType := "session_created";
             le_message := Some ("Agent assigned to " ++ as_issueIdentifier payload);
             le_metadata := Some (Js.JObject
               [("issueId", Js.JString (as_issueId payload));
                ("issueIdentifier", Js.JString (as_issueIdentifier payload));
                ("issueTitle", Js.JString (as_issueTitle payload));
                ("teamId", Js.JString teamId);
                ("workspaceId", Js.JString organizationId)]) |} ;;
        tryCatch
          (sendThought env token sessionId "Looking at this issue...")
          (fun error =>
             Queries.logEvent env
               {| le_workflowRunId := None;
                  le_agentSessionId := Some sessionId;
                  le_eventType := "error";
                  le_message := Some ("Failed to send thought: "
                                        ++ errorToString error);
                  le_metadata := None |} ;;
             throw error) ;;
        let* config :=
          Queries.getTeamConfigByWorkspace env organizationId teamId in
        let askForRepository :=
          Queries.createPendingConfig env
            {| npc_agentSessionId := sessionId;
               npc_linearWorkspaceId := organizationId;
               npc_linearTeamId := teamId;
               npc_pendingIssueId := as_issueId payload;
               npc_pendingIssueIdentifier := as_issueIdentifier payload |} ;;
          sendElicitation env token sessionId
            ("👋 I need to configure this team before I can implement tickets."
               ++ LF ++ LF ++ "Which GitHub repository should I use?"
               ++ LF ++ LF
               ++ "Reply with `owner/repo` (e.g., `acme/backend`)") in
        match config with
        | None => askForRepository
        | Some config =>
            if negb (Js.truthyOpt (tc_github_owner config))
               || negb (Js.truthyOpt (tc_github_repo config))
            then askForRepository
            else triggerImplementation env token sessionId (as_issueId payload)
                   (as_issueIdentifier payload) config
        end
  end.

(** src/handlers/session-prompted.ts *)

(** The character class [[a-zA-Z0-9_.-]]. *)
Definition repoChar (c : ascii) : bool :=
  let n := N_of_ascii c in
  ((97 <=? n) && (n <=? 122)) || ((65 <=? n) && (n <=? 90))
  || ((48 <=? n) && (n <=? 57)) || (n =? 95) || (n =? 46) || (n =? 45).

(** The longest prefix in the class. *)
Fixpoint repoRun (s : string) : string :=
  match s with
  | EmptyString => EmptyString
  | String c s' => if repoChar c then String c (repoRun s') else EmptyString
  end.

(** [s.match(/([a-zA-Z0-9_.-]+)\/([a-zA-Z0-9_.-]+)/)]: the two groups of the
    leftmost match. A slash is not in the class, so the first group of a
    match is a whole run of the class that a slash follows, and the second
    is the whole run after the slash; [run] is the run read so far. *)
Fixpoint repoMatch (run : string) (s : string) : option (string * string) :=
  match s with
  | EmptyString => None
  | String c s' =>
      if repoChar c then repoMatch (run ++ String c EmptyString) s'
      else if (N_of_ascii c =? 47) && Js.truthy run && Js.truthy (repoRun s')
      then Some (run, repoRun s')
      else repoMatch EmptyString s'
  end.

Definition handleConfigResponse (token : string) (pendingConfig : PendingConfig)
    (userMessage : string) : M unit :=
  let sessionId := pc_agent_session_id pendingConfig in
  match repoMatch EmptyString userMessage with
  | None =>
      sendElicitation env token sessionId
        ("I couldn't parse that. Please reply with the repository in `owner/repo` format."
           ++ LF ++ LF ++ "For example: `acme/backend`")
  | Some (owner, repo) =>
      let* installationId := getRepoInstallation env owner repo in
      if negb (Js.truthyNum installationId) then
        sendElicitation env token sessionId
          ("I don't have access to `" ++ owner ++ "/" ++ repo ++ "` yet."
             ++ LF ++ LF ++ "Please install the GitHub App:" ++ LF
             ++ getInstallUrl "linear-code-agent" ++ LF ++ LF
             ++ "Once installed, reply with `" ++ owner ++ "/" ++ repo ++ "` again.")
      else
        let installation := orElse installationId 0 in
        let* defaultBranch := getDefaultBranch env installation owner repo in
        Queries.upsertGitHubInstallation env installation owner "User" ;;
        let* config :=
          Queries.createTeamConfig env
            {| ntc_linearWorkspaceId := pc_linear_workspace_id pendingConfig;
               ntc_linearTeamId := pc_linear_team_id pendingConfig;
               ntc_linearTeamName := None;
               ntc_githubInstallationId := Some installation;
               ntc_githubOwner := Some owner;
               ntc_githubRepo := Some repo;
               ntc_githubBranch := Some defaultBranch |} in
        Queries.deletePendingConfig env sessionId ;;
        sendThought env token sessionId
          ("âœ… Configured! Using `" ++ owner ++ "/" ++ repo ++ "` (branch: `"
             ++ defaultBranch ++ "`). Starting implementation...") ;;
        Queries.logEvent env
          {| le_workflowRunId := None;
             le_agentSessionId := Some sessionId;
             le_eventType := "team_configured";
             le_message := Some ("Team configured with " ++ owner ++ "/" ++ repo);
             le_metadata := Some (Js.JObject
               [("owner", Js.JString owner);
                ("repo", Js.JString repo);
                ("branch", Js.JString defaultBranch)]) |} ;;
        triggerImplementation env token sessionId
          (pc_pending_issue_id pendingConfig)
          (pc_pending_issue_identifier pendingConfig) config
  end.

(** [content?.body || agentActivity?.body || '']. *)
Definition promptedMessage (payload : LinearAgentSessionWebhook) : string :=
  match as_agentActivity payload with
  | Some activity =>
      Js.orString (aa_content_body activity)
        (Js.orString (aa_body activity) EmptyString)
  | None => EmptyString
  end.

(** [statusMessages[activeWorkflow.status]]. *)
Definition statusMessage (s : RunStatus) : string :=
  match s with
  | queued => "is queued and will start shortly"
  | in_progress => "is currently running"
  | completed => "has completed"
  end.

(** The markers of a request for work, and those of a request for status. *)
Definition asksForWork (lowerMessage : string) : bool :=
  Js.includes lowerMessage "implement" || Js.includes lowerMessage "work on"
  || Js.includes lowerMessage "fix" || Js.includes lowerMessage "add"
  || Js.includes lowerMessage "update" || Js.includes lowerMessage "change".

Definition asksForStatus (lowerMessage : string) : bool :=
  Js.includes lowerMessage "status" || Js.includes lowerMessage "progress"
  || Js.includes lowerMessage "how's it going".

Definition handleSessionPrompted (payload : LinearAgentSessionWebhook) : M unit :=
  let sessionId := as_sessionId payload in
  let userMessage := promptedMessage payload in
  let* oauthToken := getOAuthToken env (as_organizationId payload) in
  match oauthToken with
  | None => ret tt
  | Some token =>
      if negb (Js.truthy token) then ret tt
      else
        Queries.logEvent env
          {| le_workflowRunId := None;
             le_agentSessionId := Some sessionId;
             le_eventType := "session_prompted";
             le_message := Some ("User replied: " ++ Js.take 200 userMessage);
             le_metadata := Some (Js.JObject
               [("issueId", Js.JString (as_issueId payload));
                ("issueIdentifier", Js.JString (as_issueIdentifier payload))]) |} ;;
        let* pendingConfig := Queries.getPendingConfig env sessionId in
        match pendingConfig with
        | Some pendingConfig => handleConfigResponse token pendingConfig userMessage
        | None =>
            let* activeWorkflow :=
              Queries.getActiveWorkflowRunByIssue env (as_issueId payload) in
            match activeWorkflow with
            | Some activeWorkflow =>
                sendThought env token sessionId
                  ("The implementation workflow "
                     ++ statusMessage (wr_status activeWorkflow)
                     ++ ". I'll update you when it's done.")
            | None =>
                let* config :=
                  Queries.getTeamConfigByWorkspace env (as_organizationId payload)
                    (as_teamId payload) in
                let unconfigured :=
                  sendElicitation env token sessionId
                    ("It looks like this team isn't configured yet. "
                       ++ "Please assign me to a ticket to start the setup process.") in
                match config with
                | None => unconfigured
                | Some config =>
                    if negb (Js.truthyOpt (tc_github_owner config)) then unconfigured
                    else
                      let lowerMessage := Js.toLowerCase userMessage in
                      if asksForWork lowerMessage then
                        sendThought env token sessionId
                          "Starting a new implementation..." ;;
                        triggerImplementation env token sessionId
                          (as_issueId payload) (as_issueIdentifier payload) config
                      else if asksForStatus lowerMessage then
                        sendResponse env token sessionId
                          ("I don't have any active work on this ticket. "
                             ++ "Let me know if you'd like me to implement something!")
                      else
                        sendElicitation env token sessionId
                          ("I'm not sure what you'd like me to do. Would you like me to:"
                             ++ LF ++ LF
                             ++ "1. **Implement** a feature or fix based on this ticket"
                             ++ LF
                             ++ "2. **Check status** of any previous work"
                             ++ LF ++ LF ++ "Just let me know!")
                end
            end
        end
  end.

(** src/handlers/linear-webhook.ts *)

Definition isUnassignAction (action : string) : bool :=
  String.eqb action "issueUnassignedFromYou".

Definition generateWebhookId (now : N) (payload : LinearWebhook) : string :=
  match payload with
  | AgentSessionEvent p =>
      match as_agentActivity p with
      | Some activity =>
          if String.eqb (as_action p) "prompted" && Js.truthy (aa_id activity)
          then "linear-session-" ++ as_sessionId p ++ "-prompted-" ++ aa_id activity
          else "linear-session-" ++ as_sessionId p ++ "-" ++ as_action p
      | None => "linear-session-" ++ as_sessionId p ++ "-" ++ as_action p
      end
  | AppUserNotification action p =>
      if isUnassignAction action
      then "linear-unassign-" ++ un_issueId p ++ "-" ++ Js.numberToString now
      else "linear-unknown-" ++ Js.numberToString now
  | OtherWebhook _ _ => "linear-unknown-" ++ Js.numberToString now
  end.

Definition routeLinear (payload : LinearWebhook) : M unit :=
  match payload with
  | AgentSessionEvent p =>
      if String.eqb (as_action p) "created" then handleSessionCreated p
      else if String.eqb (as_action p) "prompted" then handleSessionPrompted p
      else ret tt
  | AppUserNotification action p =>
      if isUnassignAction action then handleInboxNotification p else ret tt
  | OtherWebhook _ _ => ret tt
  end.

(** [`${payload.type}/${payload.action}`] in the message of the error log. *)
Definition typeAndAction (payload : LinearWebhook) : string :=
  match payload with
  | AgentSessionEvent p => "AgentSessionEvent/" ++ as_action p
  | AppUserNotification action _ => "AppUserNotification/" ++ action
  | OtherWebhook type action =>
      type ++ "/" ++ match action with Some a => a | None => "undefined" end
  end.

Definition webhookErrorEvent (payload : LinearWebhook) (error : Exn) : LogEvent :=
  {| le_workflowRunId := None;
     le_agentSessionId :=
       match payload with
       | AgentSessionEvent p => Some (as_sessionId p)
       | _ => None
       end;
     le_eventType := "webhook_error";
     le_message := Some ("Error handling " ++ typeAndAction payload ++ ": "
                           ++ errorToString error);
     le_metadata := None |}.

Definition handleLinearWebhook (request : LinearRequest) : M HttpResponse :=
  let body := lr_body request in
  let signature := Js.orString (lr_signature request) EmptyString in
  match Crypto.verifyLinearSignature (text_encode env) (hmac_sha256 env)
          body signature (LINEAR_WEBHOOK_SECRET env) with
  | None => throw dataError
  | Some false => ret invalidSignature
  | Some true =>
      match parse_linear_webhook env body with
      | None => throw syntaxError
      | Some payload =>
          let* now := dateNow env in
          let webhookId := generateWebhookId now payload in
          let* isProcessed := Queries.isWebhookProcessed env webhookId linear in
          if isProcessed then ret alreadyProcessed
          else
            Queries.markWebhookProcessed env webhookId linear ;;
            tryCatch
              (routeLinear payload ;; ret statusOk)
              (fun error =>
                 tryCatch (Queries.logEvent env (webhookErrorEvent payload error))
                          (fun _ => ret tt) ;;
                 ret (statusError error))
      end
  end.

End WithEnv.

End Handlers.

(* ================================================================= *)
(** ** A concrete setting for examples

    The platform functions are stand-ins (the signature scheme below is not
    HMAC); every theorem of this file is proved for all of them. *)

Module Scenario.
Import Schema Sql Effects.

Definition unassignPayload : LinearUnassignWebhook :=
  {| un_organizationId := "org-1"; un_issueId := "issue-456";
     un_issueIdentifier := "ABC-123" |}.

Definition unassignBody : string := "{unassign issue-456}".

Definition sessionPayload (action message : string) : LinearAgentSessionWebhook :=
  {| as_action := action; as_organizationId := "workspace-1";
     as_sessionId := "session-123"; as_issueId := "issue-456";
     as_issueIdentifier := "ABC-123"; as_issueTitle := "Add login feature";
     as_issueDescription := None; as_teamId := "team-1";
     as_teamName := "Engineering";
     as_agentActivity :=
       Some {| aa_id := "activity-1"; aa_type := "prompt"; aa_body := None;
               aa_content_body := Some message |} |}.

Definition configured : TeamConfig :=
  {| tc_id := 1; tc_linear_workspace_id := "workspace-1";
     tc_linear_team_id := "team-1"; tc_linear_team_name := None;
     tc_github_installation_id := Some 12345;
     tc_github_owner := Some "acme"; tc_github_repo := Some "backend";
     tc_github_branch := "main";
     tc_created_at := "2026-01-01 00:00:00";
     tc_updated_at := "2026-01-01 00:00:00" |}.

Definition installationPayload : GitHubInstallationWebhook :=
  {| iw_action := "created"; iw_installation_id := 12345;
     iw_account_login := "acme"; iw_account_type := "Organization" |}.

Definition installationBody : string := "{installation created 12345}".

Definition startedPayload : GitHubWorkflowRunWebhook :=
  {| wrw_action := "in_progress"; wrw_id := 987654; wrw_name := "linear-agent";
     wrw_status := "in_progress"; wrw_conclusion := None;
     wrw_html_url := "https://github.com/acme/backend/actions/runs/987654";
     wrw_head_branch := "main"; wrw_owner_login := "acme";
     wrw_repo_name := "backend"; wrw_installation_id := 12345 |}.

(** The environment of the examples: the clock, the answers of the CI
    platform to the two pull-request listings, and the answer of the
    ticketing system to a mutation are given; everything else succeeds. *)
Definition setting (clock : History -> N)
    (pullsForHead openPulls : list PullRequest)
    (mutation : LinearCall -> Result unit) : Env :=
  {| text_encode := list_byte_of_string;
     hmac_sha256 := fun key message => (key ++ message)%list;
     parse_linear_webhook := fun body =>
       if String.eqb body unassignBody
       then Some (AppUserNotification "issueUnassignedFromYou" unassignPayload)
       else None;
     parse_github_webhook := fun body =>
       if String.eqb body installationBody
       then Some (InstallationWebhook installationPayload)
       else None;
     json_stringify := fun _ => "{}";
     LINEAR_WEBHOOK_SECRET := "linear-secret";
     GITHUB_WEBHOOK_SECRET := "github-secret";
     date_now := clock;
     sql_now := fun _ => "2026-01-01 00:00:00";
     d1_fault := fun _ _ => None;
     oauth_token := fun _ _ => Ok (Some "lin_oauth");
     linear_mutation := fun _ _ c => mutation c;
     linear_issue_context := fun _ _ _ =>
       Ok {| ic_identifier := "ABC-123"; ic_title := "Add login";
             ic_description := None; ic_comments := []; ic_linkedIssues := [];
             ic_parentIssue := None; ic_attachments := [] |};
     github_access_token := fun _ _ => Ok "ghs_token";
     github_repo_installation := fun _ _ _ => Ok (200, 12345);
     github_repository := fun _ _ _ => Ok (200, "main");
     github_branches := fun _ _ _ => Ok (200, ["main"]);
     github_dispatch := fun _ _ => Ok (204, EmptyString);
     github_cancel := fun _ _ _ _ => Ok 202;
     github_pulls_for_head := fun _ _ _ _ => Ok (200, pullsForHead);
     github_open_pulls := fun _ _ _ => Ok (200, openPulls) |}.

Definition quiet : Env := setting (fun _ => 1000) [] [] (fun _ => Ok tt).

Definition signatureUnder (secret body : string) : string :=
  match Crypto.expectedSignature (text_encode quiet) (hmac_sha256 quiet)
          body secret with
  | Some expected => expected
  | None => EmptyString
  end.

Definition linearSignature (body : string) : string :=
  signatureUnder (LINEAR_WEBHOOK_SECRET quiet) body.

Definition githubSignature (body : string) : string :=
  "sha256=" ++ signatureUnder (GITHUB_WEBHOOK_SECRET quiet) body.

Definition unassignRequest : LinearRequest :=
  {| lr_body := unassignBody; lr_signature := Some (linearSignature unassignBody) |}.

Definition installationRequest (delivery : string) : GitHubRequest :=
  {| gr_body := installationBody;
     gr_signature := Some (githubSignature installationBody);
     gr_event := Some "installation";
     gr_delivery := Some delivery |}.

(** A run of the tests of the repository (run 987654 of acme/backend for
    ABC-123), with the given status. *)
Definition runWith (s : RunStatus) (identifier : string) : WorkflowRun :=
  {| wr_id := 1; wr_github_run_id := 987654; wr_github_owner := "acme";
     wr_github_repo := "backend"; wr_agent_session_id := "session-123";
     wr_linear_issue_id := "issue-456"; wr_linear_issue_identifier := identifier;
     wr_linear_workspace_id := Some "workspace-1"; wr_workflow_type := implement;
     wr_branch_name := "agent/abc-123"; wr_status := s;
     wr_conclusion := match s with completed => Some "success" | _ => None end;
     wr_pr_number := None; wr_pr_url := None;
     wr_created_at := "2026-01-01 00:00:00";
     wr_updated_at := "2026-01-01 00:00:00" |}.

Definition dbWithRun (r : WorkflowRun) : DB :=
  setWorkflowRuns emptyDB [r] [("workflow_runs", 1)].

(** Four triggers: one of acme/backend on main already matched, two
    unmatched ones of acme/backend on main, and a later one of another
    repository. *)
Definition triggerOf (id : N) (session repo created : string)
    (matched : option string) : PendingWorkflowTrigger :=
  {| pt_id := id; pt_agent_session_id := session;
     pt_linear_workspace_id := Some "workspace-1";
     pt_linear_issue_id := "issue-456";
     pt_linear_issue_identifier := Some "ABC-123";
     pt_workflow_type := implement; pt_github_owner := "acme";
     pt_github_repo := repo; pt_branch_name := "main";
     pt_created_at := created; pt_matched_at := matched |}.

Definition dbWithTriggers : DB :=
  setPendingWorkflowTriggers emptyDB
    [triggerOf 1 "session-1" "backend" "2026-01-01 10:00:00"
       (Some "2026-01-01 10:00:05");
     triggerOf 2 "session-2" "backend" "2026-01-01 11:00:00" None;
     triggerOf 3 "session-3" "backend" "2026-01-01 10:30:00" None;
     triggerOf 4 "session-4" "frontend" "2026-01-01 12:00:00" None]
    [("pending_workflow_triggers", 4)].

Definition unconfigured : TeamConfig :=
  {| tc_id := 1; tc_linear_workspace_id := "workspace-1";
     tc_linear_team_id := "team-1"; tc_linear_team_name := None;
     tc_github_installation_id := Some 12345;
     tc_github_owner := None; tc_github_repo := Some "backend";
     tc_github_branch := "main";
     tc_created_at := "2026-01-01 00:00:00";
     tc_updated_at := "2026-01-01 00:00:00" |}.

Definition reopen : RunUpdates :=
  {| u_status := Some in_progress; u_conclusion := None;
     u_prNumber := None; u_prUrl := None |}.

Definition pull (number : N) (title : string) : PullRequest :=
  {| pr_number := number;
     pr_html_url := "https://github.com/acme/backend/pull/" ++ Js.numberToString number;
     pr_title := title |}.

(** A second [installation] / [created] event for an installation already
    stored: the insert fails on the UNIQUE column, the handler throws, and the
    entry point answers 200 with nothing written to the RunLog. *)
Definition storedInstallation : DB :=
  setGitHubInstallations emptyDB
    [{| gi_id := 1; gi_installation_id := 12345; gi_account_login := "acme";
        gi_account_type := "Organization";
        gi_created_at := "2026-01-01 00:00:00";
        gi_updated_at := "2026-01-01 00:00:00" |}]
    [("github_installations", 1)].

Definition dbWithConfig : DB :=
  setTeamConfigs emptyDB [configured] [("team_configs", 1)].

End Scenario.

(* ================================================================= *)
(** ** Vocabulary of the properties

    The definitions below are used to state the properties; none of them is
    part of the program. *)

Module Statements.
Import Branch Schema Sql Effects Services Handlers.

(** Decoding one printed byte, to see that the printing loses nothing. *)
Definition unhexDigit (c : ascii) : N :=
  let n := N_of_ascii c in if n <? 58 then n - 48 else n - 87.

(** A lowercase hexadecimal digit: [[0-9a-f]]. *)
Definition lowerHexChar (c : ascii) : bool :=
  let n := N_of_ascii c in
  ((48 <=? n) && (n <=? 57)) || ((97 <=? n) && (n <=? 102)).

(** The lowercase hexadecimal digest of a byte string, written from the
    words of the specification and not from the code: two digits for each
    byte, the high one first, each taken from the sixteen digits in order. *)
Definition hexDigits : list ascii := list_ascii_of_string "0123456789abcdef".

Definition digit (n : N) : ascii := nth (N.to_nat n) hexDigits "0"%char.

Fixpoint lowercaseHex (bytes : list Byte.byte) : string :=
  match bytes with
  | [] => EmptyString
  | b :: rest =>
      String (digit (Byte.to_N b / 16))
        (String (digit (Byte.to_N b mod 16)) (lowercaseHex rest))
  end.

(** The candidates probed before the loop runs out of fuel. *)
Fixpoint probed (fuel : nat) (baseName : string) (suffix : N) : list string :=
  match fuel with
  | O => []
  | S fuel' => suffixed baseName suffix :: probed fuel' baseName (suffix + 1)
  end.

(** The entry [handleInboxNotification] writes before anything else. *)
Definition unassignedEvent (payload : LinearUnassignWebhook) : LogEvent :=
  {| le_workflowRunId := None;
     le_agentSessionId := None;
     le_eventType := "agent_unassigned";
     le_message := Some ("Agent unassigned from " ++ un_issueIdentifier payload);
     le_metadata := Some (Js.JObject
       [("issueId", Js.JString (un_issueId payload));
        ("issueIdentifier", Js.JString (un_issueIdentifier payload))]) |}.

(** A call to the store, as opposed to a call to a collaborator. *)
Definition isDbCall (ev : Event) : bool :=
  match ev with EvDb _ => true | _ => false end.


(** The row [resolveWorkflowRun] inserts for a trigger. *)
Definition runFromTrigger (payload : GitHubWorkflowRunWebhook)
    (trigger : PendingWorkflowTrigger) : NewWorkflowRun :=
  {| nr_githubRunId := wrw_id payload;
     nr_githubOwner := wrw_owner_login payload;
     nr_githubRepo := wrw_repo_name payload;
     nr_agentSessionId := pt_agent_session_id trigger;
     nr_linearIssueId := pt_linear_issue_id trigger;
     nr_linearIssueIdentifier :=
       Js.orString (pt_linear_issue_identifier trigger) EmptyString;
     nr_linearWorkspaceId := Js.orNull (pt_linear_workspace_id trigger);
     nr_workflowType := implement;
     nr_branchName := wrw_head_branch payload |}.








(** [https://github.com/{owner}/{repo}/actions/runs/{runId}], the run id in
    decimal. *)
Definition runLink (owner repo : string) (runId : N) : string :=
  "https://github.com/" ++ owner ++ "/" ++ repo ++ "/actions/runs/"
    ++ NilEmpty.string_of_uint (N.to_uint runId).


(** The two statements of the idempotency ledger, as calls. *)
Definition ledgerCheck (webhookId : string) (webhookType : WebhookType) : Event :=
  EvDb (QIsWebhookProcessed webhookId webhookType).

Definition ledgerMark (webhookId : string) (webhookType : WebhookType) : Event :=
  EvDb (QMarkWebhookProcessed webhookId webhookType).

(** What the signature check of each entry point settles to on a request:
    [Some] of its boolean, or [None] when it throws. *)
Definition linearVerdict (env : Env) (request : LinearRequest) : option bool :=
  Crypto.verifyLinearSignature (text_encode env) (hmac_sha256 env)
    (lr_body request) (Js.orString (lr_signature request) EmptyString)
    (LINEAR_WEBHOOK_SECRET env).

Definition githubVerdict (env : Env) (request : GitHubRequest) : option bool :=
  Crypto.verifyGitHubSignature (text_encode env) (hmac_sha256 env)
    (gr_body request) (Js.orString (gr_signature request) EmptyString)
    (GITHUB_WEBHOOK_SECRET env).

(** The request verified: the check returned [true]. *)
Definition linearSignatureValid (env : Env) (request : LinearRequest) : bool :=
  match linearVerdict env request with Some true => true | _ => false end.

Definition githubSignatureValid (env : Env) (request : GitHubRequest) : bool :=
  match githubVerdict env request with Some true => true | _ => false end.

(** The event handler an event is for, in the words of the specification:
    a created or prompted session, an unassignment, a workflow run, an
    installation event, a pull-request event; [None] for every other
    event. *)
Definition linearHandlerFor (env : Env) (payload : LinearWebhook)
  : option (M unit) :=
  match payload with
  | AgentSessionEvent p =>
      if String.eqb (as_action p) "created"
      then Some (handleSessionCreated env p)
      else if String.eqb (as_action p) "prompted"
      then Some (handleSessionPrompted env p)
      else None
  | AppUserNotification action p =>
      if String.eqb action "issueUnassignedFromYou"
      then Some (handleInboxNotification env p)
      else None
  | OtherWebhook _ _ => None
  end.

Definition githubHandlerFor (env : Env) (eventType : string)
    (payload : GitHubWebhook) : option (M unit) :=
  match payload with
  | WorkflowRunWebhook p =>
      if String.eqb eventType "workflow_run"
      then Some (handleWorkflowRun env p) else None
  | InstallationWebhook p =>
      if String.eqb eventType "installation"
      then Some (handleInstallation env p) else None
  | PullRequestWebhook p =>
      if String.eqb eventType "pull_request"
      then Some (handlePullRequest p) else None
  end.

(** The ledger holds a row for the id. *)
Definition ledgerHolds (db : DB) (webhookId : string) : Prop :=
  exists row, In row (processed_webhooks db) /\ pw_webhook_id row = webhookId.

(** The dedup id of a CI request handled at clock reading [now]. *)
Definition githubRequestId (now : N) (request : GitHubRequest) : string :=
  githubWebhookId (Js.orString (gr_event request) EmptyString)
    (Js.orString (gr_delivery request) (Js.numberToString now)).

Definition unassignEvent (payload : LinearUnassignWebhook) : LinearWebhook :=
  AppUserNotification "issueUnassignedFromYou" payload.

Definition githubCalls (h : History) : list GitHubCall :=
  flat_map (fun ev => match ev with EvGitHub c => [c] | _ => [] end) h.

Definition activities (h : History) : list LinearAgentActivity :=
  flat_map (fun ev => match ev with
                      | EvLinear _ (CreateAgentActivity _ a) => [a]
                      | _ => []
                      end) h.

End Statements.

(* ================================================================= *)
(** ** More of src/db/queries.ts *)

Module SqlMore.
Import Schema Sql.

(** [SELECT * FROM github_installations WHERE installation_id = ?], first row. *)
Definition getGitHubInstallation (db : DB) (installationId : N)
  : option GitHubInstallation :=
  find (fun i => gi_installation_id i =? installationId) (github_installations db).

(** [SELECT * FROM workflow_runs WHERE agent_session_id = ?
    ORDER BY created_at DESC LIMIT 1]. *)
Definition getWorkflowRunBySession (db : DB) (agentSessionId : string)
  : option WorkflowRun :=
  latest wr_created_at
    (filter (fun r => String.eqb (wr_agent_session_id r) agentSessionId)
            (workflow_runs db)).

End SqlMore.

(* ================================================================= *)
(** ** src/index.ts: escaping *)

Module Html.

(** [s.replace(/c/g, replacement)] for a pattern of one literal character. *)
Fixpoint replaceAll (c : ascii) (replacement : string) (s : string) : string :=
  match s with
  | EmptyString => EmptyString
  | String x s' =>
      (if Ascii.eqb x c then replacement else String x EmptyString)
        ++ replaceAll c replacement s'
  end.

Definition escapeHtml (str : string) : string :=
  replaceAll "'" "&#039;"
    (replaceAll "034" "&quot;"
       (replaceAll ">" "&gt;"
          (replaceAll "<" "&lt;"
             (replaceAll "&" "&amp;" str)))).

End Html.

(* ================================================================= *)
(** ** The OAuth routes and the token store

    src/index.ts (/oauth/authorize, /oauth/callback) and
    src/services/linear.ts (getOAuthToken, refreshOAuthToken,
    refreshAllTokens). In the webhook handlers getOAuthToken is
    the collaborator [Effects.oauth_token]; here is the function itself.
    The two tables of the OAuth flow are read and written by these
    functions only, so they have a store and a monad of their own. *)

Module OAuth.
Import Sql.

(** *** The two tables *)

Record OAuthState := {
  os_state : string;
  os_created_at : string
}.

(** A row of [oauth_tokens], with the columns the code reads or writes. *)
Record OAuthToken := {
  ot_workspace_id : string;
  ot_access_token : string;
  ot_scope : option string;
  ot_refresh_token : option string;
  ot_expires_at : option string;
  ot_updated_at : string
}.

Record Store := {
  oauth_states : list OAuthState;
  oauth_tokens : list OAuthToken
}.

(** *** The statements *)

(** [INSERT INTO oauth_states (state) VALUES (?)]: fails on the PRIMARY KEY. *)
Definition insertState (now state : string) (s : Store) : Result unit * Store :=
  if existsb (fun r => String.eqb (os_state r) state) (oauth_states s)
  then (Throw (Error "UNIQUE constraint failed: oauth_states.state"), s)
  else (Ok tt,
        {| oauth_states := oauth_states s
                             ++ [{| os_state := state; os_created_at := now |}];
           oauth_tokens := oauth_tokens s |}).

(** [DELETE FROM oauth_states WHERE created_at < datetime('now', '-10 minutes')],
    [cutoff] being the value of the right-hand side. *)
Definition deleteExpiredStates (cutoff : string) (s : Store) : Store :=
  {| oauth_states :=
       filter (fun r => negb (String.ltb (os_created_at r) cutoff)) (oauth_states s);
     oauth_tokens := oauth_tokens s |}.

(** [SELECT state FROM oauth_states WHERE state = ?], first row. *)
Definition selectState (s : Store) (state : string) : option string :=
  option_map os_state
    (find (fun r => String.eqb (os_state r) state) (oauth_states s)).

(** [DELETE FROM oauth_states WHERE state = ?]. *)
Definition deleteState (state : string) (s : Store) : Store :=
  {| oauth_states :=
       filter (fun r => negb (String.eqb (os_state r) state)) (oauth_states s);
     oauth_tokens := oauth_tokens s |}.

(** [INSERT INTO oauth_tokens (workspace_id, access_token, scope) VALUES (?, ?, ?)
    ON CONFLICT(workspace_id) DO UPDATE SET access_token = excluded.access_token,
    scope = excluded.scope, updated_at = datetime('now')]. *)
Definition upsertToken (now workspaceId accessToken scope : string) (s : Store)
  : Store :=
  {| oauth_states := oauth_states s;
     oauth_tokens :=
       if existsb (fun r => String.eqb (ot_workspace_id r) workspaceId) (oauth_tokens s)
       then map (fun r =>
                   if String.eqb (ot_workspace_id r) workspaceId
                   then {| ot_workspace_id := ot_workspace_id r;
                           ot_access_token := accessToken;
                           ot_scope := Some scope;
                           ot_refresh_token := ot_refresh_token r;
                           ot_expires_at := ot_expires_at r;
                           ot_updated_at := now |}
                   else r)
                (oauth_tokens s)
       else oauth_tokens s
              ++ [{| ot_workspace_id := workspaceId;
                     ot_access_token := accessToken;
                     ot_scope := Some scope;
                     ot_refresh_token := None;
                     ot_expires_at := None;
                     ot_updated_at := now |}] |}.

(** [SELECT access_token, refresh_token, expires_at FROM oauth_tokens
    WHERE workspace_id = ?], first row. *)
Definition selectToken (s : Store) (workspaceId : string) : option OAuthToken :=
  find (fun r => String.eqb (ot_workspace_id r) workspaceId) (oauth_tokens s).

(** [UPDATE oauth_tokens SET access_token = ?, refresh_token = ?,
    expires_at = ?, updated_at = datetime('now') WHERE workspace_id = ?]. *)
Definition updateToken (now workspaceId accessToken : string)
    (refreshToken expiresAt : option string) (s : Store) : Store :=
  {| oauth_states := oauth_states s;
     oauth_tokens :=
       map (fun r =>
              if String.eqb (ot_workspace_id r) workspaceId
              then {| ot_workspace_id := ot_workspace_id r;
                      ot_access_token := accessToken;
                      ot_scope := ot_scope r;
                      ot_refresh_token := refreshToken;
                      ot_expires_at := expiresAt;
                      ot_updated_at := now |}
              else r)
           (oauth_tokens s) |}.

(** [... WHERE refresh_token IS NOT NULL AND expires_at IS NOT NULL AND
    expires_at <= ?], all rows. *)
Definition expiring (threshold : string) (r : OAuthToken) : bool :=
  match ot_refresh_token r, ot_expires_at r with
  | Some _, Some expiresAt => String.leb expiresAt threshold
  | _, _ => false
  end.

Definition selectExpiring (s : Store) (threshold : string) : list OAuthToken :=
  filter (expiring threshold) (oauth_tokens s).

(** *** The calls of a request and its surroundings *)

Inductive Call :=
| InsertState (state : string)
| DeleteExpiredStates
| SelectState (state : string)
| DeleteState (state : string)
| UpsertToken (workspaceId accessToken scope : string)
| SelectToken (workspaceId : string)
| SelectExpiring (threshold : string)
| UpdateToken (workspaceId accessToken : string) (refreshToken expiresAt : option string)
| PostToken (form : list (string * string))
| QueryOrganization (accessToken : string).

Definition Trace := list Call.

(** The JSON of the token endpoint: [expires_in] in seconds. *)
Record TokenAnswer := {
  ta_access_token : string;
  ta_scope : option string;
  ta_refresh_token : option string;
  ta_expires_in : option N
}.

(** [orgData.data?.organization]: the empty string stands for an absent
    [id] or [name], which the code treats alike. *)
Record Organization := {
  org_id : string;
  org_name : string
}.

(** The platform, the worker's secrets and the ticketing system. A fetch
    answers with the status and the parsed body, or throws. *)
Record Env := {
  LINEAR_CLIENT_ID : string;
  LINEAR_CLIENT_SECRET : string;
  random_uuid : Trace -> string;
  url_search_params : list (string * string) -> string;
  sql_now : Trace -> string;
  sql_ten_minutes_ago : Trace -> string;
  date_now : Trace -> Z;
  date_parse : string -> option Z;
  to_iso_string : Z -> string;
  d1_fault : Trace -> Call -> option Exn;
  token_endpoint : Trace -> list (string * string) -> Result (N * TokenAnswer);
  organization_query : Trace -> string -> Result (option Organization)
}.

Record Outcome (A : Type) := {
  result : Result A;
  store : Store;
  emitted : Trace
}.
Arguments result {A} o.
Arguments store {A} o.
Arguments emitted {A} o.

Definition Flow (A : Type) : Type := Trace -> Store -> Outcome A.

Definition ret {A : Type} (a : A) : Flow A :=
  fun _ s => {| result := Ok a; store := s; emitted := [] |}.

Definition bind {A B : Type} (m : Flow A) (k : A -> Flow B) : Flow B :=
  fun past s =>
    match m past s with
    | {| result := Ok a; store := s1; emitted := ev |} =>
        match k a (past ++ ev)%list s1 with
        | {| result := r; store := s2; emitted := ev' |} =>
            {| result := r; store := s2; emitted := (ev ++ ev')%list |}
        end
    | {| result := Throw e; store := s1; emitted := ev |} =>
        {| result := Throw e; store := s1; emitted := ev |}
    end.

(** [try { m } catch { handler }]. *)
Definition tryCatch {A : Type} (m : Flow A) (handler : Exn -> Flow A) : Flow A :=
  fun past s =>
    match m past s with
    | {| result := Ok a; store := s1; emitted := ev |} =>
        {| result := Ok a; store := s1; emitted := ev |}
    | {| result := Throw e; store := s1; emitted := ev |} =>
        match handler e (past ++ ev)%list s1 with
        | {| result := r; store := s2; emitted := ev' |} =>
            {| result := r; store := s2; emitted := (ev ++ ev')%list |}
        end
    end.

Declare Scope flow_scope.
Delimit Scope flow_scope with flow.

Notation "'let*' x ':=' m 'in' k" := (bind m (fun x => k))
  (at level 10, x name, m at level 100, k at level 200) : flow_scope.
Notation "m ';;' k" := (bind m (fun _ => k))
  (at level 100, k at level 200, right associativity) : flow_scope.

Local Open Scope flow_scope.

(** What a route answers: [c.html(body, status)] or [c.redirect(location)]. *)
Inductive Response :=
| Html (status : N) (body : string)
| Redirect (location : string).

Section WithEnv.

Variable env : Env.

Definition d1 {A : Type} (q : Call) (run : string -> Store -> Result A * Store)
  : Flow A :=
  fun past s =>
    match d1_fault env past q with
    | Some e => {| result := Throw e; store := s; emitted := [q] |}
    | None =>
        let (r, s') := run (sql_now env past) s in
        {| result := r; store := s'; emitted := [q] |}
    end.

Definition fetch {A : Type} (q : Call) (answer : Trace -> Result A) : Flow A :=
  fun past s => {| result := answer past; store := s; emitted := [q] |}.

Definition dateNow : Flow Z :=
  fun past s => {| result := Ok (date_now env past); store := s; emitted := [] |}.

(** *** src/index.ts *)

Definition quote : string := String "034" EmptyString.

Definition bodyStyle : string :=
  "<body style=" ++ quote
    ++ "font-family: system-ui; padding: 40px; text-align: center;" ++ quote ++ ">".

(** The page of the four refusals of the callback. *)
Definition refusalPage (title message again : string) : string :=
  Services.LF ++ "      <html>" ++ Services.LF
     ++ "        " ++ bodyStyle ++ Services.LF
     ++ "          <h1>❌ " ++ title ++ "</h1>" ++ Services.LF
     ++ "          <p>" ++ message ++ "</p>" ++ Services.LF
     ++ "          <p><a href=" ++ quote ++ "/oauth/authorize" ++ quote ++ ">"
     ++ again ++ "</a></p>" ++ Services.LF
     ++ "        </body>" ++ Services.LF
     ++ "      </html>" ++ Services.LF
     ++ "    ".

Definition installedPage (safeWorkspaceName : string) : string :=
  Services.LF ++ "    <html>" ++ Services.LF
     ++ "      " ++ bodyStyle ++ Services.LF
     ++ "        <h1>✅ Linear Agent Installed!</h1>" ++ Services.LF
     ++ "        <p>Your Linear Code Agent is now installed in <strong>"
     ++ safeWorkspaceName ++ "</strong>.</p>" ++ Services.LF
     ++ "        <p>Go back to Linear and assign a ticket to the agent to test it.</p>"
     ++ Services.LF
     ++ "      </body>" ++ Services.LF
     ++ "    </html>" ++ Services.LF
     ++ "  ".

Definition authorizationDenied : Response :=
  Html 400 (refusalPage "Authorization Failed"
              "The authorization was denied or an error occurred." "Try again").

Definition missingParameters : Response :=
  Html 400 (refusalPage "Invalid Request" "Missing required parameters." "Start over").

Definition unknownState : Response :=
  Html 400 (refusalPage "Invalid Request"
              "The authorization request has expired or is invalid." "Start over").

Definition exchangeFailed : Response :=
  Html 400 (refusalPage "Authorization Failed"
              "Could not complete the authorization. Please try again." "Try again").

Definition workspaceUnknown : Response :=
  Html 400 (refusalPage "Authorization Failed"
              "Could not retrieve workspace information." "Try again").

(** [crypto.randomUUID()]. *)
Definition randomUUID : Flow string :=
  fun past s => {| result := Ok (random_uuid env past); store := s; emitted := [] |}.

(** The value of [datetime('now', '-10 minutes')]. *)
Definition tenMinutesAgo : Flow string :=
  fun past s =>
    {| result := Ok (sql_ten_minutes_ago env past); store := s; emitted := [] |}.

(** [app.get('/oauth/authorize', ...)]; [origin] is that of the request URL. *)
Definition authorize (origin : string) : Flow Response :=
  let* state := randomUUID in
  d1 (InsertState state) (fun now s => insertState now state s) ;;
  let* cutoff := tenMinutesAgo in
  d1 DeleteExpiredStates (fun _ s => (Ok tt, deleteExpiredStates cutoff s)) ;;
  ret (Redirect
         ("https://linear.app/oauth/authorize?"
            ++ url_search_params env
                 [("client_id", LINEAR_CLIENT_ID env);
                  ("redirect_uri", origin ++ "/oauth/callback");
                  ("response_type", "code");
                  ("state", state);
                  ("scope", "read,write,issues:create,comments:create,app:assignable");
                  ("actor", "app")])).

(** The query of a callback request: [None] for an absent parameter. *)
Record CallbackQuery := {
  q_code : option string;
  q_state : option string;
  q_error : option string
}.

(** [app.get('/oauth/callback', ...)]. *)
Definition callback (origin : string) (query : CallbackQuery) : Flow Response :=
  if Js.truthyOpt (q_error query) then ret authorizationDenied
  else
    match q_code query, q_state query with
    | Some code, Some state =>
        if negb (Js.truthy code) || negb (Js.truthy state) then ret missingParameters
        else
          let* storedState :=
            d1 (SelectState state) (fun _ s => (Ok (selectState s state), s)) in
          match storedState with
          | None => ret unknownState
          | Some _ =>
              d1 (DeleteState state) (fun _ s => (Ok tt, deleteState state s)) ;;
              let form := [("grant_type", "authorization_code");
                           ("code", code);
                           ("redirect_uri", origin ++ "/oauth/callback");
                           ("client_id", LINEAR_CLIENT_ID env);
                           ("client_secret", LINEAR_CLIENT_SECRET env)] in
              let* response :=
                fetch (PostToken form) (fun past => token_endpoint env past form) in
              if negb (Services.responseOk (fst response)) then ret exchangeFailed
              else
                let data := snd response in
                let* organization :=
                  fetch (QueryOrganization (ta_access_token data))
                        (fun past => organization_query env past (ta_access_token data)) in
                let workspaceId :=
                  match organization with Some o => org_id o | None => EmptyString end in
                let workspaceName :=
                  match organization with
                  | Some o => Js.orString (Some (org_name o)) "Unknown"
                  | None => "Unknown"
                  end in
                if negb (Js.truthy workspaceId) then ret workspaceUnknown
                else
                  d1 (UpsertToken workspaceId (ta_access_token data)
                        (Js.orString (ta_scope data) EmptyString))
                     (fun now s =>
                        (Ok tt, upsertToken now workspaceId (ta_access_token data)
                                  (Js.orString (ta_scope data) EmptyString) s)) ;;
                  ret (Html 200 (installedPage (Html.escapeHtml workspaceName)))
          end
    | _, _ => ret missingParameters
    end.

(** *** src/services/linear.ts *)

(** [5 * 60 * 1000]. *)
Definition bufferMs : Z := 300000.

(** [refreshOAuthToken]: the new access token, or [null] when the refresh
    or the storing of its result failed in any way. *)
Definition refreshOAuthToken (workspaceId refreshToken clientId clientSecret : string)
  : Flow (option string) :=
  tryCatch
    (let form := [("grant_type", "refresh_token");
                  ("refresh_token", refreshToken);
                  ("client_id", clientId);
                  ("client_secret", clientSecret)] in
     let* response :=
       fetch (PostToken form) (fun past => token_endpoint env past form) in
     if negb (Services.responseOk (fst response)) then ret None
     else
       let data := snd response in
       let* now := dateNow in
       let expiresAt :=
         match ta_expires_in data with
         | Some seconds =>
             if seconds =? 0 then None
             else Some (to_iso_string env (now + Z.of_N seconds * 1000)%Z)
         | None => None
         end in
       d1 (UpdateToken workspaceId (ta_access_token data)
             (Js.orNull (ta_refresh_token data)) expiresAt)
          (fun stamp s =>
             (Ok tt, updateToken stamp workspaceId (ta_access_token data)
                       (Js.orNull (ta_refresh_token data)) expiresAt s)) ;;
       ret (Some (ta_access_token data)))
    (fun _ => ret None).

(** [now >= expiresAt - bufferMs], false when the date does not parse. *)
Definition aboutToExpire (now : Z) (expiresAt : string) : bool :=
  match date_parse env expiresAt with
  | Some t => (t - bufferMs <=? now)%Z
  | None => false
  end.

(** [getOAuthToken(db, workspaceId, env?)]; [withEnv] tells whether the
    third argument is given. *)
Definition getOAuthToken (workspaceId : string) (withEnv : bool)
  : Flow (option string) :=
  let* row := d1 (SelectToken workspaceId)
                (fun _ s => (Ok (selectToken s workspaceId), s)) in
  match row with
  | None => ret None
  | Some row =>
      let stored := ret (Some (ot_access_token row)) in
      match ot_refresh_token row, ot_expires_at row with
      | Some refreshToken, Some expiresAt =>
          if Js.truthy refreshToken && Js.truthy expiresAt && withEnv then
            let* now := dateNow in
            if aboutToExpire now expiresAt then
              let* refreshed :=
                refreshOAuthToken workspaceId refreshToken
                  (LINEAR_CLIENT_ID env) (LINEAR_CLIENT_SECRET env) in
              if Js.truthyOpt refreshed then ret refreshed else stored
            else stored
          else stored
      | _, _ => stored
      end
  end.

(** The loop of [refreshAllTokens] over the rows selected: the two counters. *)
Fixpoint refreshEach (rows : list OAuthToken) (clientId clientSecret : string)
    (refreshed failed : N) : Flow (N * N) :=
  match rows with
  | [] => ret (refreshed, failed)
  | row :: rest =>
      let* result :=
        refreshOAuthToken (ot_workspace_id row)
          (match ot_refresh_token row with Some t => t | None => EmptyString end)
          clientId clientSecret in
      if Js.truthyOpt result
      then refreshEach rest clientId clientSecret (refreshed + 1) failed
      else refreshEach rest clientId clientSecret refreshed (failed + 1)
  end.

Definition refreshAllTokens (clientId clientSecret : string) : Flow (N * N) :=
  let* now := dateNow in
  let threshold := to_iso_string env (now + bufferMs)%Z in
  let* rows := d1 (SelectExpiring threshold)
                 (fun _ s => (Ok (selectExpiring s threshold), s)) in
  refreshEach rows clientId clientSecret 0 0.

End WithEnv.

End OAuth.

(* ================================================================= *)
(** ** Further concrete settings *)

Module Cases.
Import Schema Sql Effects.

Definition createdPayload : LinearAgentSessionWebhook :=
  Scenario.sessionPayload "created" "Please use acme/backend".

Definition createdBody : string := "{session created session-123}".

(** [Scenario.quiet] with the answers that vary below: the token lookup,
    a mutation of the ticketing system, the installation lookup and the
    cancellation; a session event parses as well. *)
Definition world (token : Result (option string))
    (mutation : LinearCall -> Result unit)
    (installation : Result (N * N)) (cancel : Result N) : Env :=
  {| text_encode := text_encode Scenario.quiet;
     hmac_sha256 := hmac_sha256 Scenario.quiet;
     parse_linear_webhook := fun body =>
       if String.eqb body createdBody
       then Some (AgentSessionEvent createdPayload)
       else parse_linear_webhook Scenario.quiet body;
     parse_github_webhook := parse_github_webhook Scenario.quiet;
     json_stringify := json_stringify Scenario.quiet;
     LINEAR_WEBHOOK_SECRET := LINEAR_WEBHOOK_SECRET Scenario.quiet;
     GITHUB_WEBHOOK_SECRET := GITHUB_WEBHOOK_SECRET Scenario.quiet;
     date_now := date_now Scenario.quiet;
     sql_now := sql_now Scenario.quiet;
     d1_fault := d1_fault Scenario.quiet;
     oauth_token := fun _ _ => token;
     linear_mutation := fun _ _ c => mutation c;
     linear_issue_context := linear_issue_context Scenario.quiet;
     github_access_token := github_access_token Scenario.quiet;
     github_repo_installation := fun _ _ _ => installation;
     github_repository := github_repository Scenario.quiet;
     github_branches := github_branches Scenario.quiet;
     github_dispatch := github_dispatch Scenario.quiet;
     github_cancel := fun _ _ _ _ => cancel;
     github_pulls_for_head := github_pulls_for_head Scenario.quiet;
     github_open_pulls := github_open_pulls Scenario.quiet |}.

Definition answering : Env :=
  world (Ok (Some "lin_oauth")) (fun _ => Ok tt) (Ok (200, 12345)) (Ok 202).

(** The workspace never completed the OAuth flow. *)
Definition tokenless : Env :=
  world (Ok None) (fun _ => Ok tt) (Ok (200, 12345)) (Ok 202).

(** The ticketing system refuses every mutation. *)
Definition unreachable : Env :=
  world (Ok (Some "lin_oauth")) (fun _ => Throw (Error "Linear API error: 503"))
    (Ok (200, 12345)) (Ok 202).

(** The App is not installed on the repository asked for. *)
Definition notInstalled : Env :=
  world (Ok (Some "lin_oauth")) (fun _ => Ok tt) (Ok (404, 0)) (Ok 202).

(** The CI platform refuses to cancel. *)
Definition refusing : Env :=
  world (Ok (Some "lin_oauth")) (fun _ => Ok tt) (Ok (200, 12345)) (Ok 500).

(** The webhook secrets are not set. *)
Definition keyless : Env :=
  {| text_encode := text_encode Scenario.quiet;
     hmac_sha256 := hmac_sha256 Scenario.quiet;
     parse_linear_webhook := parse_linear_webhook Scenario.quiet;
     parse_github_webhook := parse_github_webhook Scenario.quiet;
     json_stringify := json_stringify Scenario.quiet;
     LINEAR_WEBHOOK_SECRET := EmptyString;
     GITHUB_WEBHOOK_SECRET := EmptyString;
     date_now := date_now Scenario.quiet;
     sql_now := sql_now Scenario.quiet;
     d1_fault := d1_fault Scenario.quiet;
     oauth_token := oauth_token Scenario.quiet;
     linear_mutation := linear_mutation Scenario.quiet;
     linear_issue_context := linear_issue_context Scenario.quiet;
     github_access_token := github_access_token Scenario.quiet;
     github_repo_installation := github_repo_installation Scenario.quiet;
     github_repository := github_repository Scenario.quiet;
     github_branches := github_branches Scenario.quiet;
     github_dispatch := github_dispatch Scenario.quiet;
     github_cancel := github_cancel Scenario.quiet;
     github_pulls_for_head := github_pulls_for_head Scenario.quiet;
     github_open_pulls := github_open_pulls Scenario.quiet |}.

(** An unassignment with a signature that is not the digest. *)
Definition unsignedRequest : LinearRequest :=
  {| lr_body := Scenario.unassignBody; lr_signature := Some "00" |}.

Definition unsignedDelivery : GitHubRequest :=
  {| gr_body := Scenario.installationBody;
     gr_signature := Some "sha256=00";
     gr_event := Some "installation";
     gr_delivery := Some "delivery-1" |}.

Definition createdRequest : LinearRequest :=
  {| lr_body := createdBody;
     lr_signature := Some (Scenario.linearSignature createdBody) |}.

(** The question asked in session-123 is still open. *)
Definition pending : PendingConfig :=
  {| pc_id := 1; pc_agent_session_id := "session-123";
     pc_linear_workspace_id := "workspace-1"; pc_linear_team_id := "team-1";
     pc_pending_issue_id := "issue-456"; pc_pending_issue_identifier := "ABC-123";
     pc_created_at := "2026-01-01 00:00:00" |}.

Definition installed : GitHubInstallation :=
  {| gi_id := 1; gi_installation_id := 12345; gi_account_login := "acme";
     gi_account_type := "Organization";
     gi_created_at := "2026-01-01 00:00:00";
     gi_updated_at := "2026-01-01 00:00:00" |}.

(** Run 987654 is in progress for ABC-123, on an installed account. *)
Definition dbRunning : DB :=
  setGitHubInstallations
    (Scenario.dbWithRun (Scenario.runWith in_progress "ABC-123"))
    [installed] [("workflow_runs", 1); ("github_installations", 1)].

(** The team is known, its repository is not. *)
Definition dbHalfConfigured : DB :=
  setTeamConfigs emptyDB [Scenario.unconfigured] [("team_configs", 1)].

Definition waiting : PendingWorkflowTrigger :=
  Scenario.triggerOf 1 "session-123" "backend" "2026-01-01 11:00:00" None.

Definition dbWaiting : DB :=
  setPendingWorkflowTriggers emptyDB [waiting] [("pending_workflow_triggers", 1)].

(** A second job of the same repository and branch. *)
Definition laterPayload : GitHubWorkflowRunWebhook :=
  {| wrw_action := "requested"; wrw_id := 987655; wrw_name := "linear-agent";
     wrw_status := "queued"; wrw_conclusion := None;
     wrw_html_url := "https://github.com/acme/backend/actions/runs/987655";
     wrw_head_branch := "main"; wrw_owner_login := "acme";
     wrw_repo_name := "backend"; wrw_installation_id := 12345 |}.

Definition context : IssueContext :=
  {| ic_identifier := "ABC-123"; ic_title := "Add login";
     ic_description := None; ic_comments := []; ic_linkedIssues := [];
     ic_parentIssue := None; ic_attachments := [] |}.

(** *** The OAuth routes *)

Definition granted : OAuth.TokenAnswer :=
  {| OAuth.ta_access_token := "lin_oauth_2"; OAuth.ta_scope := Some "read,write";
     OAuth.ta_refresh_token := Some "refresh-2"; OAuth.ta_expires_in := Some 3600 |}.

Definition acme : OAuth.Organization :=
  {| OAuth.org_id := "workspace-1"; OAuth.org_name := "Acme <Labs>" |}.

(** The clock stands at 1000 ms; a date is a decimal number of
    milliseconds. *)
Definition office : OAuth.Env :=
  {| OAuth.LINEAR_CLIENT_ID := "client-id";
     OAuth.LINEAR_CLIENT_SECRET := "client-secret";
     OAuth.random_uuid := fun _ => "state-1";
     OAuth.url_search_params := fun _ => "state=state-1";
     OAuth.sql_now := fun _ => "2026-01-01 00:00:00";
     OAuth.sql_ten_minutes_ago := fun _ => "2025-12-31 23:50:00";
     OAuth.date_now := fun _ => 1000%Z;
     OAuth.date_parse := fun s =>
       if String.eqb s "soon" then Some 2000%Z else None;
     OAuth.to_iso_string := fun _ => "soon";
     OAuth.d1_fault := fun _ _ => None;
     OAuth.token_endpoint := fun _ _ => Ok (200, granted);
     OAuth.organization_query := fun _ _ => Ok (Some acme) |}.

Definition oneState : OAuth.Store :=
  {| OAuth.oauth_states :=
       [{| OAuth.os_state := "state-1";
           OAuth.os_created_at := "2026-01-01 00:00:00" |}];
     OAuth.oauth_tokens := [] |}.

Definition returning : OAuth.CallbackQuery :=
  {| OAuth.q_code := Some "code-1"; OAuth.q_state := Some "state-1";
     OAuth.q_error := None |}.

(** A callback whose state was never issued. *)
Definition forged : OAuth.CallbackQuery :=
  {| OAuth.q_code := Some "code-1"; OAuth.q_state := Some "state-9";
     OAuth.q_error := None |}.

Definition expiringToken : OAuth.OAuthToken :=
  {| OAuth.ot_workspace_id := "workspace-1"; OAuth.ot_access_token := "lin_oauth";
     OAuth.ot_scope := Some "read,write"; OAuth.ot_refresh_token := Some "refresh-1";
     OAuth.ot_expires_at := Some "soon";
     OAuth.ot_updated_at := "2026-01-01 00:00:00" |}.

Definition oneToken : OAuth.Store :=
  {| OAuth.oauth_states := []; OAuth.oauth_tokens := [expiringToken] |}.

End Cases.

(* ================================================================= *)
(** ** Relations between the store before and after *)

Module Frames.
Import Schema Sql Effects.

(** A relation between the store before and the store after that a
    computation keeps, whatever it is started on and however it ends. *)
Definition preserves (R : DB -> DB -> Prop) {A : Type} (m : M A) : Prop :=
  forall past db, R db (store (m past db)).

(** The part [f] of the store is left as it was. *)
Definition keeps {T : Type} (f : DB -> T) : DB -> DB -> Prop :=
  fun db db' => f db' = f db.

(** The list [f] of the store only grows at its end. *)
Definition extends {T : Type} (f : DB -> list T) : DB -> DB -> Prop :=
  fun db db' => exists added, f db' = (f db ++ added)%list.

Definition both (R1 R2 : DB -> DB -> Prop) : DB -> DB -> Prop :=
  fun db db' => R1 db db' /\ R2 db db'.

(** The columns of a WorkflowRun that bind it to its run, session and issue. *)
Definition runBinding (r : WorkflowRun) :=
  (wr_id r, wr_github_run_id r, wr_github_owner r, wr_github_repo r,
   wr_agent_session_id r, wr_linear_issue_id r, wr_linear_issue_identifier r,
   wr_branch_name r, wr_created_at r).

Definition runBindings (db : DB) := map runBinding (workflow_runs db).

Definition triggerIds (db : DB) : list N := map pt_id (pending_workflow_triggers db).

End Frames.

(* ================================================================= *)
(** ** More vocabulary *)

Module TextStatements.

(** One character as [escapeHtml] leaves it. *)
Definition escapeChar (c : ascii) : string :=
  if Ascii.eqb c "&" then "&amp;"
  else if Ascii.eqb c "<" then "&lt;"
  else if Ascii.eqb c ">" then "&gt;"
  else if Ascii.eqb c "034" then "&quot;"
  else if Ascii.eqb c "'" then "&#039;"
  else String c EmptyString.

Fixpoint escapeEach (s : string) : string :=
  match s with
  | EmptyString => EmptyString
  | String c s' => escapeChar c ++ escapeEach s'
  end.

(** The characters that open or close markup or an attribute value. *)
Definition markupChar (c : ascii) : bool :=
  Ascii.eqb c "<" || Ascii.eqb c ">" || Ascii.eqb c "034" || Ascii.eqb c "'".

Definition allChars (p : ascii -> bool) (s : string) : bool :=
  forallb p (list_ascii_of_string s).

Fixpoint lastChar (s : string) : option ascii :=
  match s with
  | EmptyString => None
  | String c EmptyString => Some c
  | String _ s' => lastChar s'
  end.

(** The text begins outside the class of repository names, or is empty. *)
Definition classStops (s : string) : bool :=
  match s with
  | EmptyString => true
  | String c _ => negb (Handlers.repoChar c)
  end.

(** The text ends outside the class of repository names, or is empty. *)
Definition endsOutside (s : string) : bool :=
  match lastChar s with
  | None => true
  | Some c => negb (Handlers.repoChar c)
  end.

End TextStatements.

Module SessionStatements.
Import Schema Sql Effects Services Handlers.

(** The answer of [getOAuthToken] is [null] or the empty string. *)
Definition noToken (answer : Result (option string)) : bool :=
  match answer with
  | Ok token => negb (Js.truthyOpt token)
  | Throw _ => false
  end.

(** [!config || !config.github_owner || !config.github_repo]. *)
Definition lacksRepository (config : option TeamConfig) : bool :=
  match config with
  | None => true
  | Some c => negb (Js.truthyOpt (tc_github_owner c))
              || negb (Js.truthyOpt (tc_github_repo c))
  end.

Definition sessionCreatedEvent (payload : LinearAgentSessionWebhook) : LogEvent :=
  {| le_workflowRunId := None;
     le_agentSessionId := Some (as_sessionId payload);
     le_eventType := "session_created";
     le_message := Some ("Agent assigned to " ++ as_issueIdentifier payload);
     le_metadata := Some (Js.JObject
       [("issueId", Js.JString (as_issueId payload));
        ("issueIdentifier", Js.JString (as_issueIdentifier payload));
        ("issueTitle", Js.JString (as_issueTitle payload));
        ("teamId", Js.JString (as_teamId payload));
        ("workspaceId", Js.JString (as_organizationId payload))]) |}.

Definition pendingConfigOf (payload : LinearAgentSessionWebhook) : NewPendingConfig :=
  {| npc_agentSessionId := as_sessionId payload;
     npc_linearWorkspaceId := as_organizationId payload;
     npc_linearTeamId := as_teamId payload;
     npc_pendingIssueId := as_issueId payload;
     npc_pendingIssueIdentifier := as_issueIdentifier payload |}.

Definition acknowledgment (payload : LinearAgentSessionWebhook) : LinearCall :=
  CreateAgentActivity (as_sessionId payload) (Thought "Looking at this issue...").

Definition acknowledgmentFailed (payload : LinearAgentSessionWebhook) (error : Exn)
  : LogEvent :=
  {| le_workflowRunId := None;
     le_agentSessionId := Some (as_sessionId payload);
     le_eventType := "error";
     le_message := Some ("Failed to send thought: " ++ errorToString error);
     le_metadata := None |}.

End SessionStatements.

Module TriggerStatements.
Import Schema Sql Effects Services Handlers.

Definition triggerLogged (agentSessionId issueIdentifier branchName owner repo : string)
  : LogEvent :=
  {| le_workflowRunId := None;
     le_agentSessionId := Some agentSessionId;
     le_eventType := "workflow_trigger";
     le_message := Some ("Triggering implementation workflow for " ++ issueIdentifier);
     le_metadata := Some (Js.JObject
                            [("branchName", Js.JString branchName);
                             ("owner", Js.JString owner);
                             ("repo", Js.JString repo)]) |}.

(** The trigger [triggerImplementation] records: on the branch the job is
    dispatched on, not on the feature branch. *)
Definition triggerOfDispatch (agentSessionId issueId issueIdentifier : string)
    (config : TeamConfig) (owner repo : string) : NewTrigger :=
  {| nt_agentSessionId := agentSessionId;
     nt_linearWorkspaceId := Some (tc_linear_workspace_id config);
     nt_linearIssueId := issueId;
     nt_linearIssueIdentifier := Some issueIdentifier;
     nt_workflowType := implement;
     nt_githubOwner := owner;
     nt_githubRepo := repo;
     nt_branchName := tc_github_branch config |}.

Definition dispatchInputs (env : Env) (agentSessionId issueIdentifier branchName : string)
    (issueContext : IssueContext) : list (string * string) :=
  [("agent_session_id", agentSessionId);
   ("ticket_id", issueIdentifier);
   ("ticket_title", ic_title issueContext);
   ("ticket_description", Js.orString (ic_description issueContext) EmptyString);
   ("ticket_context", json_stringify env (formatIssueContext issueContext));
   ("branch_name", branchName)].

Definition dispatchCall (env : Env) (agentSessionId issueIdentifier branchName : string)
    (issueContext : IssueContext) (config : TeamConfig) (owner repo : string)
  : GitHubCall :=
  PostDispatch owner repo "linear-agent.yml" (tc_github_branch config)
    (dispatchInputs env agentSessionId issueIdentifier branchName issueContext).

End TriggerStatements.

Module CancelStatements.
Import Schema Sql Effects Services Handlers.

Definition cancelled : RunUpdates :=
  {| u_status := Some completed; u_conclusion := Some (Some "cancelled");
     u_prNumber := None; u_prUrl := None |}.

Definition cancelledEvent (run : WorkflowRun) : LogEvent :=
  {| le_workflowRunId := None;
     le_agentSessionId := Some (wr_agent_session_id run);
     le_eventType := "workflow_cancelled";
     le_message := Some "Workflow cancelled by user unassign";
     le_metadata := None |}.

(** The calls of [handleInboxNotification] up to the cancellation request. *)
Definition cancellationRequest (payload : LinearUnassignWebhook) (run : WorkflowRun)
    (installation : GitHubInstallation) (workspaceId : string) : History :=
  [EvDb (QLogEvent (Statements.unassignedEvent payload));
   EvDb (QGetActiveWorkflowRunByIssue (un_issueId payload));
   EvDb (QGetGitHubInstallationByAccount (wr_github_owner run));
   EvOAuth workspaceId;
   EvGitHub (PostAccessTokens (gi_installation_id installation));
   EvGitHub (PostCancel (wr_github_owner run) (wr_github_repo run)
               (wr_github_run_id run))].

End CancelStatements.

Module OAuthStatements.
Import Sql OAuth.

(** The callback carries no error, a code and a state. *)
Definition wellFormed (query : CallbackQuery) : bool :=
  negb (Js.truthyOpt (q_error query))
  && Js.truthyOpt (q_code query) && Js.truthyOpt (q_state query).

Definition stateOf (query : CallbackQuery) : string :=
  match q_state query with Some state => state | None => EmptyString end.

(** The calls that reach the ticketing system or write a token. *)
Definition leavesWorker (c : Call) : bool :=
  match c with
  | PostToken _ | QueryOrganization _ | UpsertToken _ _ _ | UpdateToken _ _ _ _ => true
  | _ => false
  end.

Definition isRefusal (r : Result Response) : bool :=
  match r with
  | Ok (Html status _) => status =? 400
  | _ => false
  end.

(** The test of [getOAuthToken] for a refresh: both columns set, the third
    argument given, and the expiry within five minutes of [now]. *)
Definition refreshDue (env : Env) (row : OAuthToken) (withEnv : bool) (now : Z)
  : bool :=
  match ot_refresh_token row, ot_expires_at row with
  | Some refreshToken, Some expiresAt =>
      Js.truthy refreshToken && Js.truthy expiresAt && withEnv
      && aboutToExpire env now expiresAt
  | _, _ => false
  end.

End OAuthStatements.

(* ================================================================= *)
(** * Properties *)

(** Running a request symbolically: unfold the calls of the monad, of
    src/db/queries.ts and of the services, rewrite with what is known of the
    collaborators' answers, and reduce. The statements on the tables
    ([Sql]) stay folded. *)
Module Run.
Import Sql Effects Services.

(** An event that names no workflow run has no foreign key to respect. *)
Ltac settle_links :=
  repeat match goal with
    | |- context [Sql.linkedRun ?event] =>
        let link := eval cbv in (Sql.linkedRun event) in
        match link with
        | None => change (Sql.linkedRun event) with (@None N)
        end
    end;
  cbv beta iota.

Ltac unfold_request :=
  cbv beta iota zeta delta
    [bind call ret throw d1 tryCatch dateNow
     Queries.getWorkflowRun Queries.getActiveWorkflowRunByIssue
     Queries.createWorkflowRun Queries.updateWorkflowRun
     Queries.isWebhookProcessed Queries.markWebhookProcessed
     Queries.createPendingWorkflowTrigger Queries.matchPendingWorkflowTrigger
     Queries.markPendingWorkflowMatched Queries.deletePendingConfig
     Queries.getGitHubInstallationByAccount Queries.createGitHubInstallation
     Queries.deleteGitHubInstallation Queries.upsertGitHubInstallation
     Queries.getTeamConfigByWorkspace Queries.createTeamConfig
     Queries.createPendingConfig Queries.getPendingConfig Queries.logEvent
     getOAuthToken createAgentActivity sendThought sendAction sendElicitation
     sendResponse sendError getIssueContext createAttachment
     getInstallationToken getRepoInstallation getDefaultBranch
     listBranches triggerWorkflow cancelWorkflowRun
     listPullRequestsForBranch searchPullRequestsByTitle
     noUpdates u_status u_conclusion u_prNumber u_prUrl
     result store emitted fst snd negb].

Ltac reduce_request := unfold_request; settle_links.

Ltac rewrite_answers :=
  repeat match goal with
    | H : forall h q, d1_fault _ h q = None |- _ => rewrite !H
    | H : d1_fault _ _ _ = _ |- _ => rewrite !H
    | H : forall h t c, linear_mutation _ h t c = Ok tt |- _ => rewrite !H
    | H : forall h, _ = Ok _ |- _ => rewrite !H
    | H : responseOk _ = true |- _ => rewrite !H
    | H : filter _ _ = _ |- _ => rewrite !H
    | H : _ = Some _ |- _ => rewrite !H
    | H : _ = None |- _ => rewrite !H
    | H : _ = true |- _ => rewrite !H
    | H : _ = false |- _ => rewrite !H
    end.

Ltac run_request := repeat (progress (reduce_request; rewrite_answers)).

End Run.


Module JsFacts.
Import Js.

Lemma numberToString_inj (n m : N) :
  numberToString n = numberToString m -> n = m.
Proof.
  unfold numberToString. intros H.
  apply Unsigned.to_uint_inj.
  assert (E : Some (N.to_uint n) = Some (N.to_uint m)).
  { rewrite <- !NilEmpty.usu. now rewrite H. }
  now inversion E.
Qed.

Lemma append_length (a b : string) :
  String.length (a ++ b) = (String.length a + String.length b)%nat.
Proof. induction a as [|c a IH]; simpl; [reflexivity | now rewrite IH]. Qed.

Lemma append_assoc (a b c : string) : (a ++ b) ++ c = a ++ (b ++ c).
Proof. induction a as [|x a IH]; simpl; [reflexivity | now rewrite IH]. Qed.

Lemma append_inj_l (p a b : string) : p ++ a = p ++ b -> a = b.
Proof.
  induction p as [|c p IH]; simpl; intros H; [assumption|].
  inversion H. auto.
Qed.

Lemma prefix_append (p s : string) : String.prefix p (p ++ s) = true.
Proof.
  induction p as [|c p IH]; simpl.
  - now destruct s.
  - destruct (ascii_dec c c) as [_|n]; [assumption | now elim n].
Qed.

Lemma prefix_split (p s : string) :
  String.prefix p s = true -> s = p ++ slice (String.length p) s.
Proof.
  revert s. induction p as [|c p IH]; intros s H.
  - reflexivity.
  - destruct s as [|d s]; simpl in H; [discriminate|].
    destruct (ascii_dec c d) as [->|]; [|discriminate].
    simpl. f_equal. now apply IH.
Qed.

Lemma slice_append (p s : string) : slice (String.length p) (p ++ s) = s.
Proof. induction p as [|c p IH]; simpl; auto. Qed.

End JsFacts.

(* ================================================================= *)
(** ** Signature verification *)

Module CryptoFacts.
Import Crypto Statements.

Lemma xorAccumulate_zero (a b : string) (acc : N) :
  String.length a = String.length b ->
  (xorAccumulate acc a b = 0 <-> acc = 0 /\ a = b).
Proof.
  revert b acc. induction a as [|x a IH]; intros [|y b] acc Hlen;
    simpl in *; try discriminate.
  - intuition.
  - injection Hlen as Hlen. rewrite (IH b _ Hlen), N.lor_eq_0_iff, N.lxor_eq_0_iff.
    split.
    + intros [[-> E] ->]. split; [reflexivity|].
      f_equal. rewrite <- (ascii_N_embedding x), <- (ascii_N_embedding y).
      now rewrite E.
    + intros [-> E]. injection E as -> ->. auto.
Qed.

Lemma timingSafeEqual_iff (a b : string) : timingSafeEqual a b = true <-> a = b.
Proof.
  unfold timingSafeEqual.
  destruct (Nat.eqb (String.length a) (String.length b)) eqn:E; simpl.
  - apply Nat.eqb_eq in E. rewrite N.eqb_eq, (xorAccumulate_zero a b 0 E).
    intuition.
  - apply Nat.eqb_neq in E. split; [discriminate|].
    intros ->. now elim E.
Qed.

Lemma hexByte_two (b : Byte.byte) :
  exists c d, padStart2 (toString16 (Byte.to_N b)) = String c (String d EmptyString)
              /\ Byte.of_N (16 * unhexDigit c + unhexDigit d) = Some b.
Proof. destruct b; do 2 eexists; (split; [reflexivity | reflexivity]). Qed.

Lemma arrayBufferToHex_cons (b : Byte.byte) (l : list Byte.byte) :
  arrayBufferToHex (b :: l) = padStart2 (toString16 (Byte.to_N b)) ++ arrayBufferToHex l.
Proof.
  unfold arrayBufferToHex. simpl.
  destruct (map _ l) as [|s rest] eqn:E; simpl.
  - destruct (hexByte_two b) as (c & d & -> & _). reflexivity.
  - reflexivity.
Qed.

Lemma arrayBufferToHex_inj (l1 l2 : list Byte.byte) :
  arrayBufferToHex l1 = arrayBufferToHex l2 -> l1 = l2.
Proof.
  revert l2. induction l1 as [|b1 l1 IH]; intros [|b2 l2] H.
  - reflexivity.
  - rewrite arrayBufferToHex_cons in H.
    destruct (hexByte_two b2) as (c & d & E & _). rewrite E in H. discriminate.
  - rewrite arrayBufferToHex_cons in H.
    destruct (hexByte_two b1) as (c & d & E & _). rewrite E in H. discriminate.
  - rewrite !arrayBufferToHex_cons in H.
    destruct (hexByte_two b1) as (c1 & d1 & E1 & D1).
    destruct (hexByte_two b2) as (c2 & d2 & E2 & D2).
    rewrite E1, E2 in H. simpl in H. injection H as -> -> H.
    rewrite D1 in D2. injection D2 as ->. f_equal. now apply IH.
Qed.

Lemma hexByte_lowercase (b : Byte.byte) :
  forallb lowerHexChar (list_ascii_of_string (padStart2 (toString16 (Byte.to_N b))))
  = true.
Proof. destruct b; reflexivity. Qed.

Lemma list_ascii_of_string_app (s t : string) :
  list_ascii_of_string (s ++ t)
  = (list_ascii_of_string s ++ list_ascii_of_string t)%list.
Proof. induction s as [|c s IH]; simpl; [reflexivity | now rewrite IH]. Qed.

(** The digest is printed with two digits of [[0-9a-f]] for each byte. *)
Lemma arrayBufferToHex_lowercase (l : list Byte.byte) :
  forallb lowerHexChar (list_ascii_of_string (arrayBufferToHex l)) = true /\
  String.length (arrayBufferToHex l) = (2 * List.length l)%nat.
Proof.
  induction l as [|b l [IH IHlen]]; [split; reflexivity|].
  rewrite arrayBufferToHex_cons. split.
  - rewrite list_ascii_of_string_app, forallb_app, hexByte_lowercase. exact IH.
  - destruct (hexByte_two b) as (c & d & -> & _). simpl. rewrite IHlen. lia.
Qed.

(** The printing of the code is the lowercase hexadecimal numeral. *)
Lemma hexByte_digits (b : Byte.byte) :
  padStart2 (toString16 (Byte.to_N b))
  = String (digit (Byte.to_N b / 16))
      (String (digit (Byte.to_N b mod 16)) EmptyString).
Proof. destruct b; reflexivity. Qed.

Lemma arrayBufferToHex_lowercaseHex (l : list Byte.byte) :
  arrayBufferToHex l = lowercaseHex l.
Proof.
  induction l as [|b l IH]; [reflexivity|].
  rewrite arrayBufferToHex_cons, hexByte_digits, IH. reflexivity.
Qed.

Lemma lowercaseHex_inj (l1 l2 : list Byte.byte) :
  lowercaseHex l1 = lowercaseHex l2 -> l1 = l2.
Proof.
  rewrite <- !arrayBufferToHex_lowercaseHex. apply arrayBufferToHex_inj.
Qed.

Lemma timingSafeEqual_eqb (a b : string) : timingSafeEqual a b = String.eqb a b.
Proof.
  destruct (String.eqb a b) eqn:E.
  - apply timingSafeEqual_iff. now apply String.eqb_eq.
  - destruct (timingSafeEqual a b) eqn:T; [|reflexivity].
    apply timingSafeEqual_iff in T. apply String.eqb_neq in E. contradiction.
Qed.

Lemma eqb_prefixed (p a b : string) :
  String.eqb (p ++ a) (p ++ b) = String.eqb a b.
Proof.
  induction p as [|c p IH]; [reflexivity|].
  cbn. now rewrite Ascii.eqb_refl.
Qed.

Section VerifyFacts.

Variable encode : string -> list Byte.byte.
Variable hmac_sha256 : list Byte.byte -> list Byte.byte -> list Byte.byte.

(** With key data of length zero the key is not imported: the
    ticketing-system variant throws on every signature, the CI variant on
    every signature that begins with [sha256=]. *)
Lemma empty_key_rejected (body signature secret : string) :
  encode secret = [] ->
  verifyLinearSignature encode hmac_sha256 body signature secret = None /\
  verifyGitHubSignature encode hmac_sha256 body signature secret
  = if String.prefix "sha256=" signature then None else Some false.
Proof.
  intros E. unfold verifyLinearSignature, verifyGitHubSignature, expectedSignature.
  rewrite E. cbn. now destruct (String.prefix "sha256=" signature).
Qed.

Lemma expectedSignature_digest (body secret : string) :
  encode secret <> [] ->
  expectedSignature encode hmac_sha256 body secret
  = Some (lowercaseHex (hmac_sha256 (encode secret) (encode body))).
Proof.
  intros K. unfold expectedSignature, importKey.
  destruct (encode secret) as [|k key]; [contradiction|].
  now rewrite arrayBufferToHex_lowercaseHex.
Qed.

(** C6 (as amended). For every body, every signature and every secret
    whose encoding is not empty, both variants return a boolean: the
    ticketing-system variant [true] exactly when the signature is the
    lowercase hexadecimal digest of HMAC-SHA256(secret, body), the CI
    variant [true] exactly when it is that digest behind the literal
    [sha256=]. So a signature of another length or another content yields
    [false], and a body changed after signing verifies only if its HMAC is
    the signed one. *)
Theorem verify_signature_exact (body signature secret : string) :
  encode secret <> [] ->
  let hmac := hmac_sha256 (encode secret) in
  let digest := lowercaseHex (hmac (encode body)) in
  verifyLinearSignature encode hmac_sha256 body signature secret
  = Some (String.eqb signature digest) /\
  verifyGitHubSignature encode hmac_sha256 body signature secret
  = Some (String.eqb signature ("sha256=" ++ digest)) /\
  String.length digest = (2 * List.length (hmac (encode body)))%nat /\
  forallb lowerHexChar (list_ascii_of_string digest) = true /\
  (String.length signature <> String.length digest ->
     verifyLinearSignature encode hmac_sha256 body signature secret = Some false) /\
  (String.length signature <> (7 + String.length digest)%nat ->
     verifyGitHubSignature encode hmac_sha256 body signature secret = Some false) /\
  (forall tampered,
     verifyLinearSignature encode hmac_sha256 tampered digest secret
     = Some (if list_eq_dec Byte.byte_eq_dec (hmac (encode tampered))
                  (hmac (encode body)) then true else false) /\
     verifyGitHubSignature encode hmac_sha256 tampered ("sha256=" ++ digest) secret
     = Some (if list_eq_dec Byte.byte_eq_dec (hmac (encode tampered))
                  (hmac (encode body)) then true else false)).
Proof.
  intros K hmac digest.
  assert (L : forall b s,
             verifyLinearSignature encode hmac_sha256 b s secret
             = Some (String.eqb s (lowercaseHex (hmac (encode b))))).
  { intros b s. unfold verifyLinearSignature.
    now rewrite (expectedSignature_digest b secret K), timingSafeEqual_eqb. }
  assert (G : forall b s,
             verifyGitHubSignature encode hmac_sha256 b s secret
             = Some (String.eqb s ("sha256=" ++ lowercaseHex (hmac (encode b))))).
  { intros b s. unfold verifyGitHubSignature.
    rewrite (expectedSignature_digest b secret K), timingSafeEqual_eqb.
    destruct (String.prefix "sha256=" s) eqn:P; cbn [negb].
    - apply JsFacts.prefix_split in P.
      change (String.length "sha256=") with 7%nat in P.
      rewrite P at 2. now rewrite eqb_prefixed.
    - f_equal. symmetry. apply String.eqb_neq. intros ->.
      now rewrite (JsFacts.prefix_append "sha256=") in P. }
  assert (T : forall tampered,
             String.eqb digest (lowercaseHex (hmac (encode tampered)))
             = if list_eq_dec Byte.byte_eq_dec (hmac (encode tampered))
                    (hmac (encode body)) then true else false).
  { intros tampered. subst digest.
    destruct (list_eq_dec _ _ _) as [E|E].
    - rewrite E. apply String.eqb_refl.
    - apply String.eqb_neq. intros C. apply lowercaseHex_inj in C. congruence. }
  split; [apply L|]. split; [apply G|].
  pose proof (arrayBufferToHex_lowercase (hmac (encode body))) as [Hchars Hlen].
  rewrite arrayBufferToHex_lowercaseHex in Hchars, Hlen.
  split; [exact Hlen|]. split; [exact Hchars|].
  split; [|split].
  - intros Hne. rewrite L. f_equal. apply String.eqb_neq. intros ->. now elim Hne.
  - intros Hne. rewrite G. f_equal. apply String.eqb_neq. intros ->.
    apply Hne. now rewrite JsFacts.append_length.
  - intros tampered. rewrite L, G, eqb_prefixed, T. split; reflexivity.
Qed.

End VerifyFacts.

Lemma verify_signature_exact_witness :
  let encode := list_byte_of_string in
  let hmac := fun key message : list Byte.byte => (key ++ message)%list in
  verifyLinearSignature encode hmac "hi" "6b6869" "k" = Some true /\
  verifyLinearSignature encode hmac "hi" "6B6869" "k" = Some false /\
  verifyGitHubSignature encode hmac "hi" "sha256=6b6869" "k" = Some true /\
  verifyGitHubSignature encode hmac "hi" "6b6869" "k" = Some false /\
  verifyLinearSignature encode hmac "ho" "6b6869" "k" = Some false.
Proof.
  cbv zeta.
  pose proof (fun body signature =>
                verify_signature_exact list_byte_of_string
                  (fun key message : list Byte.byte => (key ++ message)%list)
                  body signature "k" ltac:(discriminate)) as H.
  cbv zeta in H.
  destruct (H "hi" "6b6869") as (L1 & _ & _ & _ & _ & _ & T).
  destruct (H "hi" "6B6869") as (L2 & _).
  destruct (H "hi" "sha256=6b6869") as (_ & G1 & _).
  destruct (H "hi" "6b6869") as (_ & G2 & _).
  destruct (T "ho") as (L3 & _).
  split; [exact L1|]. split; [exact L2|]. split; [exact G1|].
  split; [exact G2 | exact L3].
Defined.

(** C6, the claim as stated fails at the empty secret: the digest of
    HMAC-SHA256 under the empty key does not verify, and neither it nor a
    bad signature yields [false]: the functions throw. Only the CI variant
    still answers [false], and only to a signature without the prefix. *)
Lemma empty_secret_throws :
  let encode := list_byte_of_string in
  let hmac := fun key message : list Byte.byte => (key ++ message)%list in
  let digest := lowercaseHex (hmac (encode EmptyString) (encode "hi")) in
  digest = "6869" /\
  verifyLinearSignature encode hmac "hi" digest EmptyString = None /\
  verifyLinearSignature encode hmac "hi" "00" EmptyString = None /\
  verifyGitHubSignature encode hmac "hi" ("sha256=" ++ digest) EmptyString = None /\
  verifyGitHubSignature encode hmac "hi" "sha256=00" EmptyString = None /\
  verifyGitHubSignature encode hmac "hi" "00" EmptyString = Some false.
Proof. cbv zeta. repeat split; reflexivity. Qed.

(** The printing of bytes, and the two variants on a stand-in for the HMAC
    (key followed by message). *)
Example verify_examples :
  let encode := list_byte_of_string in
  let hmac := fun key message : list Byte.byte => (key ++ message)%list in
  arrayBufferToHex [Byte.x0a; Byte.xff; Byte.x00] = "0aff00" /\
  expectedSignature encode hmac "hi" "k" = Some "6b6869" /\
  verifyLinearSignature encode hmac "hi" "6b68" "k" = Some false /\
  verifyLinearSignature encode hmac "hi" EmptyString "k" = Some false /\
  verifyGitHubSignature encode hmac "hi" "sha256=6b6868" "k" = Some false.
Proof. repeat split; vm_compute; reflexivity. Qed.

End CryptoFacts.

(* ================================================================= *)
(** ** Branch names *)

Module BranchFacts.
Import Branch Statements.

Lemma lowerChar_allowed (c : ascii) :
  allowedChar c = true -> Js.lowerChar c = c.
Proof.
  destruct c as [[|] [|] [|] [|] [|] [|] [|] [|]]; vm_compute; intros H;
    (reflexivity || discriminate H).
Qed.

Lemma sanitize_allowed (s : string) :
  forallb allowedChar (list_ascii_of_string (sanitize s)) = true.
Proof.
  induction s as [|c s IH]; simpl; [reflexivity|].
  rewrite IH, andb_true_r. destruct (allowedChar c) eqn:E; [assumption | reflexivity].
Qed.

Lemma sanitize_lower (s : string) : Js.toLowerCase (sanitize s) = sanitize s.
Proof.
  induction s as [|c s IH]; simpl; [reflexivity|]. rewrite IH. f_equal.
  destruct (allowedChar c) eqn:E; [now apply lowerChar_allowed | reflexivity].
Qed.

Lemma sanitize_truthy (s : string) :
  Js.truthy (sanitize (Js.toLowerCase s)) = Js.truthy s.
Proof. now destruct s. Qed.

Lemma generateBranchName_pattern (identifier : string) :
  matchesBranchPattern (generateBranchName identifier) = Js.truthy identifier.
Proof.
  unfold matchesBranchPattern, generateBranchName.
  rewrite (JsFacts.prefix_append "agent/").
  change 6%nat with (String.length "agent/").
  rewrite JsFacts.slice_append. cbv zeta.
  now rewrite sanitize_allowed, sanitize_truthy, andb_true_r.
Qed.

Lemma generateBranchName_lower (identifier : string) :
  Js.toLowerCase (generateBranchName identifier) = generateBranchName identifier.
Proof.
  unfold generateBranchName.
  change (Js.toLowerCase ("agent/" ++ ?s)) with ("agent/" ++ Js.toLowerCase s).
  now rewrite sanitize_lower.
Qed.

Lemma arrayIncludes_In (l : list string) (x : string) :
  arrayIncludes l x = true <-> In x l.
Proof.
  unfold arrayIncludes. rewrite existsb_exists. split.
  - intros (y & Hy & E). apply String.eqb_eq in E. now subst.
  - intros H. exists x. split; [assumption | apply String.eqb_refl].
Qed.

Lemma suffixed_inj (baseName : string) (j k : N) :
  suffixed baseName j = suffixed baseName k -> j = k.
Proof.
  unfold suffixed. intros H.
  apply JsFacts.append_inj_l in H. apply (JsFacts.append_inj_l "-") in H.
  now apply JsFacts.numberToString_inj.
Qed.

Lemma suffixed_not_base (baseName : string) (k : N) : suffixed baseName k <> baseName.
Proof.
  unfold suffixed. intros H. apply (f_equal String.length) in H.
  rewrite JsFacts.append_length in H. simpl in H. lia.
Qed.

(** What the loop returns: the least suffix from [suffix] on whose candidate
    is free. *)
Lemma probeSuffix_some (fuel : nat) (l : list string) (baseName : string) :
  forall suffix k, probeSuffix fuel l baseName suffix = Some k ->
    suffix <= k /\ ~ In (suffixed baseName k) l /\
    forall j, suffix <= j < k -> In (suffixed baseName j) l.
Proof.
  induction fuel as [|fuel IH]; intros suffix k H; simpl in H; [discriminate|].
  destruct (arrayIncludes l (suffixed baseName suffix)) eqn:E.
  - apply IH in H as (H1 & H2 & H3). repeat split; [lia | assumption |].
    intros j Hj. destruct (N.eq_dec j suffix) as [->|].
    + now apply arrayIncludes_In.
    + apply H3. lia.
  - injection H as <-. repeat split; [lia | | intros; lia].
    intros HIn. apply arrayIncludes_In in HIn. congruence.
Qed.

Lemma probed_length fuel baseName suffix :
  List.length (probed fuel baseName suffix) = fuel.
Proof. revert suffix. induction fuel; simpl; auto. Qed.

Lemma probed_In fuel baseName : forall suffix x,
  In x (probed fuel baseName suffix) -> exists j, suffix <= j /\ x = suffixed baseName j.
Proof.
  induction fuel as [|fuel IH]; simpl; intros suffix x H; [contradiction|].
  destruct H as [<-|H].
  - exists suffix. split; [lia | reflexivity].
  - apply IH in H as (j & Hj & ->). exists j. split; [lia | reflexivity].
Qed.

Lemma probed_NoDup fuel baseName : forall suffix, NoDup (probed fuel baseName suffix).
Proof.
  induction fuel as [|fuel IH]; simpl; intros suffix; constructor; [|apply IH].
  intros H. apply probed_In in H as (j & Hj & E). apply suffixed_inj in E. lia.
Qed.

Lemma probeSuffix_none (fuel : nat) (l : list string) (baseName : string) :
  forall suffix, probeSuffix fuel l baseName suffix = None ->
    incl (probed fuel baseName suffix) l.
Proof.
  induction fuel as [|fuel IH]; intros suffix H; simpl in *.
  - intros x [].
  - destruct (arrayIncludes l (suffixed baseName suffix)) eqn:E; [|discriminate].
    intros x [<-|Hx]; [now apply arrayIncludes_In | now apply (IH _ H)].
Qed.

(** The loop ends within one test more than there are branches. *)
Lemma probeSuffix_ends (l : list string) (baseName : string) (suffix : N) :
  exists k, probeSuffix (S (List.length l)) l baseName suffix = Some k.
Proof.
  destruct (probeSuffix (S (List.length l)) l baseName suffix) as [k|] eqn:E;
    [now exists k|].
  apply probeSuffix_none in E.
  apply NoDup_incl_length in E; [|apply probed_NoDup].
  rewrite probed_length in E. lia.
Qed.

(** C7 (as amended). For every non-empty identifier the base name matches
    [^agent/[a-z0-9-]+$]; for every identifier it is lowercase; and for every
    identifier and list of existing names, [findAvailableBranchName] returns
    a name that is not in the list: the base name when that is free, and
    otherwise the base name with the least suffix from 2 upward, all smaller
    suffixes being taken. *)
Theorem branch_names (identifier : string) (existingBranches : list string) :
  (identifier <> EmptyString ->
     matchesBranchPattern (generateBranchName identifier) = true) /\
  Js.toLowerCase (generateBranchName identifier) = generateBranchName identifier /\
  exists name,
    findAvailableBranchName identifier existingBranches = Some name /\
    ~ In name existingBranches /\
    (~ In (generateBranchName identifier) existingBranches ->
       name = generateBranchName identifier) /\
    (In (generateBranchName identifier) existingBranches ->
       exists k, 2 <= k /\ name = suffixed (generateBranchName identifier) k /\
         forall j, 2 <= j < k ->
           In (suffixed (generateBranchName identifier) j) existingBranches).
Proof.
  split; [|split].
  - intros H. rewrite generateBranchName_pattern. now destruct identifier.
  - apply generateBranchName_lower.
  - unfold findAvailableBranchName. cbv zeta.
    destruct (arrayIncludes existingBranches (generateBranchName identifier)) eqn:E;
      cbn [negb].
    + apply arrayIncludes_In in E.
      destruct (probeSuffix_ends existingBranches (generateBranchName identifier) 2)
        as [k Hk].
      rewrite Hk. apply probeSuffix_some in Hk as (H1 & H2 & H3).
      exists (suffixed (generateBranchName identifier) k).
      repeat split; [assumption | intros N; now elim N |].
      intros _. exists k. auto.
    + exists (generateBranchName identifier).
      assert (N : ~ In (generateBranchName identifier) existingBranches).
      { intros H. apply arrayIncludes_In in H. congruence. }
      repeat split; [assumption | intros H; now elim N].
Qed.

(** C7, the claim as stated fails: the empty identifier gives [agent/],
    which the pattern [^agent/[a-z0-9-]+$] rejects. *)
Lemma branch_pattern_fails_on_empty :
  generateBranchName EmptyString = "agent/" /\
  matchesBranchPattern (generateBranchName EmptyString) = false.
Proof. split; reflexivity. Qed.

(** Scenarios A and B of the specification, and the tests of the repository. *)
Example scenario_A : findAvailableBranchName "ABC-123" [] = Some "agent/abc-123".
Proof. reflexivity. Qed.

Example scenario_B :
  findAvailableBranchName "ABC-123" ["main"; "agent/abc-123"] = Some "agent/abc-123-2".
Proof. reflexivity. Qed.

Example suffix_after_gapless_run :
  findAvailableBranchName "ABC-123"
    ["agent/abc-123"; "agent/abc-123-2"; "agent/abc-123-3"] = Some "agent/abc-123-4".
Proof. reflexivity. Qed.

Example sanitize_examples :
  generateBranchName "ABC__123..456" = "agent/abc--123--456" /\
  generateBranchName "ABC@123" = "agent/abc-123".
Proof. split; reflexivity. Qed.

End BranchFacts.

(* ================================================================= *)
(** ** Unassignment without an active run *)

Module InboxFacts.
Import Schema Sql Effects Services Handlers Run Statements.

(** A statement cannot have failed when the store never fails. *)
Ltac no_fault :=
  match goal with
  | H : forall h q, d1_fault _ h q = None, F : d1_fault _ _ _ = Some _ |- _ =>
      rewrite H in F; discriminate F
  end.

Lemma getActive_after_log (now : string) (event : LogEvent) (db : DB) (issue : string) :
  Sql.getActiveWorkflowRunByIssue (Sql.logEvent now event db) issue
  = Sql.getActiveWorkflowRunByIssue db issue.
Proof. reflexivity. Qed.

(** C9. When no active (not completed) WorkflowRun exists for the issue of
    an unassignment event, [handleInboxNotification] calls neither the CI
    platform nor the ticketing system, leaves every table but the run log
    as it was, and the run log either gains exactly the entry of the
    unassignment or (when that insert fails) stays as it was. When the
    store does not fail, the handler returns normally having written exactly
    that entry and issued two statements: the insert and the lookup. *)
Theorem unassign_without_active_run
    (env : Env) (payload : LinearUnassignWebhook) (past : History) (db : DB) :
  Sql.getActiveWorkflowRunByIssue db (un_issueId payload) = None ->
  let o := handleInboxNotification env payload past db in
  forallb isDbCall (emitted o) = true /\
  workflow_runs (store o) = workflow_runs db /\
  pending_configs (store o) = pending_configs db /\
  pending_workflow_triggers (store o) = pending_workflow_triggers db /\
  team_configs (store o) = team_configs db /\
  github_installations (store o) = github_installations db /\
  processed_webhooks (store o) = processed_webhooks db /\
  (run_log (store o) = run_log db \/
   exists id, run_log (store o)
              = (run_log db ++ [logRow id (sql_now env past) (unassignedEvent payload)])%list) /\
  ((forall h q, d1_fault env h q = None) ->
     result o = Ok tt /\
     store o = Sql.logEvent (sql_now env past) (unassignedEvent payload) db /\
     emitted o = [EvDb (QLogEvent (unassignedEvent payload));
                  EvDb (QGetActiveWorkflowRunByIssue (un_issueId payload))]).
Proof.
  intros Hnone o. subst o.
  unfold handleInboxNotification. fold (unassignedEvent payload).
  destruct (d1_fault env past (QLogEvent (unassignedEvent payload))) as [e1|] eqn:F1.
  - run_request. repeat split; auto; no_fault.
  - destruct (d1_fault env (past ++ [EvDb (QLogEvent (unassignedEvent payload))])%list
                (QGetActiveWorkflowRunByIssue (un_issueId payload)))
      as [e2|] eqn:F2.
    + run_request. repeat split; auto; try no_fault.
      right. eexists. reflexivity.
    + pose proof (getActive_after_log (sql_now env past) (unassignedEvent payload)
                    db (un_issueId payload)) as G.
      rewrite Hnone in G. run_request. repeat split; auto.
      right. eexists. reflexivity.
Qed.

Lemma unassign_without_active_run_witness :
  let db := Scenario.dbWithRun (Scenario.runWith completed "ABC-123") in
  let o := handleInboxNotification Scenario.quiet Scenario.unassignPayload [] db in
  Sql.getActiveWorkflowRunByIssue db "issue-456" = None /\
  result o = Ok tt /\
  store o
  = Sql.logEvent "2026-01-01 00:00:00" (unassignedEvent Scenario.unassignPayload) db /\
  emitted o
  = [EvDb (QLogEvent (unassignedEvent Scenario.unassignPayload));
     EvDb (QGetActiveWorkflowRunByIssue "issue-456")].
Proof.
  cbv zeta. split; [reflexivity|].
  pose proof (unassign_without_active_run Scenario.quiet Scenario.unassignPayload []
                (Scenario.dbWithRun (Scenario.runWith completed "ABC-123"))
                eq_refl) as H.
  cbv zeta in H.
  exact (proj2 (proj2 (proj2 (proj2 (proj2 (proj2 (proj2 (proj2 H)))))))
           (fun _ _ => eq_refl)).
Defined.

End InboxFacts.

(* ================================================================= *)
(** ** Facts about the statements *)

Module SqlFacts.
Import Schema Sql.

(** The byte order of TEXT values is a total preorder. *)
Lemma string_leb_refl (a : string) : String.leb a a = true.
Proof.
  unfold String.leb. induction a as [|c a IH]; simpl; [reflexivity|].
  unfold Ascii.compare. now rewrite N.compare_refl.
Qed.

Lemma string_compare_trans (a : string) : forall b c,
  String.compare a b <> Gt -> String.compare b c <> Gt -> String.compare a c <> Gt.
Proof.
  induction a as [|x a IH]; intros [|y b] [|z c]; simpl; try congruence.
  unfold Ascii.compare.
  destruct (N.compare_spec (N_of_ascii x) (N_of_ascii y)) as [E1|L1|G1];
    destruct (N.compare_spec (N_of_ascii y) (N_of_ascii z)) as [E2|L2|G2];
    try congruence; intros H1 H2.
  - rewrite E1, E2, N.compare_refl. now apply (IH b c).
  - rewrite E1. apply N.compare_lt_iff in L2. now rewrite L2.
  - rewrite <- E2. apply N.compare_lt_iff in L1. now rewrite L1.
  - assert (L : N_of_ascii x < N_of_ascii z) by lia.
    apply N.compare_lt_iff in L. now rewrite L.
Qed.

Lemma string_leb_trans (a b c : string) :
  String.leb a b = true -> String.leb b c = true -> String.leb a c = true.
Proof.
  unfold String.leb. intros H1 H2.
  assert (H : String.compare a c <> Gt).
  { apply (string_compare_trans a b c).
    - destruct (String.compare a b); congruence.
    - destruct (String.compare b c); congruence. }
  destruct (String.compare a c); congruence.
Qed.

Lemma string_ltb_leb (a b : string) : String.ltb a b = true -> String.leb a b = true.
Proof. unfold String.ltb, String.leb. destruct (String.compare a b); congruence. Qed.

Lemma string_not_ltb_leb (a b : string) :
  String.ltb a b = false -> String.leb b a = true.
Proof.
  unfold String.ltb, String.leb. rewrite (String.compare_antisym a b).
  destruct (String.compare b a); simpl; congruence.
Qed.

Section Latest.

Context {A : Type} (created_at : A -> string).

Lemma latest_In (rows : list A) (x : A) :
  latest created_at rows = Some x -> In x rows.
Proof.
  revert x. induction rows as [|r rest IH]; simpl; intros x H; [discriminate|].
  destruct (latest created_at rest) as [r'|].
  - destruct (String.ltb (created_at r) (created_at r')); injection H as <-; auto.
  - injection H as <-. auto.
Qed.

Lemma latest_none (rows : list A) : latest created_at rows = None -> rows = [].
Proof.
  destruct rows as [|r rest]; simpl; [reflexivity|].
  destruct (latest created_at rest) as [r'|]; [|discriminate].
  destruct (String.ltb (created_at r) (created_at r')); discriminate.
Qed.

Lemma latest_max (rows : list A) (x : A) :
  latest created_at rows = Some x ->
  forall y, In y rows -> String.leb (created_at y) (created_at x) = true.
Proof.
  revert x. induction rows as [|r rest IH]; simpl; intros x H y Hy; [contradiction|].
  destruct (latest created_at rest) as [r'|] eqn:E.
  - destruct (String.ltb (created_at r) (created_at r')) eqn:L; injection H as <-.
    + destruct Hy as [<-|Hy]; [now apply string_ltb_leb | now apply IH].
    + destruct Hy as [<-|Hy]; [apply string_leb_refl|].
      apply (string_leb_trans _ (created_at r')); [now apply IH|].
      now apply string_not_ltb_leb.
  - injection H as <-. apply latest_none in E. subst rest.
    destruct Hy as [<-|[]]. apply string_leb_refl.
Qed.

End Latest.

Lemma find_none_existsb {A : Type} (f : A -> bool) (l : list A) :
  find f l = None -> existsb f l = false.
Proof.
  induction l as [|a l IH]; simpl; [reflexivity|].
  destruct (f a); [discriminate | exact IH].
Qed.

Lemma find_app_none {A : Type} (f : A -> bool) (l : list A) (x : A) :
  find f l = None -> f x = true -> find f (l ++ [x]) = Some x.
Proof.
  induction l as [|a l IH]; simpl; intros H Hx.
  - now rewrite Hx.
  - destruct (f a); [discriminate | now apply IH].
Qed.

Lemma createWorkflowRun_fresh (now : string) (run : NewWorkflowRun) (db : DB) :
  Sql.getWorkflowRun db (nr_githubRunId run) = None ->
  Sql.createWorkflowRun now run db
  = (let id := nextRowId db "workflow_runs" (map wr_id (workflow_runs db)) in
     (Ok (runRow id now run),
      setWorkflowRuns db (workflow_runs db ++ [runRow id now run])
        (setSeq "workflow_runs" id (sqlite_sequence db)))).
Proof.
  unfold Sql.getWorkflowRun, Sql.createWorkflowRun. intros H.
  now rewrite (find_none_existsb _ _ H).
Qed.

(** What [matchPendingWorkflowTrigger] returns: an unmatched trigger of the
    owner, repository and branch asked for, created no earlier than any
    other such trigger; and nothing only when there is no such trigger. *)
Lemma matchPendingWorkflowTrigger_some (db : DB) (owner repo branch : string)
    (t : PendingWorkflowTrigger) :
  matchPendingWorkflowTrigger db owner repo branch = Some t ->
  In t (pending_workflow_triggers db) /\
  pt_github_owner t = owner /\ pt_github_repo t = repo /\
  pt_branch_name t = branch /\ pt_matched_at t = None /\
  forall t', In t' (pending_workflow_triggers db) ->
             triggerCandidate owner repo branch t' = true ->
             String.leb (pt_created_at t') (pt_created_at t) = true.
Proof.
  unfold matchPendingWorkflowTrigger. intros H.
  pose proof (latest_In _ _ _ H) as HIn. apply filter_In in HIn as [HIn Hc].
  unfold triggerCandidate in Hc.
  apply andb_prop in Hc as [Hc Hm]. apply andb_prop in Hc as [Hc Hb].
  apply andb_prop in Hc as [Ho Hr].
  apply String.eqb_eq in Ho, Hr, Hb.
  repeat split; try assumption.
  - now destruct (pt_matched_at t).
  - intros t' HIn' Hc'. apply (latest_max _ _ _ H). apply filter_In. auto.
Qed.


End SqlFacts.

(* ================================================================= *)
(** ** Dispatch without target coordinates *)

Module DispatchFacts.
Import Schema Sql Effects Services.

Lemma githubConfiguration_none (config : TeamConfig) :
  Js.truthyOpt (tc_github_owner config) = false \/
  Js.truthyOpt (tc_github_repo config) = false \/
  Js.truthyNum (tc_github_installation_id config) = false ->
  githubConfiguration config = None.
Proof.
  unfold githubConfiguration, Js.truthyOpt, Js.truthyNum.
  destruct (tc_github_owner config) as [owner|];
    destruct (tc_github_repo config) as [repo|];
    destruct (tc_github_installation_id config) as [inst|]; try reflexivity;
    intros [H|[H|H]]; try discriminate; rewrite H;
    rewrite ?andb_false_r; reflexivity.
Qed.

(** C8. When the TeamConfig lacks the owner, the repository or the
    installation (the test [!config.github_owner || !config.github_repo ||
    !config.github_installation_id]), [triggerImplementation] throws at once:
    the store is as it was and no call has been issued, neither to the
    store (no PendingWorkflowTrigger, no RunLog entry), nor to the
    ticketing system (no issue context, no activity), nor to the CI platform
    (no branch listing, no dispatch). Nothing runs the operation again: the
    exception is its whole outcome. *)
Theorem trigger_without_configuration (env : Env)
    (token agentSessionId issueId issueIdentifier : string)
    (config : TeamConfig) (past : History) (db : DB) :
  Js.truthyOpt (tc_github_owner config) = false \/
  Js.truthyOpt (tc_github_repo config) = false \/
  Js.truthyNum (tc_github_installation_id config) = false ->
  triggerImplementation env token agentSessionId issueId issueIdentifier
    config past db
  = {| result := Throw (Error "Team config missing GitHub configuration");
       store := db; emitted := [] |}.
Proof.
  intros H. unfold triggerImplementation.
  now rewrite (githubConfiguration_none config H).
Qed.

Lemma trigger_without_configuration_witness :
  triggerImplementation Scenario.quiet "lin_oauth" "session-123" "issue-456"
    "ABC-123" Scenario.unconfigured [] emptyDB
  = {| result := Throw (Error "Team config missing GitHub configuration");
       store := emptyDB; emitted := [] |}.
Proof. apply trigger_without_configuration. left. reflexivity. Defined.

End DispatchFacts.

(* ================================================================= *)
(** ** The status of a WorkflowRun under [updateWorkflowRun] *)

Module RunFacts.
Import Schema Sql Effects Run Statements.

Lemma find_map_run (now : string) (id : N) (u : RunUpdates) (rows : list WorkflowRun) :
  find (fun r => wr_github_run_id r =? id)
       (map (fun r => if wr_github_run_id r =? id
                      then applyRunUpdates now u r else r) rows)
  = option_map (applyRunUpdates now u)
      (find (fun r => wr_github_run_id r =? id) rows).
Proof.
  induction rows as [|r rows IH]; simpl; [reflexivity|].
  destruct (wr_github_run_id r =? id) eqn:E; simpl.
  - now rewrite E.
  - now rewrite E.
Qed.

(** C1 (as amended). [updateWorkflowRun] checks no transition: when the
    statement reaches the store, the run stored under the run id has the
    status the update names, whatever its status was. In particular a run
    that is [completed] is [in_progress] after an update with
    status=in_progress; it stays [completed] under an update that names no
    status or names [completed]. *)
Theorem update_overwrites_status (env : Env) (past : History) (db : DB)
    (githubRunId : N) (updates : RunUpdates) (run : WorkflowRun) :
  d1_fault env past (QUpdateWorkflowRun githubRunId updates) = None ->
  Sql.getWorkflowRun db githubRunId = Some run ->
  let o := Queries.updateWorkflowRun env githubRunId updates past db in
  result o = Ok tt /\
  exists run',
    Sql.getWorkflowRun (store o) githubRunId = Some run' /\
    wr_id run' = wr_id run /\
    wr_status run' = orElse (u_status updates) (wr_status run) /\
    (wr_status run = completed -> u_status updates = Some in_progress ->
       wr_status run' = in_progress) /\
    (wr_status run = completed ->
       u_status updates = None \/ u_status updates = Some completed ->
       wr_status run' = completed).
Proof.
  intros Hok Hrun o. subst o. unfold Queries.updateWorkflowRun.
  destruct (noUpdates updates) eqn:E.
  - split; [reflexivity|]. exists run. cbn.
    assert (S : u_status updates = None).
    { unfold noUpdates in E. now destruct (u_status updates). }
    rewrite S. cbn. repeat split; auto.
    intros _ H. discriminate.
  - unfold d1. rewrite Hok. cbn. split; [reflexivity|].
    exists (applyRunUpdates (sql_now env past) updates run).
    unfold Sql.getWorkflowRun, Sql.updateWorkflowRun. cbn.
    unfold Sql.getWorkflowRun in Hrun. rewrite find_map_run, Hrun. cbn.
    repeat split.
    + intros _ ->. reflexivity.
    + intros C [->| ->]; [exact C | reflexivity].
Qed.

Lemma update_overwrites_status_witness :
  let o := Queries.updateWorkflowRun Scenario.quiet 987654 Scenario.reopen []
             (Scenario.dbWithRun (Scenario.runWith completed "ABC-123")) in
  result o = Ok tt /\
  exists run',
    Sql.getWorkflowRun (store o) 987654 = Some run' /\
    wr_id run' = 1 /\
    wr_status run' = in_progress /\
    (completed = completed -> Some in_progress = Some in_progress ->
       wr_status run' = in_progress) /\
    (completed = completed ->
       Some in_progress = None \/ Some in_progress = Some completed ->
       wr_status run' = completed).
Proof.
  apply (update_overwrites_status Scenario.quiet [] 
           (Scenario.dbWithRun (Scenario.runWith completed "ABC-123"))
           987654 Scenario.reopen (Scenario.runWith completed "ABC-123"));
    reflexivity.
Defined.

(** C1, the claim as stated fails: a run stored as [completed] is stored as
    [in_progress] after [updateWorkflowRun] with status=in_progress, and
    likewise after a late [in_progress] event handled by [handleWorkflowRun]. *)
Lemma completed_run_reopened :
  let db := Scenario.dbWithRun (Scenario.runWith completed "ABC-123") in
  option_map wr_status (Sql.getWorkflowRun db 987654) = Some completed /\
  option_map wr_status
    (Sql.getWorkflowRun
       (store (Queries.updateWorkflowRun Scenario.quiet 987654 Scenario.reopen [] db)) 987654)
  = Some in_progress /\
  option_map wr_status
    (Sql.getWorkflowRun
       (store (Handlers.handleWorkflowRun Scenario.quiet Scenario.startedPayload [] db))
       987654)
  = Some in_progress.
Proof. repeat split; vm_compute; reflexivity. Qed.

End RunFacts.

(* ================================================================= *)
(** ** Correlating a started run with a pending trigger *)

Module CorrelateFacts.
Import Schema Sql Effects Services Handlers Run Statements.

#[local] Arguments Sql.createWorkflowRun : simpl never.
#[local] Arguments Sql.getWorkflowRun : simpl never.
#[local] Arguments Sql.matchPendingWorkflowTrigger : simpl never.





(** The example in full: of the two unmatched triggers of acme/backend on
    main the later one (session-2) is bound; the matched one and the one of
    the other repository are left alone. *)
Example correlate_example :
  let o := resolveWorkflowRun Scenario.quiet Scenario.startedPayload []
             Scenario.dbWithTriggers in
  map wr_agent_session_id (workflow_runs (store o)) = ["session-2"] /\
  map (fun t => (pt_id t, pt_matched_at t)) (pending_workflow_triggers (store o))
  = [(1, Some "2026-01-01 10:00:05"); (2, Some "2026-01-01 00:00:00");
     (3, None); (4, None)].
Proof. split; vm_compute; reflexivity. Qed.

End CorrelateFacts.

(* ================================================================= *)
(** ** Completion of a run *)

Module CompleteFacts.
Import Schema Sql Effects Services Run Statements.

Lemma includes_unfold (s x : string) :
  Js.includes s x
  = (String.prefix x s
     || match s with EmptyString => false | String _ s' => Js.includes s' x end).
Proof. destruct s; reflexivity. Qed.

Lemma includes_here (x s : string) : Js.includes (x ++ s) x = true.
Proof. now rewrite includes_unfold, JsFacts.prefix_append. Qed.

Lemma includes_later (a s x : string) :
  Js.includes s x = true -> Js.includes (a ++ s) x = true.
Proof.
  intros H. induction a as [|c a IH]; simpl; [assumption|].
  rewrite IH. apply orb_true_r.
Qed.













(** Scenarios C and E of the specification. *)
Example scenario_C :
  let env := Scenario.setting (fun _ => 1000) [Scenario.pull 42 "Add login"] []
               (fun _ => Ok tt) in
  let run := Scenario.runWith in_progress "ABC-123" in
  let o := handleWorkflowComplete env "lin_oauth" run 12345 "success" []
             (Scenario.dbWithRun run) in
  option_map (fun r => (wr_status r, wr_conclusion r, wr_pr_number r, wr_pr_url r))
    (Sql.getWorkflowRun (store o) 987654)
  = Some (completed, Some "success", Some 42,
          Some "https://github.com/acme/backend/pull/42").
Proof. vm_compute. reflexivity. Qed.

Example scenario_E :
  workflowUrl (Scenario.runWith in_progress "ABC-123")
  = "https://github.com/acme/backend/actions/runs/987654" /\
  runLink "acme" "backend" 987654
  = "https://github.com/acme/backend/actions/runs/987654".
Proof. split; reflexivity. Qed.

End CompleteFacts.

(* ================================================================= *)
(** ** The two webhook entry points *)

Module EntryFacts.
Import Schema Sql Effects Services Handlers Run Statements.

(** The calls issued so far, as [past] followed by one list. *)
Ltac tidy_history past :=
  repeat rewrite (app_nil_r past);
  repeat rewrite <- (app_assoc past);
  cbn [Datatypes.app].

Lemma linear_valid (env : Env) (request : LinearRequest) :
  linearSignatureValid env request = true ->
  Crypto.verifyLinearSignature (text_encode env) (hmac_sha256 env)
    (lr_body request) (Js.orString (lr_signature request) EmptyString)
    (LINEAR_WEBHOOK_SECRET env) = Some true.
Proof.
  unfold linearSignatureValid, linearVerdict.
  destruct (Crypto.verifyLinearSignature _ _ _ _ _) as [[|]|];
    [reflexivity | discriminate | discriminate].
Qed.

Lemma github_valid (env : Env) (request : GitHubRequest) :
  githubSignatureValid env request = true ->
  Crypto.verifyGitHubSignature (text_encode env) (hmac_sha256 env)
    (gr_body request) (Js.orString (gr_signature request) EmptyString)
    (GITHUB_WEBHOOK_SECRET env) = Some true.
Proof.
  unfold githubSignatureValid, githubVerdict.
  destruct (Crypto.verifyGitHubSignature _ _ _ _ _) as [[|]|];
    [reflexivity | discriminate | discriminate].
Qed.

(** A request that verifies is on one branch of the entry point. *)
Ltac enter_linear Hv Hp :=
  apply linear_valid in Hv; unfold handleLinearWebhook; cbv zeta;
  rewrite Hv, Hp.

Ltac enter_github Hv Hp :=
  apply github_valid in Hv; unfold handleGitHubWebhook; cbv zeta;
  rewrite Hv, Hp.

Section Entry.

Variable env : Env.

(** The router calls the handler of the event, and nothing else. *)
Lemma routeLinear_handler (payload : LinearWebhook) :
  routeLinear env payload
  = match linearHandlerFor env payload with
    | Some handler => handler
    | None => ret tt
    end.
Proof.
  destruct payload as [p|action p|ty action]; cbn; [| |reflexivity].
  - destruct (String.eqb (as_action p) "created"); [reflexivity|].
    now destruct (String.eqb (as_action p) "prompted").
  - unfold isUnassignAction.
    now destruct (String.eqb action "issueUnassignedFromYou").
Qed.

Lemma routeGitHub_handler (eventType : string) (payload : GitHubWebhook) :
  match githubHandlerFor env eventType payload with
  | Some handler => routeGitHub env eventType payload = handler
  | None => forall h d, emitted (routeGitHub env eventType payload h d) = []
  end.
Proof.
  unfold githubHandlerFor, routeGitHub.
  destruct (String.eqb eventType "workflow_run") eqn:W.
  { apply String.eqb_eq in W. subst eventType. now destruct payload. }
  destruct (String.eqb eventType "installation") eqn:I.
  { apply String.eqb_eq in I. subst eventType. now destruct payload. }
  destruct (String.eqb eventType "pull_request") eqn:P.
  { apply String.eqb_eq in P. subst eventType. now destruct payload. }
  now destruct payload.
Qed.

(** The calls of a request that verifies: the ledger check, the ledger
    mark, then those of the router on the store as marked. *)
Lemma linear_calls_in_order (request : LinearRequest) (payload : LinearWebhook)
    (past : History) (db : DB) :
  linearSignatureValid env request = true ->
  parse_linear_webhook env (lr_body request) = Some payload ->
  let id := generateWebhookId (date_now env past) payload in
  let check := ledgerCheck id linear in
  let mark := ledgerMark id linear in
  let o := handleLinearWebhook env request past db in
  match d1_fault env past (QIsWebhookProcessed id linear) with
  | Some e => o = {| result := Throw e; store := db; emitted := [check] |}
  | None =>
      if Sql.isWebhookProcessed db id linear
      then o = {| result := Ok alreadyProcessed; store := db; emitted := [check] |}
      else
        match d1_fault env (past ++ [check])%list
                (QMarkWebhookProcessed id linear) with
        | Some e =>
            o = {| result := Throw e; store := db; emitted := [check; mark] |}
        | None =>
            let marked :=
              Sql.markWebhookProcessed (sql_now env (past ++ [check])%list)
                id linear db in
            let routed := routeLinear env payload (past ++ [check; mark])%list marked in
            exists tail,
              emitted o = (check :: mark :: emitted routed ++ tail)%list /\
              (result routed = Ok tt -> tail = [])
        end
  end.
Proof.
  intros Hv Hp id check mark o. subst o.
  enter_linear Hv Hp. reduce_request. tidy_history past.
  fold id. subst check mark. unfold ledgerCheck, ledgerMark.
  destruct (d1_fault env past (QIsWebhookProcessed id linear)) as [e|] eqn:F1;
    [reflexivity|].
  destruct (Sql.isWebhookProcessed db id linear) eqn:P; [reflexivity|].
  reduce_request. tidy_history past.
  destruct (d1_fault env (past ++ [EvDb (QIsWebhookProcessed id linear)])%list
              (QMarkWebhookProcessed id linear)) as [e|] eqn:F2;
    [reflexivity|].
  cbv zeta.
  destruct (routeLinear env payload
              (past ++ [EvDb (QIsWebhookProcessed id linear);
                        EvDb (QMarkWebhookProcessed id linear)])%list
              (Sql.markWebhookProcessed
                 (sql_now env (past ++ [EvDb (QIsWebhookProcessed id linear)])%list)
                 id linear db)) as [r db' ev] eqn:R.
  reduce_request. tidy_history past. rewrite R.
  destruct r as [[]|e]; reduce_request; tidy_history past.
  - exists []. now rewrite app_nil_r.
  - destruct (d1_fault env _ (QLogEvent (webhookErrorEvent payload e)));
      reduce_request; tidy_history past; eexists; (split; [reflexivity|]);
      discriminate.
Qed.

Lemma github_calls_in_order (request : GitHubRequest) (payload : GitHubWebhook)
    (past : History) (db : DB) :
  githubSignatureValid env request = true ->
  parse_github_webhook env (gr_body request) = Some payload ->
  let id := githubRequestId (date_now env past) request in
  let check := ledgerCheck id github in
  let mark := ledgerMark id github in
  let o := handleGitHubWebhook env request past db in
  match d1_fault env past (QIsWebhookProcessed id github) with
  | Some e => o = {| result := Throw e; store := db; emitted := [check] |}
  | None =>
      if Sql.isWebhookProcessed db id github
      then o = {| result := Ok alreadyProcessed; store := db; emitted := [check] |}
      else
        match d1_fault env (past ++ [check])%list
                (QMarkWebhookProcessed id github) with
        | Some e =>
            o = {| result := Throw e; store := db; emitted := [check; mark] |}
        | None =>
            let marked :=
              Sql.markWebhookProcessed (sql_now env (past ++ [check])%list)
                id github db in
            emitted o
            = (check :: mark
                 :: emitted (routeGitHub env
                               (Js.orString (gr_event request) EmptyString)
                               payload (past ++ [check; mark])%list marked))%list
        end
  end.
Proof.
  intros Hv Hp id check mark o. subst o.
  enter_github Hv Hp. reduce_request. tidy_history past.
  fold (githubRequestId (date_now env past) request). fold id.
  subst check mark. unfold ledgerCheck, ledgerMark.
  destruct (d1_fault env past (QIsWebhookProcessed id github)) as [e|] eqn:F1;
    [reflexivity|].
  destruct (Sql.isWebhookProcessed db id github) eqn:P; [reflexivity|].
  reduce_request. tidy_history past.
  destruct (d1_fault env (past ++ [EvDb (QIsWebhookProcessed id github)])%list
              (QMarkWebhookProcessed id github)) as [e|] eqn:F2;
    [reflexivity|].
  cbv zeta.
  destruct (routeGitHub env (Js.orString (gr_event request) EmptyString)
              payload (past ++ [EvDb (QIsWebhookProcessed id github);
                                EvDb (QMarkWebhookProcessed id github)])%list
              (Sql.markWebhookProcessed
                 (sql_now env (past ++ [EvDb (QIsWebhookProcessed id github)])%list)
                 id github db)) as [r db' ev] eqn:R.
  reduce_request. tidy_history past. rewrite R.
  destruct r as [[]|e]; reduce_request; tidy_history past;
    now rewrite app_nil_r.
Qed.

(** Once marked, the ledger holds the id, and reports it under the type it
    was marked with unless an older row holds it under the other type. *)
Lemma marked_is_held (stamp id : string) (ty other : WebhookType) (db : DB) :
  let marked := Sql.markWebhookProcessed stamp id ty db in
  ledgerHolds marked id /\
  (Sql.isWebhookProcessed db id other = false -> ty <> other ->
   Sql.isWebhookProcessed marked id ty = true).
Proof.
  intros marked. subst marked. split.
  - unfold ledgerHolds, Sql.markWebhookProcessed.
    destruct (existsb _ (processed_webhooks db)) eqn:X.
    + apply existsb_exists in X as (row & HIn & Hid).
      apply String.eqb_eq in Hid. exists row. cbn. auto.
    + eexists. cbn. split; [apply in_or_app; right; left; reflexivity|].
      reflexivity.
  - intros Hother Hne. unfold Sql.markWebhookProcessed, Sql.isWebhookProcessed in *.
    destruct (existsb (fun w => String.eqb (pw_webhook_id w) id)
                (processed_webhooks db)) eqn:X.
    + apply existsb_exists in X as (row & HIn & Hid).
      cbn. apply existsb_exists. exists row. split; [exact HIn|].
      rewrite Hid. cbn.
      destruct (WebhookType_eqb (pw_webhook_type row) ty) eqn:T; [reflexivity|].
      assert (C : existsb (fun w => String.eqb (pw_webhook_id w) id
                                    && WebhookType_eqb (pw_webhook_type w) other)
                    (processed_webhooks db) = true).
      { apply existsb_exists. exists row. split; [exact HIn|]. rewrite Hid. cbn.
        destruct (pw_webhook_type row), ty, other; try reflexivity;
          try discriminate T; now elim Hne. }
      congruence.
    + cbn. rewrite existsb_app. cbn. rewrite String.eqb_refl.
      destruct ty; cbn; now rewrite orb_true_r.
Qed.

(** C4 (as amended). On both endpoints nothing precedes the signature
    check: a request it returns [false] for is answered 401 with the store
    untouched and no call issued (no ledger write, no RunLog write, no
    handler), and so is, with the exception of the check in place of the
    401, a request it throws on. For a request that verifies, the first
    call of any kind is the ledger check, the second (unless the event is a
    duplicate, or the check failed) is the ledger mark, after which the
    ledger holds the id; and the handler of the event, when the event has
    one, runs next, on the store as marked, its calls following the two. *)
Theorem webhook_processing_order (linearRequest : LinearRequest)
    (githubRequest : GitHubRequest) (past : History) (db : DB) :
  (linearVerdict env linearRequest = Some false ->
     handleLinearWebhook env linearRequest past db
     = {| result := Ok invalidSignature; store := db; emitted := [] |}) /\
  (githubVerdict env githubRequest = Some false ->
     handleGitHubWebhook env githubRequest past db
     = {| result := Ok invalidSignature; store := db; emitted := [] |}) /\
  status invalidSignature = 401 /\
  (linearVerdict env linearRequest = None ->
     handleLinearWebhook env linearRequest past db
     = {| result := Throw dataError; store := db; emitted := [] |}) /\
  (githubVerdict env githubRequest = None ->
     handleGitHubWebhook env githubRequest past db
     = {| result := Throw dataError; store := db; emitted := [] |}) /\
  (forall payload,
     linearVerdict env linearRequest = Some true ->
     parse_linear_webhook env (lr_body linearRequest) = Some payload ->
     let id := generateWebhookId (date_now env past) payload in
     let check := ledgerCheck id linear in
     let mark := ledgerMark id linear in
     let o := handleLinearWebhook env linearRequest past db in
     match d1_fault env past (QIsWebhookProcessed id linear) with
     | Some e => o = {| result := Throw e; store := db; emitted := [check] |}
     | None =>
         if Sql.isWebhookProcessed db id linear
         then o = {| result := Ok alreadyProcessed; store := db; emitted := [check] |}
         else
           match d1_fault env (past ++ [check])%list
                   (QMarkWebhookProcessed id linear) with
           | Some e =>
               o = {| result := Throw e; store := db; emitted := [check; mark] |}
           | None =>
               let marked :=
                 Sql.markWebhookProcessed (sql_now env (past ++ [check])%list)
                   id linear db in
               ledgerHolds marked id /\
               (Sql.isWebhookProcessed db id github = false ->
                Sql.isWebhookProcessed marked id linear = true) /\
               match linearHandlerFor env payload with
               | Some handler =>
                   let handled := handler (past ++ [check; mark])%list marked in
                   exists tail,
                     emitted o = (check :: mark :: emitted handled ++ tail)%list /\
                     (result handled = Ok tt -> tail = [])
               | None => emitted o = [check; mark]
               end
           end
     end) /\
  (forall payload,
     githubVerdict env githubRequest = Some true ->
     parse_github_webhook env (gr_body githubRequest) = Some payload ->
     let id := githubRequestId (date_now env past) githubRequest in
     let check := ledgerCheck id github in
     let mark := ledgerMark id github in
     let o := handleGitHubWebhook env githubRequest past db in
     match d1_fault env past (QIsWebhookProcessed id github) with
     | Some e => o = {| result := Throw e; store := db; emitted := [check] |}
     | None =>
         if Sql.isWebhookProcessed db id github
         then o = {| result := Ok alreadyProcessed; store := db; emitted := [check] |}
         else
           match d1_fault env (past ++ [check])%list
                   (QMarkWebhookProcessed id github) with
           | Some e =>
               o = {| result := Throw e; store := db; emitted := [check; mark] |}
           | None =>
               let marked :=
                 Sql.markWebhookProcessed (sql_now env (past ++ [check])%list)
                   id github db in
               ledgerHolds marked id /\
               (Sql.isWebhookProcessed db id linear = false ->
                Sql.isWebhookProcessed marked id github = true) /\
               match githubHandlerFor env
                       (Js.orString (gr_event githubRequest) EmptyString)
                       payload with
               | Some handler =>
                   emitted o
                   = (check :: mark
                        :: emitted (handler (past ++ [check; mark])%list marked))%list
               | None => emitted o = [check; mark]
               end
           end
     end).
Proof.
  split; [|split; [|split; [reflexivity|split; [|split; [|split]]]]].
  - unfold linearVerdict, handleLinearWebhook. cbv zeta. intros ->. reflexivity.
  - unfold githubVerdict, handleGitHubWebhook. cbv zeta. intros ->. reflexivity.
  - unfold linearVerdict, handleLinearWebhook. cbv zeta. intros ->. reflexivity.
  - unfold githubVerdict, handleGitHubWebhook. cbv zeta. intros ->. reflexivity.
  - intros payload Hv Hp id check mark o.
    assert (Hvalid : linearSignatureValid env linearRequest = true)
      by (unfold linearSignatureValid; now rewrite Hv).
    pose proof (linear_calls_in_order linearRequest payload past db Hvalid Hp) as H.
    cbv zeta in H. fold id in H. fold check mark in H. fold o in H.
    destruct (d1_fault env past (QIsWebhookProcessed id linear)); [exact H|].
    destruct (Sql.isWebhookProcessed db id linear); [exact H|].
    destruct (d1_fault env (past ++ [check])%list (QMarkWebhookProcessed id linear));
      [exact H|].
    intros marked.
    destruct (marked_is_held (sql_now env (past ++ [check])%list) id linear github db)
      as [Hheld Hseen].
    split; [exact Hheld|]. split; [intros Hg; apply Hseen; [exact Hg | discriminate]|].
    fold marked in H. rewrite routeLinear_handler in H.
    destruct (linearHandlerFor env payload) as [handler|]; [exact H|].
    destruct H as (tail & H & Htail). cbn in H, Htail.
    now rewrite (Htail eq_refl) in H.
  - intros payload Hv Hp id check mark o.
    assert (Hvalid : githubSignatureValid env githubRequest = true)
      by (unfold githubSignatureValid; now rewrite Hv).
    pose proof (github_calls_in_order githubRequest payload past db Hvalid Hp) as H.
    cbv zeta in H. fold id in H. fold check mark in H. fold o in H.
    destruct (d1_fault env past (QIsWebhookProcessed id github)); [exact H|].
    destruct (Sql.isWebhookProcessed db id github); [exact H|].
    destruct (d1_fault env (past ++ [check])%list (QMarkWebhookProcessed id github));
      [exact H|].
    intros marked.
    destruct (marked_is_held (sql_now env (past ++ [check])%list) id github linear db)
      as [Hheld Hseen].
    split; [exact Hheld|]. split; [intros Hg; apply Hseen; [exact Hg | discriminate]|].
    fold marked in H.
    pose proof (routeGitHub_handler (Js.orString (gr_event githubRequest) EmptyString)
                  payload) as R.
    destruct (githubHandlerFor env _ payload) as [handler|].
    + now rewrite R in H.
    + now rewrite R in H.
Qed.


(** The ticketing-system entry point, when a handler throws after the event
    was marked processed: the error is caught, a [webhook_error] entry is
    written to the RunLog when that insert succeeds and dropped when it
    fails, and the answer is the same 200 either way. *)
Theorem linear_handler_error_logged (request : LinearRequest)
    (payload : LinearWebhook) (past : History) (db db' : DB)
    (error : Exn) (calls : History) :
  let id := generateWebhookId (date_now env past) payload in
  let check := ledgerCheck id linear in
  let mark := ledgerMark id linear in
  let marked :=
    Sql.markWebhookProcessed (sql_now env (past ++ [check])%list) id linear db in
  let logging := QLogEvent (webhookErrorEvent payload error) in
  linearSignatureValid env request = true ->
  parse_linear_webhook env (lr_body request) = Some payload ->
  d1_fault env past (QIsWebhookProcessed id linear) = None ->
  Sql.isWebhookProcessed db id linear = false ->
  d1_fault env (past ++ [check])%list (QMarkWebhookProcessed id linear) = None ->
  routeLinear env payload
    (past ++ [check; mark])%list marked
  = {| result := Throw error; store := db'; emitted := calls |} ->
  handleLinearWebhook env request past db
  = {| result := Ok (statusError error);
       store :=
         match d1_fault env (past ++ check :: mark :: calls)%list logging with
         | Some _ => db'
         | None =>
             Sql.logEvent (sql_now env (past ++ check :: mark :: calls)%list)
               (webhookErrorEvent payload error) db'
         end;
       emitted := (check :: mark :: calls ++ [EvDb logging])%list |}.
Proof.
  intros id check mark marked logging Hv Hp F1 P F2 R.
  subst check mark marked logging. unfold ledgerCheck, ledgerMark in *.
  apply linear_valid in Hv. unfold handleLinearWebhook. cbv zeta.
  rewrite Hv, Hp. reduce_request. tidy_history past.
  fold id. rewrite F1, P. reduce_request. tidy_history past.
  rewrite F2. reduce_request. tidy_history past.
  rewrite R. reduce_request. tidy_history past.
  destruct (d1_fault env _ (QLogEvent (webhookErrorEvent payload error)));
    reduce_request; tidy_history past; reflexivity.
Qed.

(** C5, on the CI endpoint. When a handler throws after the event was
    marked processed, [handleGitHubWebhook] catches the error and answers
    200, but issues no statement after the handler's own calls: the store is
    as the handler left it, so no [webhook_error] entry is written to the
    RunLog. *)
Theorem github_handler_error_unlogged (request : GitHubRequest)
    (payload : GitHubWebhook) (past : History) (db db' : DB)
    (error : Exn) (calls : History) :
  let id := githubRequestId (date_now env past) request in
  let check := ledgerCheck id github in
  let mark := ledgerMark id github in
  let marked :=
    Sql.markWebhookProcessed (sql_now env (past ++ [check])%list) id github db in
  githubSignatureValid env request = true ->
  parse_github_webhook env (gr_body request) = Some payload ->
  d1_fault env past (QIsWebhookProcessed id github) = None ->
  Sql.isWebhookProcessed db id github = false ->
  d1_fault env (past ++ [check])%list (QMarkWebhookProcessed id github) = None ->
  routeGitHub env (Js.orString (gr_event request) EmptyString) payload
    (past ++ [check; mark])%list marked
  = {| result := Throw error; store := db'; emitted := calls |} ->
  handleGitHubWebhook env request past db
  = {| result := Ok (statusError error);
       store := db';
       emitted := (check :: mark :: calls)%list |}.
Proof.
  intros id check mark marked Hv Hp F1 P F2 R.
  subst check mark marked. unfold ledgerCheck, ledgerMark in *.
  apply github_valid in Hv. unfold handleGitHubWebhook. cbv zeta.
  rewrite Hv, Hp. reduce_request. tidy_history past.
  fold (githubRequestId (date_now env past) request). fold id.
  rewrite F1, P. reduce_request. tidy_history past.
  rewrite F2. reduce_request. tidy_history past.
  rewrite R. reduce_request. tidy_history past.
  now rewrite app_nil_r.
Qed.

End Entry.

(** An unassignment and a badly signed delivery, in the setting of the
    examples. *)
Lemma webhook_processing_order_witness :
  let o := handleLinearWebhook Scenario.quiet Scenario.unassignRequest [] emptyDB in
  let id := "linear-unassign-issue-456-1000" in
  emitted o
  = [ledgerCheck id linear; ledgerMark id linear;
     EvDb (QLogEvent (unassignedEvent Scenario.unassignPayload));
     EvDb (QGetActiveWorkflowRunByIssue "issue-456")] /\
  Sql.isWebhookProcessed (store o) id linear = true /\
  handleGitHubWebhook Scenario.quiet Cases.unsignedDelivery [] emptyDB
  = {| result := Ok invalidSignature; store := emptyDB; emitted := [] |}.
Proof.
  cbv zeta.
  destruct (webhook_processing_order Scenario.quiet Scenario.unassignRequest
              Cases.unsignedDelivery [] emptyDB)
    as (_ & Hbad & _ & _ & _ & Hlinear & _).
  specialize (Hlinear (unassignEvent Scenario.unassignPayload) eq_refl eq_refl).
  vm_compute in Hlinear.
  destruct Hlinear as (_ & _ & tail & Hcalls & Htail).
  rewrite (Htail eq_refl) in Hcalls.
  split; [exact Hcalls|]. split; [reflexivity | exact (Hbad eq_refl)].
Defined.

(** C4, the claim as stated fails when the webhook secret is empty: the
    check of a badly signed request does not return, it throws, and the
    request is not answered with the authentication error. Nothing is
    written and no call is issued all the same. *)
Lemma unverifiable_request_is_not_answered_401 :
  let o := handleLinearWebhook Cases.keyless Cases.unsignedRequest [] emptyDB in
  let o' := handleGitHubWebhook Cases.keyless Cases.unsignedDelivery [] emptyDB in
  linearSignatureValid Cases.keyless Cases.unsignedRequest = false /\
  githubSignatureValid Cases.keyless Cases.unsignedDelivery = false /\
  o = {| result := Throw dataError; store := emptyDB; emitted := [] |} /\
  o' = {| result := Throw dataError; store := emptyDB; emitted := [] |} /\
  result o <> Ok invalidSignature /\ result o' <> Ok invalidSignature.
Proof. cbv zeta. repeat split; try reflexivity; discriminate. Qed.

Lemma github_handler_error_unlogged_witness :
  let o := handleGitHubWebhook Scenario.quiet
             (Scenario.installationRequest "delivery-2") [] Scenario.storedInstallation in
  result o
  = Ok (statusError
          (Error "UNIQUE constraint failed: github_installations.installation_id")) /\
  status (statusError
            (Error "UNIQUE constraint failed: github_installations.installation_id"))
  = 200 /\
  run_log (store o) = [] /\
  emitted o
  = [ledgerCheck "github-installation-delivery-2" github;
     ledgerMark "github-installation-delivery-2" github;
     EvDb (QCreateGitHubInstallation 12345 "acme" "Organization")].
Proof.
  cbv zeta.
  rewrite (github_handler_error_unlogged Scenario.quiet
             (Scenario.installationRequest "delivery-2")
             (InstallationWebhook Scenario.installationPayload)
             [] Scenario.storedInstallation
             (Sql.markWebhookProcessed "2026-01-01 00:00:00"
                "github-installation-delivery-2" github Scenario.storedInstallation)
             (Error "UNIQUE constraint failed: github_installations.installation_id")
             [EvDb (QCreateGitHubInstallation 12345 "acme" "Organization")]);
    try (vm_compute; reflexivity).
  repeat split.
Defined.

(** On the ticketing-system endpoint the same kind of failure is logged:
    an unassignment whose cancellation notice the ticketing system refuses
    leaves a [webhook_error] entry behind, and is answered 200. *)
Example linear_error_is_logged :
  let failing := Scenario.setting (fun _ => 1000) [] []
                   (fun _ => Throw (Error "Linear API error: 500")) in
  let db := setWorkflowRuns Scenario.storedInstallation
              [Scenario.runWith in_progress "ABC-123"] [("workflow_runs", 1)] in
  let o := handleLinearWebhook failing Scenario.unassignRequest [] db in
  result o = Ok (statusError (Error "Linear API error: 500")) /\
  map rl_event_type (run_log (store o)) = ["agent_unassigned"; "webhook_error"].
Proof. split; vm_compute; reflexivity. Qed.

End EntryFacts.

(* ================================================================= *)
(** ** Dedup ids and the clock *)

Module LedgerFacts.
Import Schema Sql Effects Services Handlers Statements.

Lemma existsb_snoc {A : Type} (f : A -> bool) (l : list A) (x : A) :
  existsb f (l ++ [x]) = existsb f l || f x.
Proof. rewrite existsb_app. simpl. now rewrite orb_false_r. Qed.

Lemma isWebhookProcessed_after_mark (stamp id id' : string)
    (ty ty' : WebhookType) (db : DB) :
  Sql.isWebhookProcessed (Sql.markWebhookProcessed stamp id ty db) id' ty'
  = Sql.isWebhookProcessed db id' ty'
    || (negb (existsb (fun w => String.eqb (pw_webhook_id w) id) (processed_webhooks db))
        && String.eqb id id' && WebhookType_eqb ty ty').
Proof.
  unfold Sql.isWebhookProcessed, Sql.markWebhookProcessed.
  destruct (existsb (fun w => String.eqb (pw_webhook_id w) id) (processed_webhooks db));
    cbn [negb andb].
  - now rewrite orb_false_r.
  - cbn [processed_webhooks setProcessedWebhooks]. now rewrite existsb_snoc.
Qed.

(** C10 (as amended). The dedup id of an unassignment event is
    [linear-unassign-{issue id}-{clock reading}], the reading being that of
    [Date.now()] when the delivery is handled. Two deliveries of one payload
    get distinct ids exactly when they are handled at different readings,
    and then marking the one never makes the ledger report the other as
    processed; handled at one and the same reading they share the id, and
    the second is reported as processed once the first is marked. The id of
    a session event does not depend on the clock, nor does that of a CI
    event that carries its delivery id. *)
Theorem unassign_id_follows_clock (payload : LinearUnassignWebhook)
    (now1 now2 : N) (stamp : string) (db : DB) :
  let id1 := generateWebhookId now1 (unassignEvent payload) in
  let id2 := generateWebhookId now2 (unassignEvent payload) in
  id1 = "linear-unassign-" ++ un_issueId payload ++ "-" ++ Js.numberToString now1 /\
  (id1 = id2 <-> now1 = now2) /\
  (now1 <> now2 ->
     Sql.isWebhookProcessed (Sql.markWebhookProcessed stamp id1 linear db) id2 linear
     = Sql.isWebhookProcessed db id2 linear) /\
  (now1 = now2 ->
     Sql.isWebhookProcessed db id1 github = false ->
     Sql.isWebhookProcessed (Sql.markWebhookProcessed stamp id1 linear db) id2 linear
     = true) /\
  (forall session,
     generateWebhookId now1 (AgentSessionEvent session)
     = generateWebhookId now2 (AgentSessionEvent session)) /\
  (forall request delivery,
     gr_delivery request = Some delivery -> Js.truthy delivery = true ->
     githubRequestId now1 request = githubRequestId now2 request).
Proof.
  intros id1 id2.
  assert (Hiff : id1 = id2 <-> now1 = now2).
  { subst id1 id2. unfold generateWebhookId, unassignEvent, isUnassignAction.
    change ("issueUnassignedFromYou" =? "issueUnassignedFromYou")%string with true.
    cbv iota. split.
    - intros H. apply (JsFacts.append_inj_l "linear-unassign-") in H.
      apply JsFacts.append_inj_l in H. apply (JsFacts.append_inj_l "-") in H.
      now apply JsFacts.numberToString_inj.
    - now intros ->. }
  split; [reflexivity|]. split; [exact Hiff|]. split; [|split; [|split]].
  - intros Hne. rewrite isWebhookProcessed_after_mark.
    destruct (String.eqb id1 id2) eqn:E.
    + apply String.eqb_eq in E. apply Hiff in E. contradiction.
    + now rewrite andb_false_r, orb_false_r.
  - intros Heq Hother. apply Hiff in Heq. rewrite <- Heq.
    rewrite isWebhookProcessed_after_mark.
    destruct (Sql.isWebhookProcessed db id1 linear) eqn:P; [reflexivity|].
    rewrite String.eqb_refl. cbn [orb WebhookType_eqb].
    rewrite !andb_true_r. apply negb_true_iff.
    destruct (existsb (fun w => String.eqb (pw_webhook_id w) id1)
                (processed_webhooks db)) eqn:X; [|reflexivity].
    apply existsb_exists in X as (w & Hw & Hid).
    unfold Sql.isWebhookProcessed in P, Hother.
    destruct (pw_webhook_type w) eqn:T.
    + assert (C : existsb (fun w => String.eqb (pw_webhook_id w) id1
                                    && WebhookType_eqb (pw_webhook_type w) linear)
                    (processed_webhooks db) = true).
      { apply existsb_exists. exists w. split; [assumption|]. now rewrite Hid, T. }
      congruence.
    + assert (C : existsb (fun w => String.eqb (pw_webhook_id w) id1
                                    && WebhookType_eqb (pw_webhook_type w) github)
                    (processed_webhooks db) = true).
      { apply existsb_exists. exists w. split; [assumption|]. now rewrite Hid, T. }
      congruence.
  - reflexivity.
  - intros request delivery Hd Ht. unfold githubRequestId.
    rewrite Hd. unfold Js.orString at 2 4. now rewrite Ht.
Qed.

(** C10, the claim as stated fails: two deliveries of one unassignment
    handled at the same clock reading get the same id, and the ledger
    reports the second as already processed. *)
Lemma unassign_redelivery_same_reading :
  let first := handleLinearWebhook Scenario.quiet
                 Scenario.unassignRequest [] emptyDB in
  let second := handleLinearWebhook Scenario.quiet
                  Scenario.unassignRequest (emitted first) (store first) in
  generateWebhookId 1000 (unassignEvent Scenario.unassignPayload)
  = "linear-unassign-issue-456-1000" /\
  result first = Ok statusOk /\
  result second = Ok alreadyProcessed /\
  emitted second
  = [EvDb (QIsWebhookProcessed "linear-unassign-issue-456-1000" linear)].
Proof. repeat split; vm_compute; reflexivity. Qed.

End LedgerFacts.

(* ================================================================= *)
(** ** Session events, run on examples (the tests of the repository) *)

Module SessionExamples.
Import Schema Sql Effects Services Handlers Statements.

Example repoMatch_examples :
  repoMatch EmptyString "acme/backend" = Some ("acme", "backend") /\
  repoMatch EmptyString "invalid format" = None /\
  repoMatch EmptyString "please use my-org/my.repo, thanks"
  = Some ("my-org", "my.repo") /\
  repoMatch EmptyString "a/ b/c/d" = Some ("b", "c") /\
  repoMatch EmptyString "https://github.com/acme/backend"
  = Some ("github.com", "acme").
Proof. repeat split; reflexivity. Qed.

(** Scenario A: a session is created for ABC-123 in a configured team with
    no branch of that name: the job is dispatched on the dispatch branch
    [main] with the feature branch [agent/abc-123] among its inputs, and the
    pending trigger records the dispatch branch. *)
Example scenario_A_dispatch :
  let o := handleSessionCreated Scenario.quiet
             (Scenario.sessionPayload "created" EmptyString) [] Scenario.dbWithConfig in
  result o = Ok tt /\
  githubCalls (emitted o)
  = [PostAccessTokens 12345; GetBranches "acme" "backend";
     PostAccessTokens 12345;
     PostDispatch "acme" "backend" "linear-agent.yml" "main"
       [("agent_session_id", "session-123"); ("ticket_id", "ABC-123");
        ("ticket_title", "Add login"); ("ticket_description", EmptyString);
        ("ticket_context", "{}"); ("branch_name", "agent/abc-123")]] /\
  map (fun t => (pt_agent_session_id t, pt_branch_name t, pt_matched_at t))
      (pending_workflow_triggers (store o))
  = [("session-123", "main", None)] /\
  map rl_event_type (run_log (store o)) = ["session_created"; "workflow_trigger"].
Proof. repeat split; vm_compute; reflexivity. Qed.

(** A session created in a team without configuration asks for the
    repository and leaves a PendingConfig. *)
Example unconfigured_team_asks :
  let o := handleSessionCreated Scenario.quiet
             (Scenario.sessionPayload "created" EmptyString) [] emptyDB in
  result o = Ok tt /\
  githubCalls (emitted o) = [] /\
  map pc_agent_session_id (pending_configs (store o)) = ["session-123"] /\
  List.length (activities (emitted o)) = 2%nat.
Proof. repeat split; vm_compute; reflexivity. Qed.

(** The reply [acme/backend] to that question configures the team, deletes
    the PendingConfig and dispatches. *)
Example repository_reply_configures :
  let asked := handleSessionCreated Scenario.quiet
                 (Scenario.sessionPayload "created" EmptyString) [] emptyDB in
  let o := handleSessionPrompted Scenario.quiet
             (Scenario.sessionPayload "prompted" "acme/backend")
             (emitted asked) (store asked) in
  result o = Ok tt /\
  map (fun c => (tc_github_owner c, tc_github_repo c, tc_github_branch c))
      (team_configs (store o))
  = [(Some "acme", Some "backend", "main")] /\
  pending_configs (store o) = [] /\
  map pt_branch_name (pending_workflow_triggers (store o)) = ["main"].
Proof. repeat split; vm_compute; reflexivity. Qed.

(** The keyword router: work before status, and a menu otherwise. *)
Example intent_examples :
  let reply message :=
    activities (emitted (handleSessionPrompted Scenario.quiet
                           (Scenario.sessionPayload "prompted" message)
                           [] Scenario.dbWithConfig)) in
  reply "Please FIX the status page"
  = [Thought "Starting a new implementation...";
     Action "Starting" "Implementation workflow" None] /\
  reply "What's the status?"
  = [Response ("I don't have any active work on this ticket. "
                 ++ "Let me know if you'd like me to implement something!")] /\
  List.length (reply "hello") = 1%nat.
Proof. repeat split; vm_compute; reflexivity. Qed.

End SessionExamples.

(* ================================================================= *)
(** ** The statements on the tables: round trips and frames *)

Module StoreFacts.
Import Schema Sql SqlMore.

Lemma existsb_snoc' {A : Type} (f : A -> bool) (l : list A) (x : A) :
  existsb f (l ++ [x]) = existsb f l || f x.
Proof. rewrite existsb_app. simpl. now rewrite orb_false_r. Qed.

(** X1. Marking a webhook id only ever appends to the ledger: every id
    that was processed stays processed, no other id becomes processed,
    the id itself is reported as processed under the type it was marked
    with (provided no older row holds it under the other type), and marking
    it again, under any type, leaves the table as it is. *)
Theorem ledger_mark_then_check (stamp stamp' id : string) (ty ty' : WebhookType)
    (db : DB) :
  let db' := Sql.markWebhookProcessed stamp id ty db in
  (exists added, processed_webhooks db' = (processed_webhooks db ++ added)%list) /\
  (forall id' ty'', Sql.isWebhookProcessed db id' ty'' = true ->
                    Sql.isWebhookProcessed db' id' ty'' = true) /\
  (forall id' ty'', id' <> id ->
     Sql.isWebhookProcessed db' id' ty'' = Sql.isWebhookProcessed db id' ty'') /\
  ((forall w, In w (processed_webhooks db) -> pw_webhook_id w = id ->
              pw_webhook_type w = ty) ->
   Sql.isWebhookProcessed db' id ty = true) /\
  processed_webhooks (Sql.markWebhookProcessed stamp' id ty' db')
  = processed_webhooks db'.
Proof.
  intros db'. subst db'.
  assert (Hafter : forall id' ty'',
             Sql.isWebhookProcessed (Sql.markWebhookProcessed stamp id ty db) id' ty''
             = Sql.isWebhookProcessed db id' ty''
               || (negb (existsb (fun w => String.eqb (pw_webhook_id w) id)
                           (processed_webhooks db))
                   && String.eqb id id' && WebhookType_eqb ty ty'')).
  { intros. apply LedgerFacts.isWebhookProcessed_after_mark. }
  split; [|split; [|split; [|split]]].
  - unfold Sql.markWebhookProcessed.
    destruct (existsb _ (processed_webhooks db)).
    + exists []. now rewrite app_nil_r.
    + eexists. reflexivity.
  - intros id' ty'' H. rewrite Hafter, H. reflexivity.
  - intros id' ty'' Hne. rewrite Hafter.
    destruct (String.eqb id id') eqn:E.
    + apply String.eqb_eq in E. congruence.
    + now rewrite andb_false_r, orb_false_r.
  - intros Hty. rewrite Hafter, String.eqb_refl.
    destruct (existsb (fun w => String.eqb (pw_webhook_id w) id)
                (processed_webhooks db)) eqn:X.
    + apply existsb_exists in X as (w & Hw & Hid).
      apply String.eqb_eq in Hid.
      assert (C : Sql.isWebhookProcessed db id ty = true).
      { unfold Sql.isWebhookProcessed. apply existsb_exists. exists w.
        split; [assumption|]. rewrite Hid, String.eqb_refl, (Hty w Hw Hid).
        now destruct ty. }
      now rewrite C.
    + cbn. destruct ty; cbn; now rewrite orb_true_r.
  - assert (X : existsb (fun w => String.eqb (pw_webhook_id w) id)
                  (processed_webhooks (Sql.markWebhookProcessed stamp id ty db)) = true).
    { unfold Sql.markWebhookProcessed. cbn.
      destruct (existsb (fun w => String.eqb (pw_webhook_id w) id)
                  (processed_webhooks db)) eqn:X; [exact X|].
      rewrite existsb_snoc'. cbn. rewrite String.eqb_refl. apply orb_true_r. }
    unfold Sql.markWebhookProcessed at 1. cbn [processed_webhooks setProcessedWebhooks].
    now rewrite X.
Qed.


Lemma find_snoc_other {A : Type} (f : A -> bool) (l : list A) (x : A) :
  f x = false -> find f (l ++ [x]) = find f l.
Proof.
  intros Hx. induction l as [|a l IH]; simpl; [now rewrite Hx|].
  destruct (f a); auto.
Qed.

Lemma fold_max_ge (ids : list N) (x : N) : In x ids -> x <= fold_right N.max 0 ids.
Proof.
  induction ids as [|a ids IH]; simpl; [contradiction|].
  intros [->|H]; [lia | specialize (IH H); lia].
Qed.

Lemma nextRowId_fresh (db : DB) (table : string) (ids : list N) :
  ~ In (nextRowId db table ids) ids.
Proof.
  unfold nextRowId. intros H. apply fold_max_ge in H. lia.
Qed.

(** X2. createWorkflowRun and getWorkflowRun round trip. When the insert
    succeeds the run id was free, the row is found under it afterwards,
    it is appended with status 'queued', no conclusion and no pull request,
    under a row id no stored run has, and lookups of other run ids are
    unchanged. When it fails the store is unchanged and a run with that
    github_run_id was already stored. *)
Theorem create_run_then_lookup (now : string) (run : NewWorkflowRun) (db : DB) :
  match Sql.createWorkflowRun now run db with
  | (Ok row, db') =>
      Sql.getWorkflowRun db (nr_githubRunId run) = None /\
      Sql.getWorkflowRun db' (nr_githubRunId run) = Some row /\
      workflow_runs db' = (workflow_runs db ++ [row])%list /\
      wr_status row = queued /\ wr_conclusion row = None /\
      wr_pr_number row = None /\ wr_pr_url row = None /\
      ~ In (wr_id row) (map wr_id (workflow_runs db)) /\
      (forall id, id <> nr_githubRunId run ->
                  Sql.getWorkflowRun db' id = Sql.getWorkflowRun db id)
  | (Throw _, db') =>
      db' = db /\
      exists held, Sql.getWorkflowRun db (nr_githubRunId run) = Some held
  end.
Proof.
  unfold Sql.createWorkflowRun.
  destruct (existsb (fun r => wr_github_run_id r =? nr_githubRunId run)
              (workflow_runs db)) eqn:X.
  - split; [reflexivity|]. unfold Sql.getWorkflowRun.
    destruct (find _ (workflow_runs db)) as [held|] eqn:F; [now exists held|].
    apply SqlFacts.find_none_existsb in F. congruence.
  - assert (F : Sql.getWorkflowRun db (nr_githubRunId run) = None).
    { unfold Sql.getWorkflowRun.
      destruct (find _ (workflow_runs db)) as [held|] eqn:F; [|reflexivity].
      apply find_some in F as [HIn Hid].
      assert (C : existsb (fun r => wr_github_run_id r =? nr_githubRunId run)
                    (workflow_runs db) = true)
        by (apply existsb_exists; eauto).
      congruence. }
    cbv zeta. repeat split; try assumption.
    + unfold Sql.getWorkflowRun in *. cbn.
      apply SqlFacts.find_app_none; [assumption | cbn; apply N.eqb_refl].
    + cbn. apply nextRowId_fresh.
    + intros id Hne. unfold Sql.getWorkflowRun. cbn.
      apply find_snoc_other. cbn. now apply N.eqb_neq, not_eq_sym.
Qed.

(** X3. updateWorkflowRun never changes what a run is bound to (row id,
    github_run_id, session, issue, branch, creation time), never adds or
    removes a run, leaves runs with another github_run_id as they are, is a
    no-op when no run has the id, and leaves the triggers, the RunLog and
    the ledger alone. *)
Theorem update_touches_one_run (now : string) (githubRunId : N)
    (updates : RunUpdates) (db : DB) :
  let db' := Sql.updateWorkflowRun now githubRunId updates db in
  map (fun r => (wr_id r, wr_github_run_id r, wr_agent_session_id r,
                 wr_linear_issue_id r, wr_branch_name r, wr_created_at r))
      (workflow_runs db')
  = map (fun r => (wr_id r, wr_github_run_id r, wr_agent_session_id r,
                   wr_linear_issue_id r, wr_branch_name r, wr_created_at r))
        (workflow_runs db) /\
  (forall id, id <> githubRunId ->
              Sql.getWorkflowRun db' id = Sql.getWorkflowRun db id) /\
  (Sql.getWorkflowRun db githubRunId = None -> db' = db) /\
  (forall run, Sql.getWorkflowRun db githubRunId = Some run ->
               Sql.getWorkflowRun db' githubRunId
               = Some (applyRunUpdates now updates run)) /\
  pending_workflow_triggers db' = pending_workflow_triggers db /\
  run_log db' = run_log db /\ processed_webhooks db' = processed_webhooks db.
Proof.
  intros db'. subst db'. unfold Sql.updateWorkflowRun, Sql.getWorkflowRun. cbn.
  split; [|split; [|split; [|split]]].
  - rewrite map_map. apply map_ext. intros r.
    now destruct (wr_github_run_id r =? githubRunId).
  - intros id Hne. induction (workflow_runs db) as [|r rows IH]; [reflexivity|].
    cbn. destruct (wr_github_run_id r =? githubRunId) eqn:E; cbn.
    + apply N.eqb_eq in E. rewrite E.
      destruct (githubRunId =? id) eqn:E'; [apply N.eqb_eq in E'; congruence|].
      exact IH.
    + destruct (wr_github_run_id r =? id); [reflexivity | exact IH].
  - intros Hnone. destruct db as [tc gi runs pw pt pc rl sq]. cbn in *.
    unfold setWorkflowRuns. cbn. f_equal.
    induction runs as [|r rows IH]; [reflexivity|]. cbn in *.
    destruct (wr_github_run_id r =? githubRunId); [discriminate|].
    f_equal. now apply IH.
  - intros run Hrun. rewrite RunFacts.find_map_run. unfold Sql.getWorkflowRun in Hrun.
    now rewrite Hrun.
  - auto.
Qed.

Lemma getActiveWorkflowRunByIssue_some (db : DB) (linearIssueId : string)
    (run : WorkflowRun) :
  Sql.getActiveWorkflowRunByIssue db linearIssueId = Some run ->
  In run (workflow_runs db) /\
  wr_linear_issue_id run = linearIssueId /\
  wr_status run <> completed /\
  forall other, In other (workflow_runs db) ->
                wr_linear_issue_id other = linearIssueId ->
                wr_status other <> completed ->
                String.leb (wr_created_at other) (wr_created_at run) = true.
Proof.
  unfold Sql.getActiveWorkflowRunByIssue. intros L.
  pose proof (SqlFacts.latest_In _ _ _ L) as HIn.
  apply filter_In in HIn as [HIn Hc]. apply andb_prop in Hc as [Hi Hs].
  apply String.eqb_eq in Hi. repeat split; try assumption.
  - intros C. rewrite C in Hs. discriminate.
  - intros other HIn' Hi' Hs'. apply (SqlFacts.latest_max _ _ _ L).
    apply filter_In. split; [assumption|].
    rewrite Hi', String.eqb_refl. now destruct (wr_status other).
Qed.

(** X4. getActiveWorkflowRunByIssue returns a stored run of the issue
    that is not completed and whose created_at is not before that of any
    other unfinished run of the issue; it returns nothing exactly when
    every run of the issue is completed. *)
Theorem active_run_is_latest_unfinished (db : DB) (linearIssueId : string) :
  match Sql.getActiveWorkflowRunByIssue db linearIssueId with
  | Some run =>
      In run (workflow_runs db) /\
      wr_linear_issue_id run = linearIssueId /\
      wr_status run <> completed /\
      forall other, In other (workflow_runs db) ->
                    wr_linear_issue_id other = linearIssueId ->
                    wr_status other <> completed ->
                    String.leb (wr_created_at other) (wr_created_at run) = true
  | None =>
      forall run, In run (workflow_runs db) ->
                  wr_linear_issue_id run = linearIssueId ->
                  wr_status run = completed
  end.
Proof.
  destruct (Sql.getActiveWorkflowRunByIssue db linearIssueId) as [run|] eqn:L.
  - now apply getActiveWorkflowRunByIssue_some.
  - unfold Sql.getActiveWorkflowRunByIssue in L.
    apply SqlFacts.latest_none in L. intros run HIn Hi.
    destruct (RunStatus_eqb (wr_status run) completed) eqn:S.
    + now destruct (wr_status run).
    + assert (HF : In run (filter
                   (fun r => String.eqb (wr_linear_issue_id r) linearIssueId
                             && negb (RunStatus_eqb (wr_status r) completed))
                   (workflow_runs db))).
      { apply filter_In. split; [assumption|]. now rewrite Hi, String.eqb_refl, S. }
      rewrite L in HF. contradiction.
Qed.

Lemma createPendingWorkflowTrigger_row (now : string) (trigger : NewTrigger) (db : DB) :
  exists row,
    pending_workflow_triggers (Sql.createPendingWorkflowTrigger now trigger db)
    = (filter (fun t => negb (String.eqb (pt_agent_session_id t)
                                (nt_agentSessionId trigger)))
              (pending_workflow_triggers db) ++ [row])%list /\
    pt_agent_session_id row = nt_agentSessionId trigger /\
    pt_linear_issue_id row = nt_linearIssueId trigger /\
    pt_linear_issue_identifier row = Js.orNull (nt_linearIssueIdentifier trigger) /\
    pt_github_owner row = nt_githubOwner trigger /\
    pt_github_repo row = nt_githubRepo trigger /\
    pt_branch_name row = nt_branchName trigger /\
    pt_matched_at row = None /\
    ~ In (pt_id row) (map pt_id (pending_workflow_triggers db)).
Proof.
  unfold Sql.createPendingWorkflowTrigger. cbv zeta.
  eexists. cbn [pending_workflow_triggers setPendingWorkflowTriggers].
  split.
  { f_equal. apply filter_ext. intros t.
    destruct (pt_workflow_type t), (nt_workflowType trigger). cbn.
    now rewrite andb_true_r. }
  cbn. repeat split. apply nextRowId_fresh.
Qed.

(** X5. createPendingWorkflowTrigger replaces the trigger of the session:
    afterwards exactly one trigger of that session is stored, the new one,
    unmatched and under a row id no trigger had; triggers of other sessions
    are kept in order; and a lookup by the new trigger's owner, repository
    and branch finds a trigger. *)
Theorem trigger_replaces_session_row (now : string) (trigger : NewTrigger) (db : DB) :
  let db' := Sql.createPendingWorkflowTrigger now trigger db in
  exists row,
    pending_workflow_triggers db'
    = (filter (fun t => negb (String.eqb (pt_agent_session_id t)
                                (nt_agentSessionId trigger)))
              (pending_workflow_triggers db) ++ [row])%list /\
    pt_agent_session_id row = nt_agentSessionId trigger /\
    pt_linear_issue_id row = nt_linearIssueId trigger /\
    pt_github_owner row = nt_githubOwner trigger /\
    pt_github_repo row = nt_githubRepo trigger /\
    pt_branch_name row = nt_branchName trigger /\
    pt_matched_at row = None /\
    ~ In (pt_id row) (map pt_id (pending_workflow_triggers db)) /\
    (forall t, In t (pending_workflow_triggers db') ->
               pt_agent_session_id t = nt_agentSessionId trigger -> t = row) /\
    exists found,
      Sql.matchPendingWorkflowTrigger db' (nt_githubOwner trigger)
        (nt_githubRepo trigger) (nt_branchName trigger) = Some found.
Proof.
  intros db'. subst db'.
  destruct (createPendingWorkflowTrigger_row now trigger db)
    as (row & Hrows & Hs & Hi & _ & Ho & Hr & Hb & Hm & Hfresh).
  exists row. repeat (split; [assumption|]). split.
  - intros t HIn Ht. rewrite Hrows in HIn.
    apply in_app_or in HIn as [HIn|[<-|[]]]; [|reflexivity].
    apply filter_In in HIn as [_ Hc]. rewrite Ht, String.eqb_refl in Hc.
    discriminate.
  - unfold Sql.matchPendingWorkflowTrigger. rewrite Hrows.
    destruct (latest _ _) as [found|] eqn:L; [now exists found|].
    apply SqlFacts.latest_none in L.
    rewrite filter_app in L. apply app_eq_nil in L as [_ L].
    cbn in L. unfold triggerCandidate in L.
    rewrite Ho, Hr, Hb, Hm, !String.eqb_refl in L. discriminate.
Qed.

(** X6. markPendingWorkflowMatched keeps the triggers' row ids, stamps
    the trigger with the given id as matched, and that trigger is never
    again returned by matchPendingWorkflowTrigger, whatever repository and
    branch are asked for: a trigger that is returned was stored unmatched
    before and has another id. *)
Theorem matched_trigger_not_matched_again (now : string) (id : N) (db : DB)
    (githubOwner githubRepo branchName : string) :
  let db' := Sql.markPendingWorkflowMatched now id db in
  map pt_id (pending_workflow_triggers db') = map pt_id (pending_workflow_triggers db) /\
  (forall t, In t (pending_workflow_triggers db') -> pt_id t = id ->
             pt_matched_at t = Some now) /\
  match Sql.matchPendingWorkflowTrigger db' githubOwner githubRepo branchName with
  | Some t => pt_id t <> id /\ In t (pending_workflow_triggers db) /\
              pt_matched_at t = None
  | None => True
  end.
Proof.
  intros db'. subst db'. unfold Sql.markPendingWorkflowMatched.
  cbn [pending_workflow_triggers setPendingWorkflowTriggers].
  split; [|split].
  - rewrite map_map. apply map_ext. intros t. now destruct (pt_id t =? id).
  - intros t HIn Hid. apply in_map_iff in HIn as (t0 & <- & _).
    destruct (pt_id t0 =? id) eqn:E; [reflexivity|].
    apply N.eqb_neq in E. contradiction.
  - destruct (Sql.matchPendingWorkflowTrigger _ _ _ _) as [t|] eqn:M; [|exact I].
    apply SqlFacts.matchPendingWorkflowTrigger_some in M
      as (HIn & _ & _ & _ & Hnull & _).
    cbn [pending_workflow_triggers setPendingWorkflowTriggers] in HIn.
    apply in_map_iff in HIn as (t0 & Ht & HIn0).
    destruct (pt_id t0 =? id) eqn:E.
    + subst t. discriminate Hnull.
    + subst t. apply N.eqb_neq in E. auto.
Qed.

Lemma find_filter_out (rows : list PendingConfig) (session : string) :
  find (fun c => String.eqb (pc_agent_session_id c) session)
    (filter (fun c => negb (String.eqb (pc_agent_session_id c) session)) rows)
  = None.
Proof.
  induction rows as [|c rows IH]; [reflexivity|]. cbn.
  destruct (String.eqb (pc_agent_session_id c) session) eqn:E; cbn; [exact IH|].
  now rewrite E.
Qed.

Lemma getPendingConfig_created (now : string) (config : NewPendingConfig) (db : DB) :
  exists row,
    Sql.getPendingConfig (Sql.createPendingConfig now config db)
      (npc_agentSessionId config) = Some row /\
    pc_linear_workspace_id row = npc_linearWorkspaceId config /\
    pc_linear_team_id row = npc_linearTeamId config /\
    pc_pending_issue_id row = npc_pendingIssueId config /\
    pc_pending_issue_identifier row = npc_pendingIssueIdentifier config.
Proof.
  eexists. unfold Sql.getPendingConfig, Sql.createPendingConfig. cbn.
  split; [apply SqlFacts.find_app_none; [apply find_filter_out | cbn; apply String.eqb_refl]|].
  repeat split.
Qed.

Lemma getPendingConfig_deleted (session : string) (db : DB) :
  Sql.getPendingConfig (Sql.deletePendingConfig session db) session = None.
Proof. unfold Sql.getPendingConfig, Sql.deletePendingConfig. cbn. apply find_filter_out. Qed.

(** X7. createPendingConfig, getPendingConfig and deletePendingConfig
    round trip: after the creation the session has exactly one pending
    configuration, with the workspace, team and issue given; after the
    deletion it has none; and neither statement changes what another
    session's lookup returns. *)
Theorem pending_config_round_trip (now : string) (config : NewPendingConfig)
    (db : DB) :
  let session := npc_agentSessionId config in
  let db' := Sql.createPendingConfig now config db in
  (exists row,
     Sql.getPendingConfig db' session = Some row /\
     pc_linear_workspace_id row = npc_linearWorkspaceId config /\
     pc_linear_team_id row = npc_linearTeamId config /\
     pc_pending_issue_id row = npc_pendingIssueId config /\
     pc_pending_issue_identifier row = npc_pendingIssueIdentifier config) /\
  List.length (filter (fun c => String.eqb (pc_agent_session_id c) session)
                 (pending_configs db')) = 1%nat /\
  Sql.getPendingConfig (Sql.deletePendingConfig session db') session = None /\
  (forall other, other <> session ->
     Sql.getPendingConfig db' other = Sql.getPendingConfig db other /\
     Sql.getPendingConfig (Sql.deletePendingConfig session db) other
     = Sql.getPendingConfig db other).
Proof.
  intros session db'. subst session db'.
  assert (Hfilter : forall rows s,
             filter (fun c => String.eqb (pc_agent_session_id c) s)
               (filter (fun c => negb (String.eqb (pc_agent_session_id c) s)) rows)
             = []).
  { intros rows s. induction rows as [|c rows IH]; [reflexivity|]. cbn.
    destruct (String.eqb (pc_agent_session_id c) s) eqn:E; cbn; [exact IH|].
    now rewrite E. }
  assert (Hother : forall rows s other, other <> s ->
             find (fun c => String.eqb (pc_agent_session_id c) other)
               (filter (fun c => negb (String.eqb (pc_agent_session_id c) s)) rows)
             = find (fun c => String.eqb (pc_agent_session_id c) other) rows).
  { intros rows s other Hne. induction rows as [|c rows IH]; [reflexivity|]. cbn.
    destruct (String.eqb (pc_agent_session_id c) s) eqn:E; cbn.
    - apply String.eqb_eq in E. rewrite E.
      destruct (String.eqb s other) eqn:E'; [|exact IH].
      apply String.eqb_eq in E'. congruence.
    - destruct (String.eqb (pc_agent_session_id c) other); [reflexivity | exact IH]. }
  split; [apply getPendingConfig_created|]. split; [|split].
  - unfold Sql.createPendingConfig. cbn.
    rewrite filter_app, Hfilter. cbn. now rewrite String.eqb_refl.
  - apply getPendingConfig_deleted.
  - intros other Hne. unfold Sql.getPendingConfig, Sql.deletePendingConfig,
      Sql.createPendingConfig. cbn. split.
    + rewrite find_snoc_other; [now apply Hother|].
      cbn. apply String.eqb_neq. congruence.
    + now apply Hother.
Qed.

Lemma installation_held (installationId : N) (rows : list GitHubInstallation) :
  existsb (fun i => gi_installation_id i =? installationId) rows = false <->
  find (fun i => gi_installation_id i =? installationId) rows = None.
Proof.
  induction rows as [|i rows IH]; cbn; [tauto|].
  destruct (gi_installation_id i =? installationId); cbn; [|exact IH].
  split; discriminate.
Qed.

Lemma getGitHubInstallation_upserted (now : string) (installationId : N)
    (accountLogin accountType : string) (db : DB) :
  exists row,
    getGitHubInstallation
      (Sql.upsertGitHubInstallation now installationId accountLogin accountType db)
      installationId = Some row /\
    gi_account_login row = accountLogin /\ gi_account_type row = accountType /\
    forall held, getGitHubInstallation db installationId = Some held ->
                 gi_id row = gi_id held /\ gi_created_at row = gi_created_at held.
Proof.
  unfold getGitHubInstallation, Sql.upsertGitHubInstallation,
    Sql.createGitHubInstallation.
  destruct (existsb _ (github_installations db)) eqn:X; cbn.
  - induction (github_installations db) as [|i rows IH]; cbn in *; [discriminate|].
    destruct (gi_installation_id i =? installationId) eqn:E; cbn.
    + rewrite E. eexists. split; [reflexivity|]. cbn.
      repeat split; injection H as <-; reflexivity.
    + rewrite E. apply IH. exact X.
  - apply installation_held in X. eexists. split.
    + apply SqlFacts.find_app_none; [exact X | cbn; apply N.eqb_refl].
    + cbn. repeat split; congruence.
Qed.

(** X8. upsertGitHubInstallation makes the installation findable with the
    account given; when it was already stored, the row keeps its row id and
    creation time. Other installations are untouched, a second identical
    upsert leaves the table as it is, and a plain createGitHubInstallation
    of the same id now throws, leaving the store unchanged. *)
Theorem upsert_installation_never_fails (now now' : string) (installationId : N)
    (accountLogin accountType : string) (db : DB) :
  let db' := Sql.upsertGitHubInstallation now installationId accountLogin
               accountType db in
  (exists row,
     getGitHubInstallation db' installationId = Some row /\
     gi_account_login row = accountLogin /\ gi_account_type row = accountType /\
     forall held, getGitHubInstallation db installationId = Some held ->
                  gi_id row = gi_id held /\ gi_created_at row = gi_created_at held) /\
  (forall other, other <> installationId ->
     getGitHubInstallation db' other = getGitHubInstallation db other) /\
  github_installations
    (Sql.upsertGitHubInstallation now' installationId accountLogin accountType db')
  = github_installations db' /\
  exists error,
    Sql.createGitHubInstallation now' installationId accountLogin accountType db'
    = (Throw error, db').
Proof.
  intros db'.
  destruct (getGitHubInstallation_upserted now installationId accountLogin
              accountType db) as (row & Hrow & Hlogin & Htype & Hkept).
  fold db' in Hrow.
  assert (Hheld : existsb (fun i => gi_installation_id i =? installationId)
                    (github_installations db') = true).
  { destruct (existsb _ (github_installations db')) eqn:X; [reflexivity|].
    apply installation_held in X. unfold getGitHubInstallation in Hrow. congruence. }
  split; [exists row; auto|]. split; [|split].
  - intros other Hne. subst db'.
    unfold getGitHubInstallation, Sql.upsertGitHubInstallation,
      Sql.createGitHubInstallation.
    destruct (existsb _ (github_installations db)) eqn:X; cbn.
    + clear X Hkept. induction (github_installations db) as [|i rows IH]; [reflexivity|].
      cbn. destruct (gi_installation_id i =? installationId) eqn:E; cbn.
      * apply N.eqb_eq in E. rewrite E.
        destruct (installationId =? other) eqn:E'; [|exact IH].
        apply N.eqb_eq in E'. congruence.
      * destruct (gi_installation_id i =? other); [reflexivity | exact IH].
    + apply find_snoc_other. cbn. apply N.eqb_neq. congruence.
  - unfold Sql.upsertGitHubInstallation at 1. rewrite Hheld.
    cbn [github_installations setGitHubInstallations].
    assert (Hrows : forall i, In i (github_installations db') ->
              gi_installation_id i = installationId ->
              gi_account_login i = accountLogin /\ gi_account_type i = accountType).
    { subst db'. unfold Sql.upsertGitHubInstallation, Sql.createGitHubInstallation.
      destruct (existsb _ (github_installations db)) eqn:X; cbn.
      - intros i HIn Hid. apply in_map_iff in HIn as (i0 & <- & _).
        destruct (gi_installation_id i0 =? installationId) eqn:E; cbn; [auto|].
        apply N.eqb_neq in E. contradiction.
      - intros i HIn Hid. apply in_app_or in HIn as [HIn|[<-|[]]]; [|cbn; auto].
        assert (C : existsb (fun i => gi_installation_id i =? installationId)
                      (github_installations db) = true).
        { apply existsb_exists. exists i. split; [assumption|].
          now apply N.eqb_eq. }
        congruence. }
    clearbody db'. clear Hrow Hheld Hkept.
    destruct db' as [tc gi runs pw pt pc rl sq]. cbn in *.
    induction gi as [|i gi IH]; [reflexivity|]. cbn.
    f_equal.
    + destruct (gi_installation_id i =? installationId) eqn:E; [|reflexivity].
      apply N.eqb_eq in E. destruct (Hrows i (or_introl eq_refl) E) as [<- <-].
      now destruct i.
    + apply IH. intros j Hj. apply Hrows. now right.
  - unfold Sql.createGitHubInstallation. rewrite Hheld. eexists. reflexivity.
Qed.

End StoreFacts.

(* ================================================================= *)
(** ** escapeHtml *)

Module HtmlFacts.
Import Html TextStatements.

Lemma replaceAll_app (c : ascii) (r a b : string) :
  replaceAll c r (a ++ b) = replaceAll c r a ++ replaceAll c r b.
Proof.
  induction a as [|x a IH]; cbn; [reflexivity|].
  now rewrite IH, JsFacts.append_assoc.
Qed.

Lemma escapeHtml_cons (c : ascii) (s : string) :
  escapeHtml (String c s) = escapeChar c ++ escapeHtml s.
Proof.
  unfold escapeHtml. cbn [replaceAll]. rewrite !replaceAll_app. f_equal.
  destruct c as [[] [] [] [] [] [] [] []]; reflexivity.
Qed.

Lemma escapeHtml_each (s : string) : escapeHtml s = escapeEach s.
Proof.
  induction s as [|c s IH]; [reflexivity|].
  rewrite escapeHtml_cons, IH. reflexivity.
Qed.

Lemma allChars_app (p : ascii -> bool) (a b : string) :
  allChars p (a ++ b) = allChars p a && allChars p b.
Proof.
  unfold allChars. induction a as [|x a IH]; cbn; [reflexivity|].
  now rewrite IH, andb_assoc.
Qed.

Lemma escapeChar_clean (c : ascii) :
  allChars (fun x => negb (markupChar x)) (escapeChar c) = true.
Proof. destruct c as [[] [] [] [] [] [] [] []]; reflexivity. Qed.

Lemma escapeChar_cases (c : ascii) :
  (escapeChar c = String c EmptyString /\ c <> "&"%char)
  \/ (c = "&"%char /\ escapeChar c = "&amp;")
  \/ (c = "<"%char /\ escapeChar c = "&lt;")
  \/ (c = ">"%char /\ escapeChar c = "&gt;")
  \/ (c = "034"%char /\ escapeChar c = "&quot;")
  \/ (c = "'"%char /\ escapeChar c = "&#039;").
Proof.
  unfold escapeChar.
  destruct (Ascii.eqb_spec c "&"); [subst; auto|].
  destruct (Ascii.eqb_spec c "<"); [subst; auto 6|].
  destruct (Ascii.eqb_spec c ">"); [subst; auto 6|].
  destruct (Ascii.eqb_spec c "034"); [subst; auto 7|].
  destruct (Ascii.eqb_spec c "'"); [subst; auto 8|].
  auto.
Qed.

Lemma escapeChar_inj (c d : ascii) (a b : string) :
  escapeChar c ++ a = escapeChar d ++ b -> c = d /\ a = b.
Proof.
  destruct (escapeChar_cases c) as [[-> Hc]|[[-> ->]|[[-> ->]|[[-> ->]|[[-> ->]|[-> ->]]]]]];
  destruct (escapeChar_cases d) as [[-> Hd]|[[-> ->]|[[-> ->]|[[-> ->]|[[-> ->]|[-> ->]]]]]];
    cbn; intros H; inversion H; subst; auto; congruence.
Qed.

Lemma escapeEach_inj (s t : string) : escapeEach s = escapeEach t -> s = t.
Proof.
  revert t. induction s as [|c s IH]; intros [|d t]; cbn; intros H.
  - reflexivity.
  - destruct (escapeChar_cases d) as [[E _]|[[_ E]|[[_ E]|[[_ E]|[[_ E]|[_ E]]]]]];
      rewrite E in H; discriminate.
  - destruct (escapeChar_cases c) as [[E _]|[[_ E]|[[_ E]|[[_ E]|[[_ E]|[_ E]]]]]];
      rewrite E in H; discriminate.
  - apply escapeChar_inj in H as [-> H]. f_equal. now apply IH.
Qed.

Lemma escapeHtml_clean (str : string) :
  allChars (fun c => negb (markupChar c)) (escapeHtml str) = true.
Proof.
  rewrite escapeHtml_each. induction str as [|c s IH]; [reflexivity|].
  cbn [escapeEach]. now rewrite allChars_app, escapeChar_clean, IH.
Qed.

(** X9. escapeHtml, five chained replacements, is the character-wise
    escaping (the later replacements do not touch what the earlier ones
    produced); its result holds none of the characters <, >, double quote
    and single quote; text without any of the five special characters is
    returned as it is; and two different texts never escape to the same
    text. *)
Theorem escape_html_safe_and_lossless (str : string) :
  escapeHtml str = escapeEach str /\
  allChars (fun c => negb (markupChar c)) (escapeHtml str) = true /\
  (allChars (fun c => negb (markupChar c || Ascii.eqb c "&")) str = true ->
   escapeHtml str = str) /\
  (forall other, escapeHtml other = escapeHtml str -> other = str).
Proof.
  split; [apply escapeHtml_each|]. split; [|split].
  - apply escapeHtml_clean.
  - rewrite escapeHtml_each. induction str as [|c s IH]; [reflexivity|].
    unfold allChars in *. cbn [list_ascii_of_string forallb escapeEach].
    intros H. apply andb_prop in H as [Hc Hs].
    rewrite (IH Hs).
    destruct (escapeChar_cases c) as [[E _]|[[E _]|[[E _]|[[E _]|[[E _]|[E _]]]]]];
      [now rewrite E | subst c; discriminate Hc ..].
  - intros other H. rewrite !escapeHtml_each in H. now apply escapeEach_inj.
Qed.

End HtmlFacts.

(* ================================================================= *)
(** ** The pattern of a repository reply *)

Module RepoFacts.
Import Handlers TextStatements.

Lemma repoRun_class (s : string) : allChars repoChar (repoRun s) = true.
Proof.
  unfold allChars. induction s as [|c s IH]; cbn; [reflexivity|].
  destruct (repoChar c) eqn:E; cbn; [now rewrite E | reflexivity].
Qed.

Lemma repoRun_split (s : string) :
  exists rest, s = repoRun s ++ rest /\
               match rest with
               | EmptyString => True
               | String c _ => repoChar c = false
               end.
Proof.
  induction s as [|c s (rest & E & H)].
  - exists EmptyString. split; [reflexivity | exact I].
  - cbn. destruct (repoChar c) eqn:C.
    + exists rest. cbn. split; [now rewrite <- E | exact H].
    + exists (String c s). cbn. split; [reflexivity | exact C].
Qed.

Lemma repoRun_whole (r rest : string) :
  allChars repoChar r = true ->
  match rest with EmptyString => True | String c _ => repoChar c = false end ->
  repoRun (r ++ rest) = r.
Proof.
  unfold allChars. induction r as [|c r IH]; cbn.
  - intros _ H. destruct rest as [|c rest]; cbn; [reflexivity | now rewrite H].
  - intros H Hrest. apply andb_prop in H as [Hc Hr]. rewrite Hc.
    f_equal. now apply IH.
Qed.

Lemma truthy_app_r (a b : string) : Js.truthy b = true -> Js.truthy (a ++ b) = true.
Proof. destruct a; [auto | reflexivity]. Qed.

(** Scanning a string of the class only extends the run. *)
Lemma repoMatch_scan (o : string) : forall run s,
  allChars repoChar o = true ->
  repoMatch run (o ++ s) = repoMatch (run ++ o) s.
Proof.
  unfold allChars. induction o as [|c o IH]; intros run s H; cbn.
  - f_equal. induction run; cbn; congruence.
  - cbn in H. apply andb_prop in H as [Hc Ho]. rewrite Hc, (IH _ _ Ho).
    f_equal. now rewrite JsFacts.append_assoc.
Qed.

Lemma lastChar_app (a : string) (c : ascii) (b : string) :
  lastChar (a ++ String c b) = lastChar (String c b).
Proof.
  induction a as [|x a IH]; [reflexivity|].
  cbn [append lastChar]. destruct (a ++ String c b) eqn:E; [|exact IH].
  destruct a; discriminate.
Qed.

Lemma endsOutside_app (a : string) (c : ascii) (b : string) :
  repoChar c = false -> endsOutside b = true -> endsOutside (a ++ String c b) = true.
Proof.
  unfold endsOutside. intros Hc Hb. rewrite lastChar_app.
  cbn [lastChar]. destruct b as [|x b]; [now rewrite Hc | exact Hb].
Qed.

Lemma allChars_snoc (run : string) (c : ascii) :
  allChars repoChar run = true -> repoChar c = true ->
  allChars repoChar (run ++ String c EmptyString) = true.
Proof.
  intros Hr Hc. rewrite HtmlFacts.allChars_app, Hr. unfold allChars. cbn.
  now rewrite Hc.
Qed.

Lemma repoRun_prefix_falsy (a b : string) :
  Js.truthy (repoRun (a ++ b)) = false -> Js.truthy (repoRun a) = false.
Proof.
  destruct a as [|c a]; [reflexivity|]. cbn. now destruct (repoChar c).
Qed.

Lemma append_nil_r (s : string) : s ++ EmptyString = s.
Proof. induction s; cbn; congruence. Qed.

Lemma slash_char (c : ascii) : (N_of_ascii c =? 47) = true -> c = "/"%char.
Proof.
  intros K. apply N.eqb_eq in K. rewrite <- (ascii_N_embedding c), K. reflexivity.
Qed.

(** What a match is, with the run read so far in front of the text. *)
Lemma repoMatch_sound (s : string) : forall run o r,
  allChars repoChar run = true ->
  repoMatch run s = Some (o, r) ->
  Js.truthy o = true /\ Js.truthy r = true /\
  allChars repoChar o = true /\ allChars repoChar r = true /\
  exists before front after,
    s = front ++ "/" ++ r ++ after /\
    run ++ front = before ++ o /\
    endsOutside before = true /\ classStops after = true /\
    repoMatch run front = None.
Proof.
  induction s as [|c s IH]; intros run o r Hrun H; cbn in H; [discriminate|].
  destruct (repoChar c) eqn:C.
  - destruct (IH (run ++ String c EmptyString) o r (allChars_snoc _ _ Hrun C) H)
      as (To & Tr & Co & Cr & before & front & after & Es & Er & Hb & Ha & Hn).
    repeat (split; [assumption|]).
    exists before, (String c front), after. cbn. rewrite C.
    repeat split; try assumption.
    + now rewrite Es.
    + rewrite <- Er. now rewrite JsFacts.append_assoc.
  - destruct ((N_of_ascii c =? 47) && Js.truthy run && Js.truthy (repoRun s)) eqn:K.
    + injection H as <- <-.
      apply andb_prop in K as [K Tr]. apply andb_prop in K as [K To].
      apply slash_char in K. subst c.
      destruct (repoRun_split s) as (rest & Es & Hrest).
      split; [assumption|]. split; [assumption|]. split; [assumption|].
      split; [apply repoRun_class|].
      exists EmptyString, EmptyString, rest. cbn.
      repeat split.
      * now rewrite <- Es.
      * apply append_nil_r.
      * unfold classStops. destruct rest; [reflexivity | now rewrite Hrest].
    + destruct (IH EmptyString o r eq_refl H)
        as (To & Tr & Co & Cr & before & front & after & Es & Er & Hb & Ha & Hn).
      repeat (split; [assumption|]).
      exists (run ++ String c before), (String c front), after.
      repeat split; try assumption.
      * cbn. now rewrite Es.
      * cbn in Er. rewrite JsFacts.append_assoc. cbn. now rewrite <- Er.
      * now apply endsOutside_app.
      * cbn. rewrite C.
        destruct ((N_of_ascii c =? 47) && Js.truthy run) eqn:K'; cbn [andb] in *.
        -- rewrite Es in K. apply repoRun_prefix_falsy in K. now rewrite K.
        -- exact Hn.
Qed.

(** A text that holds [o/r], both in the class and not empty, has a match. *)
Lemma repoMatch_complete (before : string) : forall run o r after,
  Js.truthy o = true -> Js.truthy r = true ->
  allChars repoChar o = true -> allChars repoChar r = true ->
  repoMatch run (before ++ o ++ "/" ++ r ++ after) <> None.
Proof.
  induction before as [|c before IH]; intros run o r after To Tr Co Cr.
  - cbn [append]. rewrite (repoMatch_scan o run _ Co). cbn.
    rewrite (truthy_app_r run o To).
    destruct r as [|x r]; [discriminate|].
    unfold allChars in Cr. cbn in Cr. apply andb_prop in Cr as [Cx _].
    cbn. rewrite Cx. cbn. discriminate.
  - cbn. destruct (repoChar c); [now apply IH|].
    destruct ((N_of_ascii c =? 47) && Js.truthy run && Js.truthy _);
      [discriminate | now apply IH].
Qed.

(** X10. The pattern handleConfigResponse applies to the user's reply.
    When it matches, owner and repository are non-empty runs of letters,
    digits, '_', '.' and '-', the message reads before ++ owner ++ "/" ++
    repository ++ after with owner and repository maximal, and no match
    ends earlier. It fails exactly when the message holds no such
    owner/repository occurrence. On a message that is exactly
    owner/repository it returns that pair. *)
Theorem repository_reply_parsed (userMessage : string) :
  match repoMatch EmptyString userMessage with
  | Some (owner, repo) =>
      Js.truthy owner = true /\ Js.truthy repo = true /\
      allChars repoChar owner = true /\ allChars repoChar repo = true /\
      exists before after,
        userMessage = before ++ owner ++ "/" ++ repo ++ after /\
        endsOutside before = true /\ classStops after = true /\
        repoMatch EmptyString (before ++ owner) = None
  | None =>
      forall before owner repo after,
        Js.truthy owner = true -> Js.truthy repo = true ->
        allChars repoChar owner = true -> allChars repoChar repo = true ->
        userMessage <> before ++ owner ++ "/" ++ repo ++ after
  end /\
  (forall owner repo,
     Js.truthy owner = true -> Js.truthy repo = true ->
     allChars repoChar owner = true -> allChars repoChar repo = true ->
     repoMatch EmptyString (owner ++ "/" ++ repo) = Some (owner, repo)).
Proof.
  split.
  - destruct (repoMatch EmptyString userMessage) as [[owner repo]|] eqn:M.
    + destruct (repoMatch_sound userMessage EmptyString owner repo eq_refl M)
        as (To & Tr & Co & Cr & before & front & after & Es & Er & Hb & Ha & Hn).
      repeat (split; [assumption|]).
      exists before, after. cbn in Er. subst front.
      repeat split; try assumption.
      now rewrite Es, JsFacts.append_assoc.
    + intros before owner repo after To Tr Co Cr E.
      apply (repoMatch_complete before EmptyString owner repo after To Tr Co Cr).
      now rewrite <- E.
  - intros owner repo To Tr Co Cr.
    rewrite (repoMatch_scan owner EmptyString _ Co). cbn.
    pose proof (repoRun_whole repo EmptyString Cr I) as W.
    rewrite append_nil_r in W. now rewrite To, W, Tr.
Qed.

End RepoFacts.

(* ================================================================= *)
(** ** What a request can do to the store *)

Module FrameFacts.
Import Schema Sql Effects Services Handlers Frames.

#[export] Instance keeps_refl {T} (f : DB -> T) : Reflexive (keeps f).
Proof. intros db. reflexivity. Qed.

#[export] Instance keeps_trans {T} (f : DB -> T) : Transitive (keeps f).
Proof. unfold keeps. intros a b c H1 H2. congruence. Qed.

#[export] Instance extends_refl {T} (f : DB -> list T) : Reflexive (extends f).
Proof. intros db. exists []. now rewrite app_nil_r. Qed.

#[export] Instance extends_trans {T} (f : DB -> list T) : Transitive (extends f).
Proof.
  intros a b c [l1 H1] [l2 H2]. exists (l1 ++ l2)%list.
  now rewrite H2, H1, app_assoc.
Qed.

#[export] Instance both_refl R1 R2 `{Reflexive _ R1} `{Reflexive _ R2} :
  Reflexive (both R1 R2).
Proof. intros db. split; reflexivity. Qed.

#[export] Instance both_trans R1 R2 `{Transitive _ R1} `{Transitive _ R2} :
  Transitive (both R1 R2).
Proof. intros a b c [A1 A2] [B1 B2]. split; etransitivity; eassumption. Qed.

Section Rules.

Context (R : DB -> DB -> Prop) `{Reflexive _ R} `{Transitive _ R}.
Variable env : Env.

Lemma preserves_ret {A} (a : A) : preserves R (ret a).
Proof. intros past db. cbn. reflexivity. Qed.

Lemma preserves_throw {A} (e : Exn) : preserves R (@throw A e).
Proof. intros past db. cbn. reflexivity. Qed.

Lemma preserves_dateNow : preserves R (dateNow env).
Proof. intros past db. cbn. reflexivity. Qed.

Lemma preserves_call {A} (ev : Event) (answer : History -> Result A) :
  preserves R (call ev answer).
Proof. intros past db. cbn. reflexivity. Qed.

Lemma preserves_bind {A B} (m : M A) (k : A -> M B) :
  preserves R m -> (forall a, preserves R (k a)) -> preserves R (bind m k).
Proof.
  intros Hm Hk past db. unfold bind. specialize (Hm past db).
  destruct (m past db) as [[a|e] db1 ev]; cbn in *; [|exact Hm].
  specialize (Hk a (past ++ ev)%list db1).
  destruct (k a (past ++ ev)%list db1) as [r db2 ev']. cbn in *.
  etransitivity; eassumption.
Qed.

Lemma preserves_tryCatch {A} (m : M A) (handler : Exn -> M A) :
  preserves R m -> (forall e, preserves R (handler e)) ->
  preserves R (tryCatch m handler).
Proof.
  intros Hm Hh past db. unfold tryCatch. specialize (Hm past db).
  destruct (m past db) as [[a|e] db1 ev]; cbn in *; [exact Hm|].
  specialize (Hh e (past ++ ev)%list db1).
  destruct (handler e (past ++ ev)%list db1) as [r db2 ev']. cbn in *.
  etransitivity; eassumption.
Qed.

Lemma preserves_d1 {A} (q : DbCall) (run : string -> DB -> Result A * DB) :
  (forall now db, R db (snd (run now db))) -> preserves R (d1 env q run).
Proof.
  intros Hrun past db. unfold d1.
  destruct (d1_fault env past q); cbn; [reflexivity|].
  specialize (Hrun (sql_now env past) db).
  destruct (run (sql_now env past) db). exact Hrun.
Qed.

End Rules.


Lemma runBindings_update (now : string) (id : N) (u : RunUpdates) (db : DB) :
  runBindings (Sql.updateWorkflowRun now id u db) = runBindings db.
Proof.
  unfold runBindings, Sql.updateWorkflowRun. cbn. rewrite map_map.
  apply map_ext. intros r. now destruct (wr_github_run_id r =? id).
Qed.

Lemma triggerIds_mark (now : string) (id : N) (db : DB) :
  triggerIds (Sql.markPendingWorkflowMatched now id db) = triggerIds db.
Proof.
  unfold triggerIds, Sql.markPendingWorkflowMatched. cbn. rewrite map_map.
  apply map_ext. intros t. now destruct (pt_id t =? id).
Qed.

Create HintDb frames discriminated.

Ltac rule lemma := apply lemma; try typeclasses eauto.

(** The rules above, applied along the text of a function. *)
Ltac frame :=
  repeat (cbv beta zeta;
          first
            [ solve [auto with frames]
            | rule preserves_ret
            | rule preserves_throw
            | rule preserves_dateNow
            | rule preserves_call
            | rule preserves_d1; intros; cbn [snd]; solve [reflexivity | auto with frames]
            | rule preserves_bind
            | rule preserves_tryCatch
            | match goal with
              | |- preserves _ (match ?x with _ => _ end) => destruct x
              | |- forall _, _ => intros ?
              end ]).

(** *** Any relation the statements respect is respected by the program *)

Section Program.

Context (R : DB -> DB -> Prop) `{Reflexive _ R} `{Transitive _ R}.
Variable env : Env.

Hypothesis createWorkflowRun_ok :
  forall now run db, R db (snd (Sql.createWorkflowRun now run db)).
Hypothesis updateWorkflowRun_ok :
  forall now id updates db, R db (Sql.updateWorkflowRun now id updates db).
Hypothesis markWebhookProcessed_ok :
  forall now id ty db, R db (Sql.markWebhookProcessed now id ty db).
Hypothesis createPendingWorkflowTrigger_ok :
  forall now trigger db, R db (Sql.createPendingWorkflowTrigger now trigger db).
Hypothesis markPendingWorkflowMatched_ok :
  forall now id db, R db (Sql.markPendingWorkflowMatched now id db).
Hypothesis deletePendingConfig_ok :
  forall session db, R db (Sql.deletePendingConfig session db).
Hypothesis createGitHubInstallation_ok :
  forall now id login type db,
    R db (snd (Sql.createGitHubInstallation now id login type db)).
Hypothesis deleteGitHubInstallation_ok :
  forall id db, R db (snd (Sql.deleteGitHubInstallation id db)).
Hypothesis upsertGitHubInstallation_ok :
  forall now id login type db,
    R db (Sql.upsertGitHubInstallation now id login type db).
Hypothesis createTeamConfig_ok :
  forall now config db, R db (snd (Sql.createTeamConfig now config db)).
Hypothesis createPendingConfig_ok :
  forall now config db, R db (Sql.createPendingConfig now config db).
Hypothesis logEvent_ok :
  forall now event db, R db (Sql.logEvent now event db).

#[local] Hint Resolve createWorkflowRun_ok updateWorkflowRun_ok
  markWebhookProcessed_ok createPendingWorkflowTrigger_ok
  markPendingWorkflowMatched_ok deletePendingConfig_ok
  createGitHubInstallation_ok deleteGitHubInstallation_ok
  upsertGitHubInstallation_ok createTeamConfig_ok createPendingConfig_ok
  logEvent_ok : frames.

Lemma frame_updateWorkflowRun id updates :
  preserves R (Queries.updateWorkflowRun env id updates).
Proof. unfold Queries.updateWorkflowRun. frame. Qed.

Lemma frame_logEvent event : preserves R (Queries.logEvent env event).
Proof.
  unfold Queries.logEvent. rule preserves_d1. intros now db.
  destruct (Sql.linkedRun event) as [id|];
    [destruct (Sql.runStored id db)|]; cbn [snd];
    solve [reflexivity | auto with frames].
Qed.

#[local] Hint Resolve frame_updateWorkflowRun frame_logEvent : frames.

Lemma frame_triggerImplementation token session issue identifier config :
  preserves R (triggerImplementation env token session issue identifier config).
Proof.
  unfold triggerImplementation, getIssueContext, listBranches, triggerWorkflow,
    sendAction, createAgentActivity, getInstallationToken,
    Queries.createPendingWorkflowTrigger.
  frame.
Qed.

Lemma frame_cancelWorkflow token run installation :
  preserves R (cancelWorkflow env token run installation).
Proof.
  unfold cancelWorkflow, cancelWorkflowRun, sendThought, createAgentActivity,
    getInstallationToken.
  frame.
Qed.

Lemma frame_handleWorkflowComplete token run installation conclusion :
  preserves R (handleWorkflowComplete env token run installation conclusion).
Proof.
  unfold handleWorkflowComplete, listPullRequestsForBranch,
    searchPullRequestsByTitle, createAttachment, sendResponse, sendError,
    createAgentActivity, getInstallationToken.
  frame.
Qed.

#[local] Hint Resolve frame_triggerImplementation frame_cancelWorkflow
  frame_handleWorkflowComplete : frames.

Lemma frame_handleWorkflowRun payload :
  preserves R (handleWorkflowRun env payload).
Proof.
  unfold handleWorkflowRun, resolveWorkflowRun, advanceWorkflowRun,
    getOAuthToken, sendAction, createAgentActivity,
    Queries.getWorkflowRun, Queries.matchPendingWorkflowTrigger,
    Queries.createWorkflowRun, Queries.markPendingWorkflowMatched.
  frame.
Qed.

Lemma frame_handleInstallation payload :
  preserves R (handleInstallation env payload).
Proof.
  unfold handleInstallation, Queries.createGitHubInstallation,
    Queries.deleteGitHubInstallation.
  frame.
Qed.

#[local] Hint Resolve frame_handleWorkflowRun frame_handleInstallation : frames.

Lemma frame_routeGitHub eventType payload :
  preserves R (routeGitHub env eventType payload).
Proof. unfold routeGitHub, handlePullRequest. frame. Qed.

#[local] Hint Resolve frame_routeGitHub : frames.

Lemma frame_handleGitHubWebhook request :
  preserves R (handleGitHubWebhook env request).
Proof.
  unfold handleGitHubWebhook, Queries.isWebhookProcessed,
    Queries.markWebhookProcessed.
  frame.
Qed.

Lemma frame_handleInboxNotification payload :
  preserves R (handleInboxNotification env payload).
Proof.
  unfold handleInboxNotification, getOAuthToken,
    Queries.getActiveWorkflowRunByIssue, Queries.getGitHubInstallationByAccount,
    Queries.deletePendingConfig.
  frame.
Qed.

Lemma frame_handleSessionCreated payload :
  preserves R (handleSessionCreated env payload).
Proof.
  unfold handleSessionCreated, getOAuthToken, sendThought, sendElicitation,
    createAgentActivity, Queries.getTeamConfigByWorkspace,
    Queries.createPendingConfig.
  frame.
Qed.

Lemma frame_handleConfigResponse token pendingConfig userMessage :
  preserves R (handleConfigResponse env token pendingConfig userMessage).
Proof.
  unfold handleConfigResponse, getRepoInstallation, getDefaultBranch,
    getInstallationToken, sendThought, sendElicitation, createAgentActivity,
    Queries.upsertGitHubInstallation, Queries.createTeamConfig,
    Queries.deletePendingConfig.
  frame.
Qed.

#[local] Hint Resolve frame_handleConfigResponse : frames.

Lemma frame_handleSessionPrompted payload :
  preserves R (handleSessionPrompted env payload).
Proof.
  unfold handleSessionPrompted, getOAuthToken, sendThought, sendElicitation,
    sendResponse, createAgentActivity, Queries.getPendingConfig,
    Queries.getActiveWorkflowRunByIssue, Queries.getTeamConfigByWorkspace.
  frame.
Qed.

#[local] Hint Resolve frame_handleInboxNotification frame_handleSessionCreated
  frame_handleSessionPrompted : frames.

Lemma frame_routeLinear payload : preserves R (routeLinear env payload).
Proof. unfold routeLinear. frame. Qed.

#[local] Hint Resolve frame_routeLinear : frames.

Lemma frame_handleLinearWebhook request :
  preserves R (handleLinearWebhook env request).
Proof.
  unfold handleLinearWebhook, Queries.isWebhookProcessed,
    Queries.markWebhookProcessed.
  frame.
Qed.

End Program.

End FrameFacts.

(* ================================================================= *)
(** ** Invariants of the two entry points *)

Module InvariantFacts.
Import Schema Sql Effects Services Handlers Frames FrameFacts Statements Run.

(** One statement of src/db/queries.ts against a relation on stores. *)
Ltac statement :=
  intros; cbn [snd fst];
  unfold Sql.upsertGitHubInstallation, Sql.createWorkflowRun,
    Sql.createGitHubInstallation, Sql.createTeamConfig,
    Sql.markWebhookProcessed, Sql.deleteGitHubInstallation;
  repeat match goal with
    | |- context [if ?b then _ else _] => destruct b
    end;
  cbv zeta; cbn [snd fst];
  unfold both, keeps, extends;
  repeat match goal with |- _ /\ _ => split end;
  first
    [ reflexivity
    | apply runBindings_update
    | apply triggerIds_mark
    | (exists []; rewrite app_nil_r; first [reflexivity | apply runBindings_update])
    | (eexists; unfold runBindings; cbn; rewrite ?map_app; reflexivity) ].

Lemma ledger_and_log_grow_linear (env : Env) (request : LinearRequest) :
  preserves (both (extends run_log) (extends processed_webhooks))
    (handleLinearWebhook env request).
Proof. apply frame_handleLinearWebhook; try typeclasses eauto; statement. Qed.

Lemma ledger_and_log_grow_github (env : Env) (request : GitHubRequest) :
  preserves (both (extends run_log) (extends processed_webhooks))
    (handleGitHubWebhook env request).
Proof. apply frame_handleGitHubWebhook; try typeclasses eauto; statement. Qed.

(** X11. Whatever the request, the collaborators' answers and the faults
    of the store, both webhook entry points only append to the RunLog and
    to the ledger of processed webhooks: no entry of either is ever removed
    or rewritten. *)
Theorem audit_trail_is_append_only (env : Env) (linearRequest : LinearRequest)
    (githubRequest : GitHubRequest) (past : History) (db : DB) :
  let after_linear := store (handleLinearWebhook env linearRequest past db) in
  let after_github := store (handleGitHubWebhook env githubRequest past db) in
  (exists entries, run_log after_linear = (run_log db ++ entries)%list) /\
  (exists marks, processed_webhooks after_linear = (processed_webhooks db ++ marks)%list) /\
  (exists entries, run_log after_github = (run_log db ++ entries)%list) /\
  (exists marks, processed_webhooks after_github = (processed_webhooks db ++ marks)%list).
Proof.
  destruct (ledger_and_log_grow_linear env linearRequest past db) as [L1 L2].
  destruct (ledger_and_log_grow_github env githubRequest past db) as [G1 G2].
  repeat split; assumption.
Qed.

(** X12. Whatever the request and the environment, the ticketing entry
    point neither creates nor deletes a workflow run nor changes the
    session, issue or branch a run is bound to; the CI entry point can only
    append runs, and leaves the bindings of the stored ones as they are. *)
Theorem runs_are_never_deleted_or_rebound (env : Env) (linearRequest : LinearRequest)
    (githubRequest : GitHubRequest) (past : History) (db : DB) :
  runBindings (store (handleLinearWebhook env linearRequest past db)) = runBindings db /\
  exists created,
    runBindings (store (handleGitHubWebhook env githubRequest past db))
    = (runBindings db ++ created)%list.
Proof.
  split.
  - apply (frame_handleLinearWebhook (keeps runBindings)); try typeclasses eauto;
      statement.
  - apply (frame_handleGitHubWebhook (extends runBindings)); try typeclasses eauto;
      statement.
Qed.


Lemma processed_stays (db db' : DB) (id : string) (ty : WebhookType) :
  extends processed_webhooks db db' ->
  Sql.isWebhookProcessed db id ty = true -> Sql.isWebhookProcessed db' id ty = true.
Proof.
  intros [added E] H. unfold Sql.isWebhookProcessed in *.
  now rewrite E, existsb_app, H.
Qed.

Lemma processed_once_marked (stamp id : string) (ty : WebhookType) (db : DB) :
  Sql.isWebhookProcessed db id linear = false ->
  Sql.isWebhookProcessed db id github = false ->
  Sql.isWebhookProcessed (Sql.markWebhookProcessed stamp id ty db) id ty = true.
Proof.
  intros Hl Hg. rewrite LedgerFacts.isWebhookProcessed_after_mark.
  assert (X : existsb (fun w => String.eqb (pw_webhook_id w) id)
                (processed_webhooks db) = false).
  { destruct (existsb _ (processed_webhooks db)) eqn:X; [|reflexivity].
    apply existsb_exists in X as (w & Hw & Hid).
    unfold Sql.isWebhookProcessed in Hl, Hg.
    destruct (pw_webhook_type w) eqn:T.
    - assert (C : existsb (fun w => String.eqb (pw_webhook_id w) id
                                    && WebhookType_eqb (pw_webhook_type w) linear)
                    (processed_webhooks db) = true).
      { apply existsb_exists. exists w. split; [assumption|]. now rewrite Hid, T. }
      congruence.
    - assert (C : existsb (fun w => String.eqb (pw_webhook_id w) id
                                    && WebhookType_eqb (pw_webhook_type w) github)
                    (processed_webhooks db) = true).
      { apply existsb_exists. exists w. split; [assumption|]. now rewrite Hid, T. }
      congruence. }
  rewrite X, String.eqb_refl. destruct ty; cbn; apply orb_true_r.
Qed.

Lemma ledger_grows_routeGitHub (env : Env) (eventType : string) (payload : GitHubWebhook) :
  preserves (extends processed_webhooks) (routeGitHub env eventType payload).
Proof. apply frame_routeGitHub; try typeclasses eauto; statement. Qed.

Lemma ledger_grows_routeLinear (env : Env) (payload : LinearWebhook) :
  preserves (extends processed_webhooks) (routeLinear env payload).
Proof. apply frame_routeLinear; try typeclasses eauto; statement. Qed.

Ltac tidy past :=
  repeat rewrite (app_nil_r past);
  repeat rewrite <- (app_assoc past);
  cbn [Datatypes.app].

(** X13. A CI webhook delivered twice with the same delivery id is handled
    once. If the ledger statements reach the store and the id is not held
    under the other type, then after the first handling, whatever it did
    and however it ended, the second one answers 'already_processed',
    issues only the ledger check and changes nothing. *)
Theorem ci_redelivery_is_skipped (env : Env) (request : GitHubRequest)
    (payload : GitHubWebhook) (delivery : string) (past past' : History) (db : DB) :
  let id := githubWebhookId (Js.orString (gr_event request) EmptyString) delivery in
  githubSignatureValid env request = true ->
  parse_github_webhook env (gr_body request) = Some payload ->
  gr_delivery request = Some delivery -> Js.truthy delivery = true ->
  (forall h, d1_fault env h (QIsWebhookProcessed id github) = None) ->
  (forall h, d1_fault env h (QMarkWebhookProcessed id github) = None) ->
  Sql.isWebhookProcessed db id linear = false ->
  let first := handleGitHubWebhook env request past db in
  handleGitHubWebhook env request past' (store first)
  = {| result := Ok alreadyProcessed; store := store first;
       emitted := [ledgerCheck id github] |}.
Proof.
  intros id Hv Hp Hd Ht F1 F2 Hl first.
  assert (Hid : forall now,
             githubWebhookId (Js.orString (gr_event request) EmptyString)
               (Js.orString (gr_delivery request) (Js.numberToString now)) = id).
  { intros now. rewrite Hd. unfold Js.orString at 2. now rewrite Ht. }
  assert (Hdone : Sql.isWebhookProcessed (store first) id github = true).
  { subst first. apply EntryFacts.github_valid in Hv. unfold handleGitHubWebhook.
    cbv zeta. rewrite Hv, Hp. reduce_request. rewrite Hid, F1.
    destruct (Sql.isWebhookProcessed db id github) eqn:P; [exact P|].
    reduce_request. rewrite F2. cbv zeta.
    match goal with
    | |- context [routeGitHub env ?e payload ?h ?d] =>
        pose proof (ledger_grows_routeGitHub env e payload h d) as G;
        destruct (routeGitHub env e payload h d) as [r db' ev]
    end.
    cbn [store] in G.
    assert (D : Sql.isWebhookProcessed db' id github = true).
    { apply (processed_stays _ _ _ _ G). now apply processed_once_marked. }
    destruct r as [[]|e]; reduce_request; exact D. }
  remember (store first) as db1 eqn:E. clear E first.
  apply EntryFacts.github_valid in Hv. unfold handleGitHubWebhook.
  cbv zeta. rewrite Hv, Hp. reduce_request.
  rewrite Hid, F1, Hdone. reflexivity.
Qed.

Lemma ci_redelivery_is_skipped_witness :
  let request := Scenario.installationRequest "delivery-1" in
  let first := handleGitHubWebhook Scenario.quiet request [] emptyDB in
  handleGitHubWebhook Scenario.quiet request (emitted first) (store first)
  = {| result := Ok alreadyProcessed; store := store first;
       emitted := [ledgerCheck "github-installation-delivery-1" github] |}.
Proof.
  exact (ci_redelivery_is_skipped Scenario.quiet
           (Scenario.installationRequest "delivery-1")
           (InstallationWebhook Scenario.installationPayload) "delivery-1" [] _
           emptyDB eq_refl eq_refl eq_refl eq_refl
           (fun _ => eq_refl) (fun _ => eq_refl) eq_refl).
Defined.


(** X14. An agent-session webhook delivered twice is handled once: its
    dedup id does not depend on the clock, so after the first handling,
    whatever it did, the second one answers 'already_processed', issues
    only the ledger check and changes nothing (the ledger statements
    reaching the store, the id not held under the other type). *)
Theorem session_redelivery_is_skipped (env : Env) (request : LinearRequest)
    (session : LinearAgentSessionWebhook) (now : N) (past past' : History)
    (db : DB) :
  let id := generateWebhookId now (AgentSessionEvent session) in
  linearSignatureValid env request = true ->
  parse_linear_webhook env (lr_body request) = Some (AgentSessionEvent session) ->
  (forall h, d1_fault env h (QIsWebhookProcessed id linear) = None) ->
  (forall h, d1_fault env h (QMarkWebhookProcessed id linear) = None) ->
  Sql.isWebhookProcessed db id github = false ->
  let first := handleLinearWebhook env request past db in
  handleLinearWebhook env request past' (store first)
  = {| result := Ok alreadyProcessed; store := store first;
       emitted := [ledgerCheck id linear] |}.
Proof.
  intros id Hv Hp F1 F2 Hg first.
  assert (Hid : forall now', generateWebhookId now' (AgentSessionEvent session) = id)
    by reflexivity.
  assert (Hdone : Sql.isWebhookProcessed (store first) id linear = true).
  { subst first. apply EntryFacts.linear_valid in Hv. unfold handleLinearWebhook.
    cbv zeta. rewrite Hv, Hp. reduce_request. rewrite Hid, F1.
    destruct (Sql.isWebhookProcessed db id linear) eqn:P; [exact P|].
    reduce_request. rewrite F2. cbv zeta.
    match goal with
    | |- context [routeLinear env ?p ?h ?d] =>
        pose proof (ledger_grows_routeLinear env p h d) as G;
        destruct (routeLinear env p h d) as [r db' ev]
    end.
    cbn [store] in G.
    assert (D : Sql.isWebhookProcessed db' id linear = true).
    { apply (processed_stays _ _ _ _ G). now apply processed_once_marked. }
    destruct r as [[]|e]; reduce_request; [exact D|].
    match goal with
    | |- context [d1_fault env ?h ?q] => destruct (d1_fault env h q)
    end; reduce_request; exact D. }
  remember (store first) as db1 eqn:E. clear E first.
  apply EntryFacts.linear_valid in Hv. unfold handleLinearWebhook.
  cbv zeta. rewrite Hv, Hp. reduce_request.
  rewrite Hid, F1, Hdone. reflexivity.
Qed.

Lemma session_redelivery_is_skipped_witness :
  let first := handleLinearWebhook Cases.answering Cases.createdRequest [] emptyDB in
  handleLinearWebhook Cases.answering Cases.createdRequest (emitted first) (store first)
  = {| result := Ok alreadyProcessed; store := store first;
       emitted := [ledgerCheck "linear-session-session-123-created" linear] |}.
Proof.
  exact (session_redelivery_is_skipped Cases.answering
           Cases.createdRequest Cases.createdPayload 0 [] _ emptyDB
           eq_refl eq_refl (fun _ => eq_refl) (fun _ => eq_refl) eq_refl).
Defined.

End InvariantFacts.

(* ================================================================= *)
(** ** src/handlers/session-created.ts *)

Module SessionFacts.
Import Schema Sql Effects Services Handlers Statements SessionStatements Run.

(** [reduce_request] that leaves the tests of the handlers as they are
    written. *)
Ltac unfold_steps :=
  cbv beta iota zeta delta
    [bind call ret throw d1 tryCatch dateNow
     Queries.getWorkflowRun Queries.getActiveWorkflowRunByIssue
     Queries.createWorkflowRun Queries.updateWorkflowRun
     Queries.isWebhookProcessed Queries.markWebhookProcessed
     Queries.createPendingWorkflowTrigger Queries.matchPendingWorkflowTrigger
     Queries.markPendingWorkflowMatched Queries.deletePendingConfig
     Queries.getGitHubInstallationByAccount Queries.createGitHubInstallation
     Queries.deleteGitHubInstallation Queries.upsertGitHubInstallation
     Queries.getTeamConfigByWorkspace Queries.createTeamConfig
     Queries.createPendingConfig Queries.getPendingConfig Queries.logEvent
     getOAuthToken createAgentActivity sendThought sendAction sendElicitation
     sendResponse sendError getIssueContext createAttachment
     getInstallationToken getRepoInstallation getDefaultBranch
     listBranches triggerWorkflow cancelWorkflowRun
     listPullRequestsForBranch searchPullRequestsByTitle
     result store emitted].

Ltac step_request := unfold_steps; settle_links.

(** X15. When the workspace has no OAuth token (null or empty), a created
    session, a prompted session and the progress of a workflow run are all
    dropped after the token lookup: nothing is written, not even a RunLog
    entry, nothing is sent, and the handler returns normally. *)
Theorem events_without_token_are_dropped (env : Env)
    (payload : LinearAgentSessionWebhook) (event : GitHubWorkflowRunWebhook)
    (run : WorkflowRun) (workspaceId : string) (past : History) (db : DB) :
  (forall h, noToken (oauth_token env h workspaceId) = true) ->
  as_organizationId payload = workspaceId ->
  wr_linear_workspace_id run = Some workspaceId ->
  let dropped :=
    {| result := Ok tt; store := db;
       emitted := if Js.truthy workspaceId then [EvOAuth workspaceId] else [] |} in
  handleSessionCreated env payload past db
  = {| result := Ok tt; store := db; emitted := [EvOAuth workspaceId] |} /\
  handleSessionPrompted env payload past db
  = {| result := Ok tt; store := db; emitted := [EvOAuth workspaceId] |} /\
  advanceWorkflowRun env event run past db = dropped.
Proof.
  intros Hno Horg Hws dropped. subst dropped.
  unfold handleSessionCreated, handleSessionPrompted, advanceWorkflowRun.
  cbv zeta. rewrite Horg, Hws.
  repeat split.
  - reduce_request. specialize (Hno past).
    destruct (oauth_token env past workspaceId) as [[token|]|e];
      [|reflexivity | discriminate Hno].
    cbn in Hno. destruct (Js.truthy token); [discriminate Hno | reflexivity].
  - reduce_request. specialize (Hno past).
    destruct (oauth_token env past workspaceId) as [[token|]|e];
      [|reflexivity | discriminate Hno].
    cbn in Hno. destruct (Js.truthy token); [discriminate Hno | reflexivity].
  - destruct (Js.truthy workspaceId); [|reflexivity].
    reduce_request. specialize (Hno past).
    destruct (oauth_token env past workspaceId) as [[token|]|e];
      [|reflexivity | discriminate Hno].
    cbn in Hno. destruct (Js.truthy token); [discriminate Hno | reflexivity].
Qed.

Lemma events_without_token_are_dropped_witness :
  handleSessionCreated Cases.tokenless Cases.createdPayload [] emptyDB
  = {| result := Ok tt; store := emptyDB; emitted := [EvOAuth "workspace-1"] |}.
Proof.
  pose proof (events_without_token_are_dropped Cases.tokenless
                Cases.createdPayload Scenario.startedPayload
                (Scenario.runWith in_progress "ABC-123") "workspace-1" [] emptyDB
                (fun _ => eq_refl) eq_refl eq_refl) as H.
  cbv zeta in H. exact (proj1 H).
Defined.


Lemma getTeamConfig_after_log (now : string) (event : LogEvent) (db : DB)
    (workspace team : string) :
  Sql.getTeamConfigByWorkspace (Sql.logEvent now event db) workspace team
  = Sql.getTeamConfigByWorkspace db workspace team.
Proof. reflexivity. Qed.

(** X16. A session created for a team without a repository (no
    configuration, or one without owner or repository) dispatches nothing:
    the acknowledgment and then one question are sent, a pending
    configuration holding the issue is stored for the session, no call to
    the CI platform is made, and no trigger and no team configuration is
    written. *)
Theorem unconfigured_team_is_asked (env : Env) (payload : LinearAgentSessionWebhook)
    (token : string) (past : History) (db : DB) :
  (forall h q, d1_fault env h q = None) ->
  (forall h, oauth_token env h (as_organizationId payload) = Ok (Some token)) ->
  Js.truthy token = true ->
  (forall h t c, linear_mutation env h t c = Ok tt) ->
  lacksRepository (Sql.getTeamConfigByWorkspace db (as_organizationId payload)
                     (as_teamId payload)) = true ->
  let o := handleSessionCreated env payload past db in
  result o = Ok tt /\
  (exists stamp stamp',
     store o = Sql.createPendingConfig stamp' (pendingConfigOf payload)
                 (Sql.logEvent stamp (sessionCreatedEvent payload) db)) /\
  (exists row,
     Sql.getPendingConfig (store o) (as_sessionId payload) = Some row /\
     pc_pending_issue_id row = as_issueId payload /\
     pc_linear_team_id row = as_teamId payload) /\
  githubCalls (emitted o) = [] /\
  (exists question,
     activities (emitted o) = [Thought "Looking at this issue..."; Elicitation question]) /\
  pending_workflow_triggers (store o) = pending_workflow_triggers db /\
  team_configs (store o) = team_configs db.
Proof.
  intros Hd1 Htok Htruthy Hlin Hlacks o. subst o.
  unfold handleSessionCreated. cbv zeta.
  fold (sessionCreatedEvent payload) (pendingConfigOf payload).
  step_request. rewrite Htok. step_request. rewrite Htruthy. cbn [negb].
  step_request. rewrite !Hd1. step_request. rewrite Hlin. step_request.
  rewrite !Hd1. step_request. rewrite getTeamConfig_after_log.
  unfold lacksRepository in Hlacks.
  destruct (Sql.getTeamConfigByWorkspace db (as_organizationId payload)
              (as_teamId payload)) as [config|];
    [rewrite Hlacks|];
    step_request; rewrite !Hd1; step_request; rewrite Hlin; step_request;
    (split; [reflexivity|]); (split; [do 2 eexists; reflexivity|]);
    (split;
     [match goal with
      | |- context [Sql.createPendingConfig ?s ?c ?d] =>
          destruct (StoreFacts.getPendingConfig_created s c d)
            as (row & Hrow & _ & Hteam & Hissue & _)
      end;
      exists row; repeat split; assumption|]);
    (split; [reflexivity|]); (split; [eexists; reflexivity|]);
    split; reflexivity.
Qed.

Lemma unconfigured_team_is_asked_witness :
  let o := handleSessionCreated Cases.answering Cases.createdPayload [] emptyDB in
  result o = Ok tt /\ githubCalls (emitted o) = [] /\
  team_configs (store o) = [].
Proof.
  pose proof (unconfigured_team_is_asked Cases.answering
                Cases.createdPayload "lin_oauth" [] emptyDB
                (fun _ _ => eq_refl) (fun _ => eq_refl) eq_refl
                (fun _ _ _ => eq_refl) eq_refl) as H.
  cbv zeta in *. destruct H as (Hr & _ & _ & Hg & _ & _ & Ht).
  repeat split; assumption.
Defined.


(** X17. When the first message to the ticketing system fails, the
    handler of a created session appends two entries to the RunLog, the
    [session_created] one and an [error] one whose message is
    [Failed to send thought: ] followed by the text of the exception,
    throws the same exception again, and does nothing else: no
    configuration is read and nothing is dispatched. *)
Theorem failed_acknowledgment_is_logged_and_rethrown (env : Env)
    (payload : LinearAgentSessionWebhook) (token : string) (error : Exn)
    (past : History) (db : DB) :
  (forall h q, d1_fault env h q = None) ->
  (forall h, oauth_token env h (as_organizationId payload) = Ok (Some token)) ->
  Js.truthy token = true ->
  (forall h, linear_mutation env h token (acknowledgment payload) = Throw error) ->
  let o := handleSessionCreated env payload past db in
  result o = Throw error /\
  (exists stamp stamp',
     store o = Sql.logEvent stamp' (acknowledgmentFailed payload error)
                 (Sql.logEvent stamp (sessionCreatedEvent payload) db)) /\
  emitted o
  = [EvOAuth (as_organizationId payload);
     EvDb (QLogEvent (sessionCreatedEvent payload));
     EvLinear token (acknowledgment payload);
     EvDb (QLogEvent (acknowledgmentFailed payload error))] /\
  (exists created failed,
     run_log (store o) = (run_log db ++ [created; failed])%list /\
     rl_event_type created = "session_created" /\
     rl_message created = Some ("Agent assigned to " ++ as_issueIdentifier payload) /\
     rl_event_type failed = "error" /\
     rl_message failed
     = Some ("Failed to send thought: Error: "
               ++ match error with Error message => message end) /\
     rl_workflow_run_id failed = None /\
     (as_sessionId payload <> EmptyString ->
        rl_agent_session_id failed = Some (as_sessionId payload))) /\
  team_configs (store o) = team_configs db /\
  pending_configs (store o) = pending_configs db /\
  pending_workflow_triggers (store o) = pending_workflow_triggers db /\
  workflow_runs (store o) = workflow_runs db.
Proof.
  intros Hd1 Htok Htruthy Hack o. subst o.
  unfold handleSessionCreated. cbv zeta.
  fold (sessionCreatedEvent payload) (acknowledgmentFailed payload error).
  step_request. rewrite Htok. step_request. rewrite Htruthy. cbn [negb].
  step_request. rewrite !Hd1. step_request.
  fold (acknowledgment payload). rewrite Hack. step_request.
  rewrite !Hd1. step_request.
  split; [reflexivity|]. split; [do 2 eexists; reflexivity|].
  split; [reflexivity|]. split; [|repeat split].
  do 2 eexists. split.
  { cbn [run_log Sql.logEvent setRunLog]. rewrite <- app_assoc. reflexivity. }
  destruct error as [message]. cbn. repeat split.
  intros Hn. destruct (as_sessionId payload); [congruence | reflexivity].
Qed.

Lemma failed_acknowledgment_is_logged_and_rethrown_witness :
  let o := handleSessionCreated Cases.unreachable Cases.createdPayload [] emptyDB in
  result o = Throw (Error "Linear API error: 503") /\
  exists created failed,
    run_log (store o) = [created; failed] /\
    rl_event_type created = "session_created" /\
    rl_event_type failed = "error" /\
    rl_message failed = Some "Failed to send thought: Error: Linear API error: 503".
Proof.
  pose proof (failed_acknowledgment_is_logged_and_rethrown
                Cases.unreachable Cases.createdPayload "lin_oauth"
                (Error "Linear API error: 503") [] emptyDB
                (fun _ _ => eq_refl) (fun _ => eq_refl) eq_refl
                (fun _ => eq_refl)) as H.
  cbv zeta in *.
  destruct H as (Hr & _ & _ & (created & failed & Hlog & Hc & _ & Hf & Hm & _) & _).
  split; [exact Hr|]. exists created, failed.
  split; [exact Hlog|]. split; [exact Hc|]. split; [exact Hf | exact Hm].
Defined.

End SessionFacts.

(* ================================================================= *)
(** ** handleConfigResponse *)

Module ConfigFacts.
Import Schema Sql SqlMore Effects Services Handlers Statements SessionStatements Run.
Import Frames FrameFacts InvariantFacts SessionFacts.

(** X18. A reply to the repository question that names no repository, or
    names one the App is not installed on (installation lookup answers
    404), changes nothing in the store and issues no statement; the user is
    asked again, once, and in the second case the question carries the
    installation link. *)
Theorem unusable_reply_changes_nothing (env : Env) (token : string)
    (pendingConfig : PendingConfig) (userMessage : string) (past : History) (db : DB) :
  match repoMatch EmptyString userMessage with
  | None => True
  | Some (owner, repo) =>
      exists body, github_repo_installation env past owner repo = Ok (404, body)
  end ->
  let o := handleConfigResponse env token pendingConfig userMessage past db in
  store o = db /\
  forallb (fun ev => negb (isDbCall ev)) (emitted o) = true /\
  exists question,
    activities (emitted o) = [Elicitation question] /\
    (repoMatch EmptyString userMessage <> None ->
     Js.includes question (getInstallUrl "linear-code-agent") = true).
Proof.
  intros H o. subst o. unfold handleConfigResponse. cbv zeta.
  destruct (repoMatch EmptyString userMessage) as [[owner repo]|].
  - destruct H as [body H]. step_request. rewrite H. cbn [fst snd].
    change (404 =? 404) with true. step_request.
    split; [reflexivity|]. split; [reflexivity|].
    eexists. split; [reflexivity|]. intros _.
    repeat (apply CompleteFacts.includes_here || apply CompleteFacts.includes_later).
  - step_request. split; [reflexivity|]. split; [reflexivity|].
    eexists. split; [reflexivity|]. intros C. now elim C.
Qed.

Lemma unusable_reply_changes_nothing_witness :
  store (handleConfigResponse Cases.notInstalled "lin_oauth" Cases.pending
           "acme/backend" [] emptyDB) = emptyDB.
Proof.
  refine (proj1 (unusable_reply_changes_nothing Cases.notInstalled
                   "lin_oauth" Cases.pending "acme/backend" [] emptyDB _)).
  vm_compute. exists 0. reflexivity.
Defined.


Lemma configuration_kept_by_dispatch (env : Env)
    (token session issue identifier : string) (config : TeamConfig) :
  preserves (both (keeps team_configs)
               (both (keeps pending_configs) (keeps github_installations)))
    (triggerImplementation env token session issue identifier config).
Proof. apply frame_triggerImplementation; try typeclasses eauto; statement. Qed.

Lemma team_configs_after_upsert (now : string) (id : N) (login type : string) (db : DB) :
  team_configs (Sql.upsertGitHubInstallation now id login type db) = team_configs db.
Proof.
  unfold Sql.upsertGitHubInstallation, Sql.createGitHubInstallation.
  now destruct (existsb _ (github_installations db)).
Qed.

Lemma pending_configs_after_upsert (now : string) (id : N) (login type : string)
    (db : DB) :
  pending_configs (Sql.upsertGitHubInstallation now id login type db)
  = pending_configs db.
Proof.
  unfold Sql.upsertGitHubInstallation, Sql.createGitHubInstallation.
  now destruct (existsb _ (github_installations db)).
Qed.

Lemma createTeamConfig_outcome (now : string) (config : NewTeamConfig) (db : DB) :
  match Sql.getTeamConfigByWorkspace db (ntc_linearWorkspaceId config)
          (ntc_linearTeamId config) with
  | None =>
      Sql.installationStored config db = true ->
      exists row sequence,
        Sql.createTeamConfig now config db
        = (Ok row, setTeamConfigs db (team_configs db ++ [row]) sequence) /\
        tc_linear_workspace_id row = ntc_linearWorkspaceId config /\
        tc_linear_team_id row = ntc_linearTeamId config /\
        tc_github_owner row = Js.orNull (ntc_githubOwner config) /\
        tc_github_repo row = Js.orNull (ntc_githubRepo config) /\
        tc_github_installation_id row
        = (if Js.truthyNum (ntc_githubInstallationId config)
           then ntc_githubInstallationId config else None) /\
        tc_github_branch row = Js.orString (ntc_githubBranch config) "main"
  | Some _ =>
      Sql.createTeamConfig now config db
      = (Throw (Error ("UNIQUE constraint failed: team_configs.linear_workspace_id, "
                         ++ "team_configs.linear_team_id")), db)
  end.
Proof.
  unfold Sql.getTeamConfigByWorkspace, Sql.createTeamConfig.
  destruct (find _ (team_configs db)) as [held|] eqn:F.
  - apply find_some in F as [HIn Hc].
    assert (X : existsb (fun c =>
                  String.eqb (tc_linear_workspace_id c) (ntc_linearWorkspaceId config)
                  && String.eqb (tc_linear_team_id c) (ntc_linearTeamId config))
                  (team_configs db) = true)
      by (apply existsb_exists; eauto).
    now rewrite X.
  - rewrite (SqlFacts.find_none_existsb _ _ F). intros Hfk. rewrite Hfk.
    cbv zeta. cbn [negb].
    do 2 eexists. split; [reflexivity|]. cbn. repeat split.
Qed.

Lemma upserted_installation_stored (now : string) (installationId : N)
    (accountLogin accountType : string) (db : DB) (config : NewTeamConfig) :
  ntc_githubInstallationId config = Some installationId ->
  Sql.installationStored config
    (Sql.upsertGitHubInstallation now installationId accountLogin accountType db)
  = true.
Proof.
  intros E. unfold Sql.installationStored. rewrite E.
  destruct (StoreFacts.getGitHubInstallation_upserted now installationId
              accountLogin accountType db) as (row & Hrow & _).
  unfold getGitHubInstallation in Hrow. apply find_some in Hrow.
  apply orb_true_iff. right. apply existsb_exists. exists row. exact Hrow.
Qed.

(** X19. A reply naming a repository the App is installed on, for a team
    that has no configuration row yet, configures the team: afterwards the
    team's configuration holds the owner, repository, installation and
    default branch, the pending configuration of the session is gone, and
    the installation is stored under the owner, typed 'User', whatever the
    later steps do. *)
Theorem repository_reply_configures_team (env : Env) (token : string)
    (pendingConfig : PendingConfig) (userMessage owner repo defaultBranch : string)
    (installationId status status' : N) (ghToken : string)
    (past : History) (db : DB) :
  (forall h q, d1_fault env h q = None) ->
  repoMatch EmptyString userMessage = Some (owner, repo) ->
  (forall h, github_repo_installation env h owner repo = Ok (status, installationId)) ->
  status <> 404 -> responseOk status = true -> installationId <> 0 ->
  (forall h, github_access_token env h installationId = Ok ghToken) ->
  (forall h, github_repository env h owner repo = Ok (status', defaultBranch)) ->
  responseOk status' = true ->
  Sql.getTeamConfigByWorkspace db (pc_linear_workspace_id pendingConfig)
    (pc_linear_team_id pendingConfig) = None ->
  let o := handleConfigResponse env token pendingConfig userMessage past db in
  (exists config,
     Sql.getTeamConfigByWorkspace (store o) (pc_linear_workspace_id pendingConfig)
       (pc_linear_team_id pendingConfig) = Some config /\
     tc_github_owner config = Some owner /\
     tc_github_repo config = Some repo /\
     tc_github_installation_id config = Some installationId /\
     tc_github_branch config = Js.orString (Some defaultBranch) "main") /\
  Sql.getPendingConfig (store o) (pc_agent_session_id pendingConfig) = None /\
  (exists row,
     getGitHubInstallation (store o) installationId = Some row /\
     gi_account_login row = owner /\ gi_account_type row = "User").
Proof.
  intros Hd1 Hm Hinst H404 Hok Hnz Htok Hrepo Hok' Hnone o. subst o.
  destruct (RepoFacts.repoMatch_sound userMessage EmptyString owner repo eq_refl Hm)
    as (To & Tr & _).
  unfold handleConfigResponse. cbv zeta. rewrite Hm.
  step_request. rewrite Hinst. cbn [fst snd].
  apply N.eqb_neq in H404. rewrite H404. rewrite Hok. cbn [negb].
  step_request.
  assert (Hnz' : Js.truthyNum (Some installationId) = true).
  { cbn. now apply negb_true_iff, N.eqb_neq. }
  rewrite Hnz'. cbn [negb orElse]. step_request.
  rewrite Htok. step_request. rewrite Hrepo. cbn [fst snd]. rewrite Hok'.
  cbn [negb]. step_request. rewrite !Hd1. step_request.
  match goal with
  | |- context [Sql.createTeamConfig ?now ?c
                  (Sql.upsertGitHubInstallation ?now' ?i ?l ?t ?d)] =>
      pose proof (createTeamConfig_outcome now c
                    (Sql.upsertGitHubInstallation now' i l t d)) as C;
      pose proof (upserted_installation_stored now' i l t d c eq_refl) as Hfk;
      pose proof (StoreFacts.getGitHubInstallation_upserted now' i l t d) as U;
      set (upserted := Sql.upsertGitHubInstallation now' i l t d) in *
  end.
  cbn [ntc_linearWorkspaceId ntc_linearTeamId] in C.
  assert (Hnone' : Sql.getTeamConfigByWorkspace upserted
                     (pc_linear_workspace_id pendingConfig)
                     (pc_linear_team_id pendingConfig) = None).
  { unfold Sql.getTeamConfigByWorkspace in *. subst upserted.
    now rewrite team_configs_after_upsert. }
  rewrite Hnone' in C.
  destruct (C Hfk)
    as (config & sequence & C' & Hws & Hteam & Howner & Hrepo' & Hid & Hbranch).
  clear C Hfk. rename C' into C.
  rewrite C. step_request. rewrite !Hd1. step_request.
  set (configured :=
         Sql.deletePendingConfig (pc_agent_session_id pendingConfig)
           (setTeamConfigs upserted (team_configs upserted ++ [config]) sequence)).
  assert (Final : forall s,
             team_configs s = team_configs configured ->
             pending_configs s = pending_configs configured ->
             github_installations s = github_installations configured ->
             (exists config,
                Sql.getTeamConfigByWorkspace s (pc_linear_workspace_id pendingConfig)
                  (pc_linear_team_id pendingConfig) = Some config /\
                tc_github_owner config = Some owner /\
                tc_github_repo config = Some repo /\
                tc_github_installation_id config = Some installationId /\
                tc_github_branch config = Js.orString (Some defaultBranch) "main") /\
             Sql.getPendingConfig s (pc_agent_session_id pendingConfig) = None /\
             (exists row,
                getGitHubInstallation s installationId = Some row /\
                gi_account_login row = owner /\ gi_account_type row = "User")).
  { intros s Ht Hp Hg. split; [|split].
    - exists config. unfold Sql.getTeamConfigByWorkspace. rewrite Ht.
      subst configured. cbn.
      split.
      + apply SqlFacts.find_app_none; [exact Hnone'|].
        now rewrite Hws, Hteam, !String.eqb_refl.
      + rewrite Howner, Hrepo', Hid, Hbranch.
        cbn [ntc_githubInstallationId ntc_githubOwner ntc_githubRepo ntc_githubBranch].
        rewrite Hnz'. unfold Js.orNull, Js.truthyOpt. rewrite To, Tr. auto.
    - unfold Sql.getPendingConfig. rewrite Hp. subst configured. cbn.
      clear. induction (pending_configs upserted) as [|c rows IH]; [reflexivity|].
      cbn. destruct (String.eqb (pc_agent_session_id c)
                       (pc_agent_session_id pendingConfig)) eqn:E; cbn;
        [exact IH | now rewrite E].
    - unfold getGitHubInstallation. rewrite Hg. subst configured. cbn.
      unfold getGitHubInstallation in U.
      destruct U as (row & Hrow & Hlogin & Htype & _).
      exists row. auto. }
  match goal with
  | |- context [linear_mutation env ?h token ?c] =>
      destruct (linear_mutation env h token c) as [[]|e]
  end; step_request; [|apply Final; reflexivity].
  rewrite ?Hd1. step_request.
  match goal with
  | |- context [triggerImplementation env ?a ?b ?c ?d ?e ?h ?db] =>
      pose proof (configuration_kept_by_dispatch env a b c d e h db) as K;
      destruct (triggerImplementation env a b c d e h db) as [r s ev]
  end.
  cbn [store] in *. destruct K as (K1 & K2 & K3).
  apply Final; [exact K1 | exact K2 | exact K3].
Qed.

Lemma repository_reply_configures_team_witness :
  let o := handleConfigResponse Scenario.quiet "lin_oauth" Cases.pending
             "Use acme/backend please" [] emptyDB in
  (exists config,
     Sql.getTeamConfigByWorkspace (store o) "workspace-1" "team-1" = Some config /\
     tc_github_owner config = Some "acme" /\
     tc_github_repo config = Some "backend") /\
  Sql.getPendingConfig (store o) "session-123" = None.
Proof.
  pose proof (repository_reply_configures_team Scenario.quiet
                "lin_oauth" Cases.pending "Use acme/backend please"
                "acme" "backend" "main" 12345 200 200 "ghs_token" [] emptyDB
                (fun _ _ => eq_refl) eq_refl (fun _ => eq_refl)
                ltac:(discriminate) eq_refl ltac:(discriminate)
                (fun _ => eq_refl) (fun _ => eq_refl) eq_refl eq_refl) as H.
  cbv zeta in *. destruct H as ((config & Hc & Ho & Hr & _) & Hp & _).
  split; [exists config; repeat split; assumption | exact Hp].
Defined.


(** X20. When the team already has a configuration row (for instance one
    without a repository, which is why the question was asked), a valid
    reply cannot configure it: the insert fails on the UNIQUE columns, the
    handler throws, the configuration, the pending configuration and the
    triggers are unchanged, and the user is sent nothing. *)
Theorem reply_cannot_replace_stored_config (env : Env) (token : string)
    (pendingConfig : PendingConfig) (userMessage owner repo defaultBranch : string)
    (installationId status status' : N) (ghToken : string) (held : TeamConfig)
    (past : History) (db : DB) :
  (forall h q, d1_fault env h q = None) ->
  repoMatch EmptyString userMessage = Some (owner, repo) ->
  (forall h, github_repo_installation env h owner repo = Ok (status, installationId)) ->
  status <> 404 -> responseOk status = true -> installationId <> 0 ->
  (forall h, github_access_token env h installationId = Ok ghToken) ->
  (forall h, github_repository env h owner repo = Ok (status', defaultBranch)) ->
  responseOk status' = true ->
  Sql.getTeamConfigByWorkspace db (pc_linear_workspace_id pendingConfig)
    (pc_linear_team_id pendingConfig) = Some held ->
  let o := handleConfigResponse env token pendingConfig userMessage past db in
  (exists error, result o = Throw error) /\
  team_configs (store o) = team_configs db /\
  pending_configs (store o) = pending_configs db /\
  pending_workflow_triggers (store o) = pending_workflow_triggers db /\
  activities (emitted o) = [] /\
  List.length (emitted o) = 5%nat.
Proof.
  intros Hd1 Hm Hinst H404 Hok Hnz Htok Hrepo Hok' Hheld o. subst o.
  unfold handleConfigResponse. cbv zeta. rewrite Hm.
  step_request. rewrite Hinst. cbn [fst snd].
  apply N.eqb_neq in H404. rewrite H404. rewrite Hok. cbn [negb].
  step_request.
  assert (Hnz' : Js.truthyNum (Some installationId) = true).
  { cbn. now apply negb_true_iff, N.eqb_neq. }
  rewrite Hnz'. cbn [negb orElse]. step_request.
  rewrite Htok. step_request. rewrite Hrepo. cbn [fst snd]. rewrite Hok'.
  cbn [negb]. step_request. rewrite !Hd1. step_request.
  match goal with
  | |- context [Sql.createTeamConfig ?now ?c
                  (Sql.upsertGitHubInstallation ?now' ?i ?l ?t ?d)] =>
      pose proof (createTeamConfig_outcome now c
                    (Sql.upsertGitHubInstallation now' i l t d)) as C;
      pose proof (team_configs_after_upsert now' i l t d) as T;
      pose proof (pending_configs_after_upsert now' i l t d) as P;
      assert (G : pending_workflow_triggers (Sql.upsertGitHubInstallation now' i l t d)
                  = pending_workflow_triggers d)
        by (unfold Sql.upsertGitHubInstallation, Sql.createGitHubInstallation;
            now destruct (existsb _ (github_installations d)));
      set (upserted := Sql.upsertGitHubInstallation now' i l t d) in *
  end.
  cbn [ntc_linearWorkspaceId ntc_linearTeamId] in C.
  assert (Hheld' : Sql.getTeamConfigByWorkspace upserted
                     (pc_linear_workspace_id pendingConfig)
                     (pc_linear_team_id pendingConfig) = Some held).
  { unfold Sql.getTeamConfigByWorkspace in *. now rewrite T. }
  rewrite Hheld' in C. rewrite C. step_request.
  split; [eexists; reflexivity|]. repeat split; assumption.
Qed.

Lemma reply_cannot_replace_stored_config_witness :
  let o := handleConfigResponse Scenario.quiet "lin_oauth" Cases.pending
             "acme/backend" [] Cases.dbHalfConfigured in
  (exists error, result o = Throw error) /\
  team_configs (store o) = [Scenario.unconfigured].
Proof.
  pose proof (reply_cannot_replace_stored_config Scenario.quiet
                "lin_oauth" Cases.pending "acme/backend"
                "acme" "backend" "main" 12345 200 200 "ghs_token"
                Scenario.unconfigured [] Cases.dbHalfConfigured
                (fun _ _ => eq_refl) eq_refl (fun _ => eq_refl)
                ltac:(discriminate) eq_refl ltac:(discriminate)
                (fun _ => eq_refl) (fun _ => eq_refl) eq_refl eq_refl) as H.
  cbv zeta in *. destruct H as (He & Ht & _). split; assumption.
Defined.

End ConfigFacts.

(* ================================================================= *)
(** ** Dispatch and start *)

Module TriggerFacts.
Import Schema Sql SqlMore Effects Services Handlers Statements SessionStatements TriggerStatements Run.
Import Frames FrameFacts InvariantFacts SessionFacts.

Lemma available_name_is_fresh (identifier : string) (existingBranches : list string) :
  exists name,
    Branch.findAvailableBranchName identifier existingBranches = Some name /\
    ~ In name existingBranches.
Proof.
  unfold Branch.findAvailableBranchName. cbv zeta.
  destruct (Branch.arrayIncludes existingBranches (Branch.generateBranchName identifier))
    eqn:E; cbn [negb].
  - destruct (BranchFacts.probeSuffix_ends existingBranches
                (Branch.generateBranchName identifier) 2) as [k Hk].
    rewrite Hk. apply BranchFacts.probeSuffix_some in Hk as (_ & H & _).
    eexists. split; [reflexivity | exact H].
  - eexists. split; [reflexivity|].
    intros H. apply BranchFacts.arrayIncludes_In in H. congruence.
Qed.

(** The whole outcome of a dispatch whose collaborators answer. *)
Lemma triggerImplementation_outcome (env : Env)
    (token agentSessionId issueId issueIdentifier owner repo ghToken body : string)
    (installationId status status' : N) (config : TeamConfig)
    (issueContext : IssueContext) (existingBranches : list string)
    (past : History) (db : DB) :
  githubConfiguration config = Some (owner, repo, installationId) ->
  (forall h q, d1_fault env h q = None) ->
  (forall h t c, linear_mutation env h t c = Ok tt) ->
  (forall h, linear_issue_context env h token issueId = Ok issueContext) ->
  (forall h, github_access_token env h installationId = Ok ghToken) ->
  (forall h, github_branches env h owner repo = Ok (status, existingBranches)) ->
  responseOk status = true ->
  (forall h c, github_dispatch env h c = Ok (status', body)) ->
  let o := triggerImplementation env token agentSessionId issueId issueIdentifier
             config past db in
  exists branchName stamp stamp',
    Branch.findAvailableBranchName issueIdentifier existingBranches = Some branchName /\
    ~ In branchName existingBranches /\
    result o
    = (if responseOk status' then Ok tt
       else Throw (Error ("Failed to trigger workflow: "
                            ++ Js.numberToString status' ++ " - " ++ body))) /\
    store o
    = Sql.createPendingWorkflowTrigger stamp'
        (triggerOfDispatch agentSessionId issueId issueIdentifier config owner repo)
        (Sql.logEvent stamp
           (triggerLogged agentSessionId issueIdentifier branchName owner repo) db) /\
    emitted o
    = [EvLinear token (GetIssueContext issueId);
       EvGitHub (PostAccessTokens installationId);
       EvGitHub (GetBranches owner repo);
       EvDb (QLogEvent (triggerLogged agentSessionId issueIdentifier branchName owner repo));
       EvLinear token (CreateAgentActivity agentSessionId
                         (Action "Starting" "Implementation workflow" None));
       EvDb (QCreatePendingWorkflowTrigger
               (triggerOfDispatch agentSessionId issueId issueIdentifier config owner repo));
       EvGitHub (PostAccessTokens installationId);
       EvGitHub (dispatchCall env agentSessionId issueIdentifier branchName
                   issueContext config owner repo)].
Proof.
  intros Hconf Hd1 Hlin Hctx Htok Hbr Hok Hdis o. subst o.
  destruct (available_name_is_fresh issueIdentifier existingBranches)
    as (branchName & Hname & Hfresh).
  exists branchName.
  unfold triggerImplementation. rewrite Hconf.
  step_request. rewrite Hctx. step_request. rewrite Htok. step_request.
  rewrite Hbr. cbn [fst snd]. rewrite Hok. cbn [negb]. step_request.
  rewrite Hname. step_request. rewrite !Hd1. step_request. rewrite Hlin.
  step_request. rewrite ?Hd1. step_request. rewrite Htok. step_request.
  rewrite Hdis. cbn [fst snd].
  destruct (responseOk status'); cbn [negb]; step_request;
    do 2 eexists; repeat split; assumption.
Qed.


(** X21. A dispatch, when the store and the collaborators answer: the
    branch name is one the repository does not have; a [workflow_trigger]
    entry is appended to the RunLog; the pending trigger of the session is
    stored, unmatched and on the configured branch, before the dispatch
    request is sent; the calls are issued in the order given; and when the
    CI platform refuses the dispatch the operation throws with the status
    and body, the entry and the trigger staying stored. *)
Theorem dispatch_records_trigger_first (env : Env)
    (token agentSessionId issueId issueIdentifier owner repo ghToken body : string)
    (installationId status status' : N) (config : TeamConfig)
    (issueContext : IssueContext) (existingBranches : list string)
    (past : History) (db : DB) :
  githubConfiguration config = Some (owner, repo, installationId) ->
  (forall h q, d1_fault env h q = None) ->
  (forall h t c, linear_mutation env h t c = Ok tt) ->
  (forall h, linear_issue_context env h token issueId = Ok issueContext) ->
  (forall h, github_access_token env h installationId = Ok ghToken) ->
  (forall h, github_branches env h owner repo = Ok (status, existingBranches)) ->
  responseOk status = true ->
  (forall h c, github_dispatch env h c = Ok (status', body)) ->
  let o := triggerImplementation env token agentSessionId issueId issueIdentifier
             config past db in
  exists branchName stamp stamp',
    Branch.findAvailableBranchName issueIdentifier existingBranches = Some branchName /\
    ~ In branchName existingBranches /\
    result o
    = (if responseOk status' then Ok tt
       else Throw (Error ("Failed to trigger workflow: "
                            ++ Js.numberToString status' ++ " - " ++ body))) /\
    store o
    = Sql.createPendingWorkflowTrigger stamp'
        (triggerOfDispatch agentSessionId issueId issueIdentifier config owner repo)
        (Sql.logEvent stamp
           (triggerLogged agentSessionId issueIdentifier branchName owner repo) db) /\
    emitted o
    = [EvLinear token (GetIssueContext issueId);
       EvGitHub (PostAccessTokens installationId);
       EvGitHub (GetBranches owner repo);
       EvDb (QLogEvent (triggerLogged agentSessionId issueIdentifier branchName owner repo));
       EvLinear token (CreateAgentActivity agentSessionId
                         (Action "Starting" "Implementation workflow" None));
       EvDb (QCreatePendingWorkflowTrigger
               (triggerOfDispatch agentSessionId issueId issueIdentifier config owner repo));
       EvGitHub (PostAccessTokens installationId);
       EvGitHub (dispatchCall env agentSessionId issueIdentifier branchName
                   issueContext config owner repo)] /\
    (exists entry,
       run_log (store o) = (run_log db ++ [entry])%list /\
       rl_event_type entry = "workflow_trigger" /\
       rl_message entry
       = Some ("Triggering implementation workflow for " ++ issueIdentifier) /\
       rl_metadata entry
       = Some (Js.JObject [("branchName", Js.JString branchName);
                           ("owner", Js.JString owner);
                           ("repo", Js.JString repo)])) /\
    (exists row,
       pending_workflow_triggers (store o)
       = (filter (fun t => negb (String.eqb (pt_agent_session_id t) agentSessionId))
                 (pending_workflow_triggers db) ++ [row])%list /\
       pt_agent_session_id row = agentSessionId /\
       pt_linear_issue_id row = issueId /\
       pt_github_owner row = owner /\
       pt_github_repo row = repo /\
       pt_branch_name row = tc_github_branch config /\
       pt_matched_at row = None).
Proof.
  intros Hconf Hd1 Hlin Hctx Htok Hbr Hok Hdis o.
  destruct (triggerImplementation_outcome env token agentSessionId issueId
              issueIdentifier owner repo ghToken body installationId status status'
              config issueContext existingBranches past db
              Hconf Hd1 Hlin Hctx Htok Hbr Hok Hdis)
    as (branchName & stamp & stamp' & Hname & Hfresh & Hres & Hstore & Hcalls).
  fold o in Hres, Hstore, Hcalls.
  exists branchName, stamp, stamp'.
  split; [exact Hname|]. split; [exact Hfresh|]. split; [exact Hres|].
  split; [exact Hstore|]. split; [exact Hcalls|].
  rewrite Hstore. split.
  - eexists. split; [reflexivity|]. cbn. repeat split.
  - destruct (StoreFacts.createPendingWorkflowTrigger_row stamp'
                (triggerOfDispatch agentSessionId issueId issueIdentifier config
                   owner repo)
                (Sql.logEvent stamp
                   (triggerLogged agentSessionId issueIdentifier branchName owner repo)
                   db))
      as (row & Hrows & Hsession & Hissue & _ & Howner & Hrepo & Hbranch & Hnull & _).
    exists row. split; [exact Hrows|]. repeat split; assumption.
Qed.

Lemma dispatch_records_trigger_first_witness :
  let o := triggerImplementation Scenario.quiet "lin_oauth" "session-123"
             "issue-456" "ABC-123" Scenario.configured [] emptyDB in
  exists branchName entry row,
    Branch.findAvailableBranchName "ABC-123" ["main"] = Some branchName /\
    result o = Ok tt /\
    run_log (store o) = [entry] /\
    rl_event_type entry = "workflow_trigger" /\
    pending_workflow_triggers (store o) = [row] /\
    pt_agent_session_id row = "session-123" /\
    pt_branch_name row = "main" /\
    pt_matched_at row = None.
Proof.
  pose proof (dispatch_records_trigger_first Scenario.quiet
                "lin_oauth" "session-123" "issue-456" "ABC-123" "acme" "backend"
                "ghs_token" EmptyString 12345 200 204 Scenario.configured
                Cases.context ["main"] [] emptyDB
                eq_refl (fun _ _ => eq_refl) (fun _ _ _ => eq_refl)
                (fun _ => eq_refl) (fun _ => eq_refl) (fun _ => eq_refl)
                eq_refl (fun _ _ => eq_refl)) as H.
  cbv zeta in *.
  destruct H as (branchName & _ & _ & Hb & _ & Hr & _ & _
                 & (entry & Hlog & Htype & _)
                 & (row & Hrows & Hsession & _ & _ & _ & Hbranch & Hnull)).
  exists branchName, entry, row.
  split; [exact Hb|]. split; [exact Hr|]. split; [exact Hlog|].
  split; [exact Htype|]. split; [exact Hrows|].
  split; [exact Hsession|]. split; [exact Hbranch | exact Hnull].
Defined.

Lemma filter_none {A : Type} (f : A -> bool) (l : list A) :
  (forall x, In x l -> f x = false) -> filter f l = [].
Proof.
  induction l as [|a l IH]; cbn; intros H; [reflexivity|].
  rewrite (H a (or_introl eq_refl)). apply IH. intros x Hx. apply H. now right.
Qed.

(** X22. Dispatch and start compose. After a dispatch for a session, the
    first CI event of a new run of that repository on the configured
    branch creates a queued workflow run bound to that session and issue,
    findable under the run id, and uses the trigger up (no unmatched
    trigger of the session is left), provided no other trigger was waiting
    on that repository and branch. *)
Theorem dispatched_run_is_bound_to_its_session (env : Env)
    (token agentSessionId issueId issueIdentifier owner repo ghToken body : string)
    (installationId status status' : N) (config : TeamConfig)
    (issueContext : IssueContext) (existingBranches : list string)
    (event : GitHubWorkflowRunWebhook) (past : History) (db : DB) :
  githubConfiguration config = Some (owner, repo, installationId) ->
  (forall h q, d1_fault env h q = None) ->
  (forall h t c, linear_mutation env h t c = Ok tt) ->
  (forall h, linear_issue_context env h token issueId = Ok issueContext) ->
  (forall h, github_access_token env h installationId = Ok ghToken) ->
  (forall h, github_branches env h owner repo = Ok (status, existingBranches)) ->
  responseOk status = true ->
  (forall h c, github_dispatch env h c = Ok (status', body)) ->
  wrw_owner_login event = owner -> wrw_repo_name event = repo ->
  wrw_head_branch event = tc_github_branch config ->
  Sql.getWorkflowRun db (wrw_id event) = None ->
  (forall t, In t (pending_workflow_triggers db) ->
             triggerCandidate owner repo (tc_github_branch config) t = false) ->
  let dispatched := triggerImplementation env token agentSessionId issueId
                      issueIdentifier config past db in
  let started := resolveWorkflowRun env event (past ++ emitted dispatched)%list
                   (store dispatched) in
  exists run,
    result started = Ok (Some run) /\
    Sql.getWorkflowRun (store started) (wrw_id event) = Some run /\
    wr_agent_session_id run = agentSessionId /\
    wr_linear_issue_id run = issueId /\
    wr_linear_issue_identifier run
    = Js.orString (Js.orNull (Some issueIdentifier)) EmptyString /\
    wr_branch_name run = tc_github_branch config /\
    wr_status run = queued /\
    forall t, In t (pending_workflow_triggers (store started)) ->
              pt_agent_session_id t = agentSessionId -> pt_matched_at t <> None.
Proof.
  intros Hconf Hd1 Hlin Hctx Htok Hbr Hok Hdis Eo Er Eb Hnew Hnone dispatched started.
  destruct (triggerImplementation_outcome env token agentSessionId issueId
              issueIdentifier owner repo ghToken body installationId status status'
              config issueContext existingBranches past db
              Hconf Hd1 Hlin Hctx Htok Hbr Hok Hdis)
    as (branchName & stamp & stamp' & _ & _ & _ & Hstore & _).
  subst started. cbv zeta in Hstore. fold dispatched in Hstore.
  set (history := (past ++ emitted dispatched)%list).
  rewrite Hstore. clearbody history. clear Hstore dispatched.
  set (logged := Sql.logEvent stamp
                   (triggerLogged agentSessionId issueIdentifier branchName owner repo) db).
  set (trigger := triggerOfDispatch agentSessionId issueId issueIdentifier config owner repo).
  set (recorded := Sql.createPendingWorkflowTrigger stamp' trigger logged).
  destruct (StoreFacts.createPendingWorkflowTrigger_row stamp' trigger logged)
    as (row & Hrows & Hsession & Hissue & Hident & Howner & Hrepo & Hbranch & Hnull & _).
  fold recorded in Hrows.
  assert (Hmatch : Sql.matchPendingWorkflowTrigger recorded (wrw_owner_login event)
                     (wrw_repo_name event) (wrw_head_branch event) = Some row).
  { unfold Sql.matchPendingWorkflowTrigger. rewrite Hrows, filter_app.
    rewrite Eo, Er, Eb.
    rewrite (filter_none (triggerCandidate owner repo (tc_github_branch config))).
    - cbn. unfold triggerCandidate. rewrite Howner, Hrepo, Hbranch, Hnull.
      cbn. now rewrite !String.eqb_refl.
    - intros t Ht. apply filter_In in Ht as [Ht _]. now apply Hnone. }
  assert (Hfresh : Sql.getWorkflowRun recorded (wrw_id event) = None) by exact Hnew.
  clearbody recorded.
  unfold resolveWorkflowRun. cbv zeta.
  pose proof (SqlFacts.createWorkflowRun_fresh
                (sql_now env ((history ++ [EvDb (QGetWorkflowRun (wrw_id event))])
                              ++ [EvDb (QMatchPendingWorkflowTrigger (wrw_owner_login event)
                                          (wrw_repo_name event) (wrw_head_branch event))])%list)
                (runFromTrigger event row) recorded Hfresh) as Hc.
  cbv zeta in Hc. unfold runFromTrigger in Hc.
  step_request. rewrite !Hd1. step_request. rewrite Hfresh. step_request.
  rewrite !Hd1. step_request. rewrite Hmatch. step_request. rewrite !Hd1.
  rewrite Hc. step_request. rewrite ?Hd1. step_request.
  eexists. split; [reflexivity|]. cbn [wr_agent_session_id wr_linear_issue_id
    wr_linear_issue_identifier wr_branch_name wr_status runRow nr_agentSessionId
    nr_linearIssueId nr_linearIssueIdentifier nr_branchName].
  split.
  { unfold Sql.getWorkflowRun in *. cbn.
    apply SqlFacts.find_app_none; [exact Hfresh | cbn; apply N.eqb_refl]. }
  split; [exact Hsession|]. split; [exact Hissue|].
  split; [now rewrite Hident|]. split; [exact Eb|]. split; [reflexivity|].
  intros t Ht Hs. cbn in Ht. apply in_map_iff in Ht as (t0 & <- & Ht0).
  rewrite Hrows in Ht0. apply in_app_or in Ht0 as [Ht0|[<-|[]]].
  - apply filter_In in Ht0 as [_ Hc0].
    destruct (pt_id t0 =? pt_id row); cbn in Hs; rewrite Hs in Hc0;
      cbn in Hc0; rewrite String.eqb_refl in Hc0; discriminate.
  - rewrite N.eqb_refl. discriminate.
Qed.

Lemma dispatched_run_is_bound_to_its_session_witness :
  let dispatched := triggerImplementation Scenario.quiet "lin_oauth" "session-123"
                      "issue-456" "ABC-123" Scenario.configured [] emptyDB in
  let started := resolveWorkflowRun Scenario.quiet Scenario.startedPayload
                   (emitted dispatched) (store dispatched) in
  exists run,
    result started = Ok (Some run) /\
    wr_agent_session_id run = "session-123" /\
    wr_linear_issue_id run = "issue-456".
Proof.
  pose proof (dispatched_run_is_bound_to_its_session
                Scenario.quiet
                "lin_oauth" "session-123" "issue-456" "ABC-123" "acme" "backend"
                "ghs_token" EmptyString 12345 200 204 Scenario.configured
                Cases.context ["main"] Scenario.startedPayload [] emptyDB
                eq_refl (fun _ _ => eq_refl) (fun _ _ _ => eq_refl)
                (fun _ => eq_refl) (fun _ => eq_refl) (fun _ => eq_refl)
                eq_refl (fun _ _ => eq_refl) eq_refl eq_refl eq_refl eq_refl
                (fun _ (H : False) => match H with end)) as H.
  cbv zeta in *. destruct H as (run & Hr & _ & Hs & Hi & _).
  exists run. repeat split; assumption.
Defined.



(** X23. One trigger binds one run. When a single trigger waits on a
    repository and branch, the first unknown run seen there is bound to its
    session; an event of a second unknown run of the same repository and
    branch is then ignored: two lookups, nothing written, no run created. *)
Theorem one_dispatch_binds_one_run (env : Env)
    (event later : GitHubWorkflowRunWebhook) (trigger : PendingWorkflowTrigger)
    (past : History) (db : DB) :
  let owner := wrw_owner_login event in
  let repo := wrw_repo_name event in
  let branch := wrw_head_branch event in
  (forall h q, d1_fault env h q = None) ->
  wrw_owner_login later = owner -> wrw_repo_name later = repo ->
  wrw_head_branch later = branch -> wrw_id later <> wrw_id event ->
  Sql.getWorkflowRun db (wrw_id event) = None ->
  Sql.getWorkflowRun db (wrw_id later) = None ->
  Sql.matchPendingWorkflowTrigger db owner repo branch = Some trigger ->
  (forall other, In other (pending_workflow_triggers db) ->
                 triggerCandidate owner repo branch other = true ->
                 pt_id other = pt_id trigger) ->
  let first := resolveWorkflowRun env event past db in
  let second := handleWorkflowRun env later (past ++ emitted first)%list (store first) in
  (exists run, result first = Ok (Some run) /\
               wr_agent_session_id run = pt_agent_session_id trigger) /\
  second
  = {| result := Ok tt; store := store first;
       emitted := [EvDb (QGetWorkflowRun (wrw_id later));
                   EvDb (QMatchPendingWorkflowTrigger owner repo branch)] |} /\
  Sql.getWorkflowRun (store first) (wrw_id later) = None.
Proof.
  intros owner repo branch Hd1 Eo Er Eb Hne Hnew Hnew' Hmatch Honly first second.
  pose proof (SqlFacts.createWorkflowRun_fresh
                (sql_now env ((past ++ [EvDb (QGetWorkflowRun (wrw_id event))])
                              ++ [EvDb (QMatchPendingWorkflowTrigger owner repo branch)])%list)
                (runFromTrigger event trigger) db Hnew) as Hc.
  cbv zeta in Hc. unfold runFromTrigger in Hc. fold owner repo branch in Hc.
  assert (Hfirst : exists (run : WorkflowRun) (stamp' : string),
             first = {| result := Ok (Some run);
                        store := Sql.markPendingWorkflowMatched stamp' (pt_id trigger)
                                   (setWorkflowRuns db (workflow_runs db ++ [run])
                                      (setSeq "workflow_runs" (wr_id run)
                                         (sqlite_sequence db)));
                        emitted := [EvDb (QGetWorkflowRun (wrw_id event));
                                    EvDb (QMatchPendingWorkflowTrigger owner repo branch);
                                    EvDb (QCreateWorkflowRun (runFromTrigger event trigger));
                                    EvDb (QMarkPendingWorkflowMatched (pt_id trigger))] |} /\
             wr_agent_session_id run = pt_agent_session_id trigger /\
             wr_github_run_id run = wrw_id event).
  { subst first. unfold resolveWorkflowRun. cbv zeta. fold owner repo branch.
    step_request. rewrite !Hd1. step_request. rewrite Hnew. step_request.
    rewrite !Hd1. step_request. rewrite Hmatch. step_request. rewrite !Hd1.
    rewrite Hc. step_request. rewrite ?Hd1. step_request.
    match goal with
    | |- exists _ _, {| result := Ok (Some ?r); store := _; emitted := _ |} = _ /\ _ =>
        exists r
    end.
    eexists. split; [reflexivity|]. split; reflexivity. }
  destruct Hfirst as (run & stamp' & Hfirst & Hsession & Hid).
  clearbody first. subst first. cbn [result store emitted] in *.
  split; [exists run; auto|].
  set (bound := Sql.markPendingWorkflowMatched stamp' (pt_id trigger)
                  (setWorkflowRuns db (workflow_runs db ++ [run])
                     (setSeq "workflow_runs" (wr_id run) (sqlite_sequence db)))) in *.
  assert (Hlater : Sql.getWorkflowRun bound (wrw_id later) = None).
  { unfold Sql.getWorkflowRun in *. subst bound. cbn.
    rewrite StoreFacts.find_snoc_other; [exact Hnew'|].
    rewrite Hid. now apply N.eqb_neq, not_eq_sym. }
  assert (Hgone : Sql.matchPendingWorkflowTrigger bound owner repo branch = None).
  { unfold Sql.matchPendingWorkflowTrigger. rewrite filter_none; [reflexivity|].
    intros t Ht. subst bound. cbn in Ht. apply in_map_iff in Ht as (t0 & <- & Ht0).
    destruct (pt_id t0 =? pt_id trigger) eqn:E.
    - unfold triggerCandidate. cbn. apply andb_false_r.
    - destruct (triggerCandidate owner repo branch t0) eqn:C; [|reflexivity].
      apply N.eqb_neq in E. elim E. now apply Honly. }
  split; [|exact Hlater].
  subst second. clearbody bound.
  unfold handleWorkflowRun, resolveWorkflowRun. cbv zeta. rewrite Eo, Er, Eb.
  step_request. rewrite !Hd1. step_request. rewrite Hlater. step_request.
  rewrite !Hd1. step_request. rewrite Hgone. step_request. reflexivity.
Qed.

Lemma one_dispatch_binds_one_run_witness :
  let first := resolveWorkflowRun Scenario.quiet Scenario.startedPayload []
                 Cases.dbWaiting in
  (exists run, result first = Ok (Some run) /\
               wr_agent_session_id run = "session-123") /\
  store (handleWorkflowRun Scenario.quiet Cases.laterPayload (emitted first)
           (store first)) = store first /\
  Sql.getWorkflowRun (store first) 987655 = None.
Proof.
  pose proof (one_dispatch_binds_one_run Scenario.quiet
                Scenario.startedPayload Cases.laterPayload Cases.waiting []
                Cases.dbWaiting
                (fun _ _ => eq_refl) eq_refl eq_refl eq_refl
                ltac:(discriminate) eq_refl eq_refl eq_refl) as H.
  cbv zeta in *.
  destruct H as (Hfirst & Hsecond & Hnone).
  { intros other [<-|[]] _. reflexivity. }
  split; [exact Hfirst|]. split; [|exact Hnone].
  change (([] ++ emitted (resolveWorkflowRun Scenario.quiet Scenario.startedPayload []
                            Cases.dbWaiting))%list)
    with (emitted (resolveWorkflowRun Scenario.quiet Scenario.startedPayload []
                     Cases.dbWaiting)) in Hsecond.
  now rewrite Hsecond.
Defined.

End TriggerFacts.

(* ================================================================= *)
(** ** Cancellation *)

Module CancelFacts.
Import Schema Sql SqlMore Effects Services Handlers Statements SessionStatements CancelStatements Run.
Import SessionFacts.

Section Cancel.

Variables (env : Env) (payload : LinearUnassignWebhook) (run : WorkflowRun)
  (installation : GitHubInstallation) (workspaceId token ghToken : string)
  (status : N) (past : History) (db : DB).

Hypothesis store_answers : forall h q, d1_fault env h q = None.
Hypothesis active :
  Sql.getActiveWorkflowRunByIssue db (un_issueId payload) = Some run.
Hypothesis installed :
  Sql.getGitHubInstallationByAccount db (wr_github_owner run) = Some installation.
Hypothesis workspace : wr_linear_workspace_id run = Some workspaceId.
Hypothesis workspace_named : Js.truthy workspaceId = true.
Hypothesis authorised : forall h, oauth_token env h workspaceId = Ok (Some token).
Hypothesis token_named : Js.truthy token = true.
Hypothesis app_token :
  forall h, github_access_token env h (gi_installation_id installation) = Ok ghToken.
Hypothesis cancel_answer :
  forall h, github_cancel env h (wr_github_owner run) (wr_github_repo run)
              (wr_github_run_id run) = Ok status.

(** X24. Unassignment with an active run, the CI platform accepting the
    cancellation or answering 409 (the run is already over): the run is
    stored as completed with conclusion 'cancelled' and is no longer the
    active run of the issue, the pending configuration of its session is
    deleted, the user is told, the calls are issued in the order given, and
    the RunLog has two more entries, [agent_unassigned] and then
    [workflow_cancelled] with the message
    [Workflow cancelled by user unassign]. *)
Theorem unassignment_cancels_active_run :
  responseOk status = true \/ status = 409 ->
  (forall h t c, linear_mutation env h t c = Ok tt) ->
  let o := handleInboxNotification env payload past db in
  result o = Ok tt /\
  (exists stamp stamp' stamp'',
     store o
     = Sql.deletePendingConfig (wr_agent_session_id run)
         (Sql.logEvent stamp'' (cancelledEvent run)
            (Sql.updateWorkflowRun stamp' (wr_github_run_id run) cancelled
               (Sql.logEvent stamp (unassignedEvent payload) db)))) /\
  (forall stored, In stored (workflow_runs (store o)) ->
                  wr_github_run_id stored = wr_github_run_id run ->
                  wr_status stored = completed /\
                  wr_conclusion stored = Some "cancelled") /\
  (forall next, Sql.getActiveWorkflowRunByIssue (store o) (un_issueId payload)
                = Some next ->
                wr_github_run_id next <> wr_github_run_id run) /\
  Sql.getPendingConfig (store o) (wr_agent_session_id run) = None /\
  emitted o
  = (cancellationRequest payload run installation workspaceId
     ++ [EvDb (QUpdateWorkflowRun (wr_github_run_id run) cancelled);
         EvLinear token (CreateAgentActivity (wr_agent_session_id run)
                           (Thought "Workflow cancelled"));
         EvDb (QLogEvent (cancelledEvent run));
         EvDb (QDeletePendingConfig (wr_agent_session_id run))])%list /\
  (exists unassigned entry,
     run_log (store o) = (run_log db ++ [unassigned; entry])%list /\
     rl_event_type unassigned = "agent_unassigned" /\
     rl_event_type entry = "workflow_cancelled" /\
     rl_message entry = Some "Workflow cancelled by user unassign" /\
     (wr_agent_session_id run <> EmptyString ->
        rl_agent_session_id entry = Some (wr_agent_session_id run))).
Proof.
  intros Hstatus Hlin o. subst o.
  assert (Hpass : negb (responseOk status) && negb (status =? 409) = false).
  { destruct Hstatus as [-> | ->]; [reflexivity|]. apply andb_false_r. }
  unfold handleInboxNotification, cancelWorkflow. cbv zeta.
  fold (unassignedEvent payload) (cancelledEvent run) cancelled.
  step_request. rewrite !store_answers. step_request.
  rewrite InboxFacts.getActive_after_log, active. step_request.
  rewrite !store_answers. step_request.
  match goal with
  | |- context [Sql.getGitHubInstallationByAccount (Sql.logEvent ?s ?e db) ?a] =>
      change (Sql.getGitHubInstallationByAccount (Sql.logEvent s e db) a)
        with (Sql.getGitHubInstallationByAccount db a)
  end.
  rewrite installed, workspace, workspace_named. cbn [negb]. step_request.
  rewrite authorised. step_request. rewrite token_named. cbn [negb].
  step_request. rewrite app_token. step_request. rewrite cancel_answer.
  rewrite Hpass. step_request.
  change (noUpdates cancelled) with false. step_request.
  rewrite ?store_answers. step_request. rewrite Hlin. step_request.
  rewrite ?store_answers. step_request.
  split; [reflexivity|]. split; [do 3 eexists; reflexivity|].
  split; [|split; [|split; [|split; [reflexivity|]]]].
  - intros stored HIn Hid. cbn in HIn.
    apply in_map_iff in HIn as (r0 & <- & _).
    destruct (wr_github_run_id r0 =? wr_github_run_id run) eqn:E.
    + split; reflexivity.
    + apply N.eqb_neq in E. contradiction.
  - intros next Hnext Hid.
    apply StoreFacts.getActiveWorkflowRunByIssue_some in Hnext
      as (HIn & _ & Hactive & _).
    cbn in HIn. apply in_map_iff in HIn as (r0 & <- & _).
    destruct (wr_github_run_id r0 =? wr_github_run_id run) eqn:E.
    + now elim Hactive.
    + apply N.eqb_neq in E. contradiction.
  - apply StoreFacts.getPendingConfig_deleted.
  - do 2 eexists. split.
    { cbn [run_log Sql.deletePendingConfig Sql.logEvent Sql.updateWorkflowRun
           setRunLog setWorkflowRuns setPendingConfigs].
      rewrite <- app_assoc. reflexivity. }
    cbn. repeat split.
    intros Hn. destruct (wr_agent_session_id run); [congruence | reflexivity].
Qed.

(** X25. When the CI platform refuses the cancellation with a status that
    is neither a success nor 409, the unassignment throws with that status
    and the run stays active: only the 'agent_unassigned' entry was
    written, the run is not updated, and nothing is sent to the user. *)
Theorem refused_cancellation_changes_nothing :
  responseOk status = false -> status <> 409 ->
  let o := handleInboxNotification env payload past db in
  result o = Throw (Error ("Failed to cancel workflow: " ++ Js.numberToString status)) /\
  (exists stamp, store o = Sql.logEvent stamp (unassignedEvent payload) db) /\
  Sql.getActiveWorkflowRunByIssue (store o) (un_issueId payload) = Some run /\
  emitted o = cancellationRequest payload run installation workspaceId.
Proof.
  intros Hrefused H409 o. subst o.
  assert (Hfail : negb (responseOk status) && negb (status =? 409) = true).
  { rewrite Hrefused. apply N.eqb_neq in H409. now rewrite H409. }
  unfold handleInboxNotification, cancelWorkflow. cbv zeta.
  fold (unassignedEvent payload).
  step_request. rewrite !store_answers. step_request.
  rewrite InboxFacts.getActive_after_log, active. step_request.
  rewrite !store_answers. step_request.
  match goal with
  | |- context [Sql.getGitHubInstallationByAccount (Sql.logEvent ?s ?e db) ?a] =>
      change (Sql.getGitHubInstallationByAccount (Sql.logEvent s e db) a)
        with (Sql.getGitHubInstallationByAccount db a)
  end.
  rewrite installed, workspace, workspace_named. cbn [negb]. step_request.
  rewrite authorised. step_request. rewrite token_named. cbn [negb].
  step_request. rewrite app_token. step_request. rewrite cancel_answer.
  rewrite Hfail. step_request.
  split; [reflexivity|]. split; [eexists; reflexivity|].
  split; [|reflexivity].
  now rewrite InboxFacts.getActive_after_log.
Qed.



End Cancel.

Lemma unassignment_cancels_active_run_witness :
  let o := handleInboxNotification Scenario.quiet Scenario.unassignPayload []
             Cases.dbRunning in
  result o = Ok tt /\
  Sql.getPendingConfig (store o) "session-123" = None /\
  (forall stored, In stored (workflow_runs (store o)) ->
                  wr_github_run_id stored = 987654 ->
                  wr_status stored = completed /\
                  wr_conclusion stored = Some "cancelled") /\
  exists unassigned entry,
    run_log (store o) = [unassigned; entry] /\
    rl_event_type unassigned = "agent_unassigned" /\
    rl_event_type entry = "workflow_cancelled" /\
    rl_message entry = Some "Workflow cancelled by user unassign".
Proof.
  pose proof (unassignment_cancels_active_run Scenario.quiet
                Scenario.unassignPayload (Scenario.runWith in_progress "ABC-123")
                Cases.installed "workspace-1" "lin_oauth" "ghs_token" 202 []
                Cases.dbRunning
                (fun _ _ => eq_refl) eq_refl eq_refl eq_refl eq_refl
                (fun _ => eq_refl) eq_refl (fun _ => eq_refl) (fun _ => eq_refl)
                (or_introl eq_refl) (fun _ _ _ => eq_refl)) as H.
  cbv zeta in *.
  destruct H as (Hr & _ & Hruns & _ & Hp & _
                 & (unassigned & entry & Hlog & Hu & He & Hm & _)).
  split; [exact Hr|]. split; [exact Hp|]. split; [exact Hruns|].
  exists unassigned, entry.
  split; [exact Hlog|]. split; [exact Hu|]. split; [exact He | exact Hm].
Defined.

Lemma refused_cancellation_changes_nothing_witness :
  let o := handleInboxNotification Cases.refusing Scenario.unassignPayload []
             Cases.dbRunning in
  result o = Throw (Error "Failed to cancel workflow: 500") /\
  Sql.getActiveWorkflowRunByIssue (store o) "issue-456"
  = Some (Scenario.runWith in_progress "ABC-123").
Proof.
  pose proof (refused_cancellation_changes_nothing Cases.refusing
                Scenario.unassignPayload (Scenario.runWith in_progress "ABC-123")
                Cases.installed "workspace-1" "lin_oauth" "ghs_token" 500 []
                Cases.dbRunning
                (fun _ _ => eq_refl) eq_refl eq_refl eq_refl eq_refl
                (fun _ => eq_refl) eq_refl (fun _ => eq_refl) (fun _ => eq_refl)
                eq_refl ltac:(discriminate)) as H.
  cbv zeta in *. destruct H as (Hr & _ & Ha & _).
  split; [exact Hr | exact Ha].
Defined.

End CancelFacts.

(* ================================================================= *)
(** ** The OAuth routes and the token functions *)

Module OAuthFacts.
Import Sql OAuth OAuthStatements.

Ltac step_flow :=
  cbv beta iota zeta delta
    [bind ret tryCatch d1 fetch dateNow randomUUID tenMinutesAgo
     result store emitted].

(** X26. A callback that carries an error, lacks the code or the state,
    or carries a state that is not stored, writes nothing and never leaves
    the worker: no token is requested and none is stored. It is answered
    with a 400 page, unless the lookup of the state itself failed. *)
Theorem callback_without_stored_state_is_refused (env : Env) (origin : string)
    (query : CallbackQuery) (past : Trace) (s : Store) :
  wellFormed query = false \/ selectState s (stateOf query) = None ->
  let o := callback env origin query past s in
  store o = s /\
  existsb leavesWorker (emitted o) = false /\
  (isRefusal (result o) = true \/
   exists e, d1_fault env past (SelectState (stateOf query)) = Some e /\
             result o = Throw e).
Proof.
  intros H o. subst o. unfold callback, wellFormed, stateOf in *.
  destruct (Js.truthyOpt (q_error query)) eqn:E.
  { repeat split. now left. }
  destruct (q_code query) as [code|]; [|repeat split; now left].
  destruct (q_state query) as [state|]; [|repeat split; now left].
  cbn [Js.truthyOpt negb andb] in H.
  destruct (Js.truthy code) eqn:C; [|repeat split; now left].
  destruct (Js.truthy state) eqn:S; [|repeat split; now left].
  cbn [negb orb andb] in *. destruct H as [H|H]; [discriminate|].
  step_flow. destruct (d1_fault env past (SelectState state)) as [e|] eqn:F.
  - repeat split. right. now exists e.
  - step_flow. rewrite H. repeat split. now left.
Qed.

Lemma callback_without_stored_state_is_refused_witness :
  let o := OAuth.callback Cases.office "https://agent.example" Cases.forged []
             Cases.oneState in
  OAuth.store o = Cases.oneState /\
  existsb OAuthStatements.leavesWorker (OAuth.emitted o) = false.
Proof.
  pose proof (callback_without_stored_state_is_refused Cases.office
                "https://agent.example" Cases.forged [] Cases.oneState
                (or_intror eq_refl)) as H.
  cbv zeta in *. destruct H as (Hs & He & _). split; assumption.
Defined.


Lemma selectState_deleted (state : string) (s : Store) :
  selectState (deleteState state s) state = None.
Proof.
  unfold selectState, deleteState. cbn.
  induction (oauth_states s) as [|r rows IH]; [reflexivity|]. cbn.
  destruct (String.eqb (os_state r) state) eqn:E; cbn; [exact IH|].
  now rewrite E.
Qed.

(** X27. A state is good for one callback. Once a well-formed callback
    has been handled, whatever the token exchange gave, the state is no
    longer stored, and a second callback with the same state is refused
    after the lookup, with nothing written. *)
Theorem callback_state_is_used_once (env : Env) (origin : string)
    (query : CallbackQuery) (past past' : Trace) (s : Store) :
  wellFormed query = true ->
  (forall h, d1_fault env h (SelectState (stateOf query)) = None) ->
  (forall h, d1_fault env h (DeleteState (stateOf query)) = None) ->
  let first := callback env origin query past s in
  selectState (store first) (stateOf query) = None /\
  callback env origin query past' (store first)
  = {| result := Ok (unknownState : Response); store := store first;
       emitted := [SelectState (stateOf query)] |}.
Proof.
  intros Hwf F1 F2 first.
  unfold wellFormed, stateOf in *.
  destruct (Js.truthyOpt (q_error query)) eqn:E; [discriminate|].
  destruct (q_code query) as [code|] eqn:Qc; [|discriminate].
  destruct (q_state query) as [state|] eqn:Qs;
    [|cbn in Hwf; now rewrite andb_false_r in Hwf].
  cbn [Js.truthyOpt negb andb] in Hwf. apply andb_prop in Hwf as [C S].
  assert (Hgone : selectState (store first) state = None).
  { subst first. unfold callback. rewrite E, Qc, Qs, C, S. cbn [negb orb].
    step_flow. rewrite F1.
    destruct (selectState s state) eqn:Held; step_flow; [|exact Held].
    rewrite F2.
    destruct (token_endpoint env _ _) as [[status data]|e]; step_flow;
      [|apply selectState_deleted].
    cbn [fst snd]. destruct (Services.responseOk status); cbn [negb]; step_flow;
      [|apply selectState_deleted].
    destruct (organization_query env _ _) as [organization|e]; step_flow;
      [|apply selectState_deleted].
    destruct (Js.truthy match organization with
                        | Some o => org_id o
                        | None => EmptyString
                        end); cbn [negb]; step_flow; [|apply selectState_deleted].
    destruct (d1_fault env _ (UpsertToken _ _ _)); step_flow;
      apply selectState_deleted. }
  split; [exact Hgone|].
  remember (store first) as s1 eqn:Es. clear Es first.
  unfold callback. rewrite E, Qc, Qs, C, S. cbn [negb orb].
  step_flow. rewrite F1, Hgone. reflexivity.
Qed.

Lemma callback_state_is_used_once_witness :
  let first := OAuth.callback Cases.office "https://agent.example" Cases.returning
                 [] Cases.oneState in
  OAuth.selectState (OAuth.store first) "state-1" = None /\
  OAuth.result (OAuth.callback Cases.office "https://agent.example" Cases.returning
                  (OAuth.emitted first) (OAuth.store first))
  = Ok OAuth.unknownState.
Proof.
  pose proof (callback_state_is_used_once Cases.office
                "https://agent.example" Cases.returning []
                (OAuth.emitted (OAuth.callback Cases.office "https://agent.example"
                                  Cases.returning [] Cases.oneState))
                Cases.oneState eq_refl (fun _ => eq_refl) (fun _ => eq_refl)) as H.
  cbv zeta in *. destruct H as (Hs & Hc). split; [exact Hs|].
  now rewrite Hc.
Defined.


Lemma token_held (workspaceId : string) (rows : list OAuthToken) :
  existsb (fun r => String.eqb (ot_workspace_id r) workspaceId) rows = false <->
  find (fun r => String.eqb (ot_workspace_id r) workspaceId) rows = None.
Proof.
  induction rows as [|r rows IH]; cbn; [tauto|].
  destruct (String.eqb (ot_workspace_id r) workspaceId); cbn; [|exact IH].
  split; discriminate.
Qed.

Lemma selectToken_upserted (now workspaceId accessToken scope : string) (s : Store) :
  (exists row,
     selectToken (upsertToken now workspaceId accessToken scope s) workspaceId
     = Some row /\
     ot_access_token row = accessToken /\ ot_scope row = Some scope) /\
  forall other, other <> workspaceId ->
    selectToken (upsertToken now workspaceId accessToken scope s) other
    = selectToken s other.
Proof.
  unfold selectToken, upsertToken. cbn.
  destruct (existsb _ (oauth_tokens s)) eqn:X.
  - split.
    + induction (oauth_tokens s) as [|r rows IH]; cbn in *; [discriminate|].
      destruct (String.eqb (ot_workspace_id r) workspaceId) eqn:E; cbn.
      * rewrite E. eexists. split; [reflexivity|]. split; reflexivity.
      * rewrite E. apply IH. exact X.
    + intros other Hne. clear X.
      induction (oauth_tokens s) as [|r rows IH]; [reflexivity|]. cbn.
      destruct (String.eqb (ot_workspace_id r) workspaceId) eqn:E; cbn.
      * apply String.eqb_eq in E. rewrite E.
        destruct (String.eqb workspaceId other) eqn:E'; [|exact IH].
        apply String.eqb_eq in E'. congruence.
      * destruct (String.eqb (ot_workspace_id r) other); [reflexivity | exact IH].
  - apply token_held in X. split.
    + eexists. split.
      * apply SqlFacts.find_app_none; [exact X | cbn; apply String.eqb_refl].
      * split; reflexivity.
    + intros other Hne. apply StoreFacts.find_snoc_other. cbn.
      apply String.eqb_neq. congruence.
Qed.

(** X28. An accepted callback: the state is stored, the exchange succeeds
    and the organization is known. The token is stored under the
    organization's id with the scope (empty when absent), tokens of other
    workspaces are untouched, the page shows the organization's name
    escaped, so without markup characters, and the calls are issued in the
    order given. *)
Theorem accepted_callback_stores_the_token (env : Env) (origin code stored : string)
    (query : CallbackQuery) (status : N) (data : TokenAnswer)
    (organization : Organization) (past : Trace) (s : Store) :
  wellFormed query = true ->
  q_code query = Some code ->
  selectState s (stateOf query) = Some stored ->
  (forall h q, d1_fault env h q = None) ->
  (forall h form, token_endpoint env h form = Ok (status, data)) ->
  Services.responseOk status = true ->
  (forall h token, organization_query env h token = Ok (Some organization)) ->
  Js.truthy (org_id organization) = true ->
  let o := callback env origin query past s in
  let workspaceName := Js.orString (Some (org_name organization)) "Unknown" in
  let scope := Js.orString (ta_scope data) EmptyString in
  result o = Ok (Html 200 (installedPage (Html.escapeHtml workspaceName))) /\
  TextStatements.allChars (fun c => negb (TextStatements.markupChar c))
    (Html.escapeHtml workspaceName) = true /\
  (exists row,
     selectToken (store o) (org_id organization) = Some row /\
     ot_access_token row = ta_access_token data /\ ot_scope row = Some scope) /\
  (forall other, other <> org_id organization ->
     selectToken (store o) other = selectToken s other) /\
  emitted o
  = [SelectState (stateOf query); DeleteState (stateOf query);
     PostToken [("grant_type", "authorization_code"); ("code", code);
                ("redirect_uri", origin ++ "/oauth/callback");
                ("client_id", LINEAR_CLIENT_ID env);
                ("client_secret", LINEAR_CLIENT_SECRET env)];
     QueryOrganization (ta_access_token data);
     UpsertToken (org_id organization) (ta_access_token data) scope].
Proof.
  intros Hwf Qc Hheld Hd1 Htok Hok Horg Hid o workspaceName scope.
  subst o workspaceName scope.
  unfold wellFormed, stateOf in *. rewrite Qc in Hwf.
  destruct (Js.truthyOpt (q_error query)) eqn:E; [discriminate|].
  destruct (q_state query) as [state|] eqn:Qs;
    [|cbn in Hwf; now rewrite andb_false_r in Hwf].
  cbn [Js.truthyOpt negb andb] in Hwf. apply andb_prop in Hwf as [C S].
  unfold callback. rewrite E, Qc, Qs, C, S. cbn [negb orb].
  step_flow. rewrite !Hd1. step_flow. rewrite Hheld. step_flow.
  rewrite !Hd1. step_flow. rewrite Htok. cbn [fst snd]. rewrite Hok.
  cbn [negb]. step_flow. rewrite Horg. step_flow. rewrite Hid. cbn [negb].
  step_flow. rewrite !Hd1. step_flow.
  split; [reflexivity|]. split; [apply HtmlFacts.escapeHtml_clean|].
  match goal with
  | |- context [upsertToken ?now ?w ?a ?sc ?st] =>
      destruct (selectToken_upserted now w a sc st) as [Hrow Hother]
  end.
  split; [exact Hrow|]. split; [|reflexivity].
  intros other Hne. rewrite (Hother other Hne). reflexivity.
Qed.

Lemma accepted_callback_stores_the_token_witness :
  let o := OAuth.callback Cases.office "https://agent.example" Cases.returning []
             Cases.oneState in
  OAuth.result o
  = Ok (OAuth.Html 200 (OAuth.installedPage "Acme &lt;Labs&gt;")) /\
  option_map OAuth.ot_access_token (OAuth.selectToken (OAuth.store o) "workspace-1")
  = Some "lin_oauth_2".
Proof.
  pose proof (accepted_callback_stores_the_token Cases.office
                "https://agent.example" "code-1" "state-1" Cases.returning 200
                Cases.granted Cases.acme [] Cases.oneState
                eq_refl eq_refl eq_refl (fun _ _ => eq_refl) (fun _ _ => eq_refl)
                eq_refl (fun _ _ => eq_refl) eq_refl) as H.
  cbv zeta in *. destruct H as (Hr & _ & (row & Hrow & Ha & _) & _).
  split; [exact Hr|].
  change (OAuth.org_id Cases.acme) with "workspace-1" in Hrow.
  rewrite Hrow. cbn [option_map]. now rewrite Ha.
Defined.


Lemma selectToken_updated (now workspaceId accessToken : string)
    (refreshToken expiresAt : option string) (s : Store) (row : OAuthToken) :
  selectToken s workspaceId = Some row ->
  exists row',
    selectToken (updateToken now workspaceId accessToken refreshToken expiresAt s)
      workspaceId = Some row' /\
    ot_access_token row' = accessToken /\ ot_refresh_token row' = refreshToken /\
    ot_expires_at row' = expiresAt.
Proof.
  unfold selectToken, updateToken. cbn.
  induction (oauth_tokens s) as [|r rows IH]; cbn; [discriminate|].
  destruct (String.eqb (ot_workspace_id r) workspaceId) eqn:E; cbn.
  - intros _. rewrite E. eexists. split; [reflexivity|]. repeat split.
  - rewrite E. exact IH.
Qed.

(** A refresh never throws: it gives up without a write, or stores the
    tokens of the answer and returns the new access token. *)
Lemma refreshOAuthToken_returns (env : Env)
    (workspaceId refreshToken clientId clientSecret : string)
    (past : Trace) (s : Store) :
  let o := refreshOAuthToken env workspaceId refreshToken clientId clientSecret past s in
  (result o = Ok None /\ store o = s) \/
  exists stamp token refresh expiry,
    result o = Ok (Some token) /\
    store o = updateToken stamp workspaceId token refresh expiry s.
Proof.
  intros o. subst o. unfold refreshOAuthToken. step_flow.
  destruct (token_endpoint env past _) as [[status data]|e]; step_flow;
    [|left; split; reflexivity].
  cbn [fst snd]. destruct (Services.responseOk status); cbn [negb]; step_flow;
    [|left; split; reflexivity].
  destruct (d1_fault env _ (UpdateToken _ _ _ _)); step_flow.
  - left. split; reflexivity.
  - right. do 4 eexists. split; reflexivity.
Qed.

(** X29. getOAuthToken, the lookup reaching the store. Without a row the
    answer is null. With a row that is not due for a refresh the stored
    token is returned and nothing else happens. With a row due for a
    refresh the token endpoint is asked with the stored refresh token: when
    it answers with a success status and the update reaches the store, the
    row of the workspace holds the access token, refresh token and expiry
    of the answer, and the new access token is returned (the old one when
    the new one is the empty string); when the endpoint throws, answers
    with another status, or the update fails, the stored token is returned
    and the store is unchanged. *)
Theorem token_lookup_survives_failed_refresh (env : Env) (workspaceId : string)
    (withEnv : bool) (past : Trace) (s : Store) :
  d1_fault env past (SelectToken workspaceId) = None ->
  let o := getOAuthToken env workspaceId withEnv past s in
  let looked := [SelectToken workspaceId] in
  match selectToken s workspaceId with
  | None => o = {| result := Ok None; store := s; emitted := looked |}
  | Some row =>
      let kept (calls : Trace) :=
        o = {| result := Ok (Some (ot_access_token row)); store := s;
               emitted := calls |} in
      if refreshDue env row withEnv (date_now env (past ++ looked)%list)
      then
        let form :=
          [("grant_type", "refresh_token");
           ("refresh_token",
            match ot_refresh_token row with Some t => t | None => EmptyString end);
           ("client_id", LINEAR_CLIENT_ID env);
           ("client_secret", LINEAR_CLIENT_SECRET env)] in
        let asked := (looked ++ [PostToken form])%list in
        match token_endpoint env (past ++ looked)%list form with
        | Throw _ => kept asked
        | Ok (status, data) =>
            if Services.responseOk status then
              let expiresAt :=
                match ta_expires_in data with
                | Some seconds =>
                    if seconds =? 0 then None
                    else Some (to_iso_string env
                                 (date_now env (past ++ asked)%list
                                  + Z.of_N seconds * 1000)%Z)
                | None => None
                end in
              let refresh := Js.orNull (ta_refresh_token data) in
              let write :=
                UpdateToken workspaceId (ta_access_token data) refresh expiresAt in
              match d1_fault env (past ++ asked)%list write with
              | Some _ => kept (asked ++ [write])%list
              | None =>
                  result o
                  = Ok (Some (if Js.truthy (ta_access_token data)
                              then ta_access_token data
                              else ot_access_token row)) /\
                  emitted o = (asked ++ [write])%list /\
                  exists row',
                    selectToken (store o) workspaceId = Some row' /\
                    ot_access_token row' = ta_access_token data /\
                    ot_refresh_token row' = refresh /\
                    ot_expires_at row' = expiresAt
              end
            else kept asked
        end
      else kept looked
  end.
Proof.
  intros F o looked. subst o looked.
  unfold getOAuthToken. step_flow. rewrite F. step_flow.
  destruct (selectToken s workspaceId) as [row|] eqn:Hrow; [|reflexivity].
  unfold refreshDue.
  destruct (ot_refresh_token row) as [refreshToken|]; [|reflexivity].
  destruct (ot_expires_at row) as [expiresAt|]; [|reflexivity].
  destruct (Js.truthy refreshToken && Js.truthy expiresAt && withEnv);
    [|reflexivity].
  cbn [andb]. step_flow.
  destruct (aboutToExpire env _ expiresAt); [|reflexivity].
  unfold refreshOAuthToken. step_flow.
  rewrite !app_nil_r, <- !app_assoc. cbn [app].
  destruct (token_endpoint env _ _) as [[status data]|e]; step_flow;
    [|reflexivity].
  cbn [fst snd]. destruct (Services.responseOk status); cbn [negb]; step_flow;
    [|reflexivity].
  rewrite ?app_nil_r, <- ?app_assoc. cbn [app].
  destruct (d1_fault env _ (UpdateToken _ _ _ _)); step_flow; [reflexivity|].
  cbn [Js.truthyOpt].
  destruct (Js.truthy (ta_access_token data)); step_flow;
    (split; [reflexivity|]); (split; [reflexivity|]);
    match goal with
    | |- context [updateToken ?stamp ?w ?a ?r ?e s] =>
        destruct (selectToken_updated stamp w a r e s row Hrow)
          as (row' & Hsel & Ha & Hr & He)
    end;
    exists row'; repeat split; assumption.
Qed.

Lemma token_lookup_survives_failed_refresh_witness :
  let o := OAuth.getOAuthToken Cases.office "workspace-1" true [] Cases.oneToken in
  OAuth.result o = Ok (Some "lin_oauth_2") /\
  OAuth.emitted o
  = [OAuth.SelectToken "workspace-1";
     OAuth.PostToken [("grant_type", "refresh_token"); ("refresh_token", "refresh-1");
                      ("client_id", "client-id"); ("client_secret", "client-secret")];
     OAuth.UpdateToken "workspace-1" "lin_oauth_2" (Some "refresh-2") (Some "soon")] /\
  exists row,
    OAuth.selectToken (OAuth.store o) "workspace-1" = Some row /\
    OAuth.ot_access_token row = "lin_oauth_2" /\
    OAuth.ot_refresh_token row = Some "refresh-2" /\
    OAuth.ot_expires_at row = Some "soon".
Proof.
  pose proof (token_lookup_survives_failed_refresh Cases.office
                "workspace-1" true [] Cases.oneToken eq_refl) as H.
  cbv zeta in H.
  change (OAuth.selectToken Cases.oneToken "workspace-1")
    with (Some Cases.expiringToken) in H.
  cbv beta iota in H.
  change (OAuthStatements.refreshDue Cases.office Cases.expiringToken true
            (OAuth.date_now Cases.office ([] ++ [OAuth.SelectToken "workspace-1"])%list))
    with true in H.
  cbv beta iota in H.
  exact H.
Defined.

Lemma refreshEach_counts (env : Env) (clientId clientSecret : string)
    (rows : list OAuthToken) :
  forall refreshed failed past s,
  exists a b,
    result (refreshEach env rows clientId clientSecret refreshed failed past s)
    = Ok (a, b) /\
    a + b = refreshed + failed + N.of_nat (List.length rows) /\
    refreshed <= a /\ failed <= b.
Proof.
  induction rows as [|row rows IH]; intros refreshed failed past s.
  - exists refreshed, failed. cbn. repeat split; lia.
  - cbn [refreshEach]. unfold bind at 1.
    match goal with
    | |- context [refreshOAuthToken env ?w ?r ?c ?cs ?h ?st] =>
        pose proof (refreshOAuthToken_returns env w r c cs h st) as R;
        destruct (refreshOAuthToken env w r c cs h st) as [res st' ev]
    end.
    cbn [result store] in R.
    assert (Hres : exists answer, res = Ok answer).
    { destruct R as [[-> _]|(? & ? & ? & ? & -> & _)]; eexists; reflexivity. }
    destruct Hres as [answer ->].
    destruct (Js.truthyOpt answer).
    + destruct (IH (refreshed + 1) failed (past ++ ev)%list st') as (a & b & Hr & Hsum & Ha & Hb).
      destruct (refreshEach env rows clientId clientSecret (refreshed + 1) failed
                  (past ++ ev)%list st') as [r2 s2 ev2].
      cbn [result] in *. exists a, b. split; [exact Hr|].
      cbn [List.length]. lia.
    + destruct (IH refreshed (failed + 1) (past ++ ev)%list st') as (a & b & Hr & Hsum & Ha & Hb).
      destruct (refreshEach env rows clientId clientSecret refreshed (failed + 1)
                  (past ++ ev)%list st') as [r2 s2 ev2].
      cbn [result] in *. exists a, b. split; [exact Hr|].
      cbn [List.length]. lia.
Qed.

(** X30. refreshAllTokens never throws once its selection has reached the
    store, whatever the token endpoint and the store do afterwards, and
    the two counts it returns add up to the number of rows selected: every
    expiring token is counted once, as refreshed or as failed. *)
Theorem refresh_counts_every_expiring_token (env : Env)
    (clientId clientSecret : string) (past : Trace) (s : Store) :
  let threshold := to_iso_string env (date_now env past + bufferMs)%Z in
  d1_fault env past (SelectExpiring threshold) = None ->
  exists refreshed failed,
    result (refreshAllTokens env clientId clientSecret past s) = Ok (refreshed, failed) /\
    refreshed + failed = N.of_nat (List.length (selectExpiring s threshold)).
Proof.
  intros threshold F. unfold refreshAllTokens. step_flow. fold threshold.
  rewrite !app_nil_r. rewrite F. step_flow.
  match goal with
  | |- context [refreshEach env ?rows ?c ?cs ?a ?b ?h ?st] =>
      destruct (refreshEach_counts env c cs rows a b h st) as (x & y & Hr & Hsum & _);
      destruct (refreshEach env rows c cs a b h st) as [r2 s2 ev2]
  end.
  cbn [result] in *. exists x, y. split; [exact Hr|]. lia.
Qed.

Lemma refresh_counts_every_expiring_token_witness :
  exists refreshed failed,
    OAuth.result (OAuth.refreshAllTokens Cases.office "client-id" "client-secret" []
                    Cases.oneToken) = Ok (refreshed, failed) /\
    refreshed + failed = 1.
Proof.
  exact (refresh_counts_every_expiring_token Cases.office
           "client-id" "client-secret" [] Cases.oneToken eq_refl).
Defined.

End OAuthFacts.
